(** * The libevent adapter of libwebsockets

    A shallow embedding of [lib/event-libs/libevent/libevent.c] and the
    properties of its watch lifecycle, readiness translation and loop
    ownership.

    The C functions become functions of a small state monad: the state holds
    the one [struct lws_context], the connections ([struct lws]) by address
    and the state of the libevent library; every call that leaves the file
    (into libevent, [lws_service_fd], [lws_create_event_pipes]) is recorded,
    in order, next to the result. *)

From Stdlib Require Import ZArith List Bool Lia.
From stdpp Require Import base gmap list.
Import ListNotations.

Local Open Scope Z_scope.

(** ** Data *)

(** C pointers are addresses; [NULL] is address 0. *)
Definition ptr := Z.
Definition NULL : ptr := 0.

(** A C integer used as a condition. *)
Definition truthy (z : Z) : bool := negb (z =? 0).

(** Function pointers handed to libevent as callbacks. *)
Inductive callback : Type :=
| Lws_event_cb
| Lws_event_sigint_cb
| User_cb (id : nat).

(** The [void *ctx] argument registered with a callback: the address of a
    connection's read or write watcher, or of a per-thread structure. *)
Inductive cbarg : Type :=
| w_read_of (wsi : ptr)
| w_write_of (wsi : ptr)
| pt_of (tsi : nat).

(** [struct lws_pollfd] *)
Record lws_pollfd := Pollfd {
  pfd_fd : Z;
  pfd_events : Z;
  pfd_revents : Z }.

(** [struct lws_io_watcher]: [event.watcher] and [context]. *)
Record lws_io_watcher := IoWatcher {
  event_watcher : ptr;
  io_context : ptr }.

(** [lws_sock_file_fd_type], with both of its views. *)
Record lws_sock_file_fd_type := Desc {
  sockfd : Z;
  filefd : Z }.

Inductive lws_role_ops : Type :=
| role_ops_raw_file
| role_ops_other (id : nat).

(** [struct lws], the fields the adapter touches. *)
Record lws := Wsi {
  wsi_context : ptr;
  wsi_tsi : nat;
  role_ops : lws_role_ops;
  desc : lws_sock_file_fd_type;
  w_read : lws_io_watcher;
  w_write : lws_io_watcher }.

(** [struct lws_vhost]; [vhost_next] is the tail of the list it sits in. *)
Record lws_vhost := Vhost {
  lserv_wsi : ptr }.

(** [struct lws_context_per_thread] *)
Record lws_context_per_thread := PerThread {
  event_io_loop : ptr;
  event_loop_foreign : Z;
  w_sigint : lws_io_watcher }.

(** [struct lws_context] *)
Record lws_context := Context {
  options : Z;
  use_event_loop_sigint : Z;
  event_sigint_cb : option callback;
  being_destroyed : Z;
  count_threads : Z;
  vhost_list : list lws_vhost;
  pt : list lws_context_per_thread }.

(** What [private-libwebsockets.h] and libevent's [event.h] supply: the
    constants and the two option macros.  They are not part of the file
    under study and stay abstract. *)
Class Headers := {
  EV_TIMEOUT : Z;
  EV_READ : Z;
  EV_WRITE : Z;
  EV_SIGNAL : Z;
  EV_PERSIST : Z;
  EV_CLOSED : Z;
  LIBEVENT_VERSION_NUMBER : Z;
  SIGINT : Z;
  LWS_POLLIN : Z;
  LWS_POLLOUT : Z;
  LWS_EV_READ : Z;
  LWS_EV_WRITE : Z;
  LWS_EV_START : Z;
  LWS_EV_STOP : Z;
  LWS_SERVER_OPTION_LIBEVENT : Z;
  lws_check_opt : Z -> Z -> bool;
  LWS_LIBEVENT_ENABLED : lws_context -> bool }.

(** ** The libevent library

    An abstract state of the reactor: which instances and registrations are
    alive, which registrations are added, which instances were asked to stop.
    Addresses are handed out in increasing order and never reused.  A call
    that names an instance or a registration that is not alive is undefined
    behaviour in C; here it is kept in [faults].  [event_add] makes a
    registration pending whatever its instance: for one made on a null
    instance the library's answer depends on its default instance, which is
    outside this model. *)

Record event := Event {
  ev_base : ptr;
  ev_fd : Z;
  ev_events : Z;
  ev_callback : option callback;
  ev_arg : cbarg }.

Inductive call : Type :=
| Cevent_base_new (ret : ptr)
| Cevent_new (base : ptr) (fd what : Z) (cb : option callback) (arg : cbarg)
             (ret : ptr)
| Cevent_add (ev : ptr)
| Cevent_del (ev : ptr)
| Cevent_free (ev : ptr)
| Cevent_base_free (base : ptr)
| Cevent_base_loopbreak (base : ptr)
| Cevent_base_dispatch (base : ptr)
| Clws_create_event_pipes (context : ptr) (ret : Z)
| Clws_service_fd (context : ptr) (pfd : lws_pollfd).

Record libevent := Libevent {
  bases : gset Z;
  registrations : gmap Z event;
  pending : gset Z;
  break_requested : gset Z;
  next_addr : Z;
  base_new_fails : bool;
  faults : list call }.

(** ** The state and its monad *)

Record world := World {
  ctx : lws_context;
  wsis : gmap Z lws;
  reactor : libevent;
  create_event_pipes_rc : Z }.

Inductive outcome (A : Type) : Type :=
| Returns (a : A)
| AssertFailed
| Undefined.
Arguments Returns {A} a.
Arguments AssertFailed {A}.
Arguments Undefined {A}.

Record run (A : Type) := Run {
  out : outcome A;
  post : world;
  calls : list call }.
Arguments Run {A} out post calls.
Arguments out {A} r.
Arguments post {A} r.
Arguments calls {A} r.

Definition M (A : Type) : Type := world -> run A.

Definition ret {A} (a : A) : M A := fun w => Run (Returns a) w [].

Definition bind {A B} (m : M A) (k : A -> M B) : M B := fun w =>
  let r := m w in
  match out r with
  | Returns a =>
      let r' := k a (post r) in
      Run (out r') (post r') (calls r ++ calls r')
  | AssertFailed => Run AssertFailed (post r) (calls r)
  | Undefined => Run Undefined (post r) (calls r)
  end.

Declare Scope adapter_scope.
Delimit Scope adapter_scope with adapter.
Notation "x <- m ;; k" := (bind m (fun x => k))
  (at level 100, m at next level, right associativity) : adapter_scope.
Notation "m ;; k" := (bind m (fun _ => k))
  (at level 100, right associativity) : adapter_scope.
Local Open Scope adapter_scope.

Definition abort {A} : M A := fun w => Run AssertFailed w [].

(** [assert(e)] *)
Definition assert (e : bool) : M unit := if e then ret tt else abort.

Definition set_ctx (w : world) (c : lws_context) : world :=
  World c (wsis w) (reactor w) (create_event_pipes_rc w).
Definition set_wsis (w : world) (m : gmap Z lws) : world :=
  World (ctx w) m (reactor w) (create_event_pipes_rc w).
Definition set_reactor (w : world) (l : libevent) : world :=
  World (ctx w) (wsis w) l (create_event_pipes_rc w).

Definition get_ctx : M lws_context := fun w => Run (Returns (ctx w)) w [].

Definition put_ctx (c : lws_context) : M unit := fun w =>
  Run (Returns tt) (set_ctx w c) [].

(** [context->pt[tsi]], read and written; outside the array both are
    undefined. *)
Definition load_pt (tsi : nat) : M lws_context_per_thread := fun w =>
  match pt (ctx w) !! tsi with
  | Some p => Run (Returns p) w []
  | None => Run Undefined w []
  end.

Definition set_pt (c : lws_context) (l : list lws_context_per_thread)
  : lws_context :=
  Context (options c) (use_event_loop_sigint c) (event_sigint_cb c)
          (being_destroyed c) (count_threads c) (vhost_list c) l.

Definition store_pt (tsi : nat) (p : lws_context_per_thread) : M unit :=
  fun w =>
  match pt (ctx w) !! tsi with
  | Some _ =>
      Run (Returns tt) (set_ctx w (set_pt (ctx w) (<[tsi := p]> (pt (ctx w)))))
          []
  | None => Run Undefined w []
  end.

(** [*wsi], read and written; an address that holds no connection is
    undefined. *)
Definition load_wsi (p : ptr) : M lws := fun w =>
  match wsis w !! p with
  | Some c => Run (Returns c) w []
  | None => Run Undefined w []
  end.

Definition store_wsi (p : ptr) (c : lws) : M unit := fun w =>
  match wsis w !! p with
  | Some _ => Run (Returns tt) (set_wsis w (<[p := c]> (wsis w))) []
  | None => Run Undefined w []
  end.

(** *** What the library does on each call *)

Definition fault (c : call) (l : libevent) : libevent :=
  Libevent (bases l) (registrations l) (pending l) (break_requested l)
           (next_addr l) (base_new_fails l) (faults l ++ [c]).

Definition libevent_base_new (l : libevent) : ptr * libevent :=
  if base_new_fails l then (NULL, l)
  else (next_addr l,
        Libevent ({[next_addr l]} ∪ bases l) (registrations l) (pending l)
                 (break_requested l) (next_addr l + 1) (base_new_fails l)
                 (faults l)).

Definition libevent_new (e : event) (l : libevent) : ptr * libevent :=
  (next_addr l,
   Libevent (bases l) (<[next_addr l := e]> (registrations l)) (pending l)
            (break_requested l) (next_addr l + 1) (base_new_fails l)
            (faults l)).

Definition libevent_add (ev : ptr) (l : libevent) : libevent :=
  match registrations l !! ev with
  | Some _ =>
      Libevent (bases l) (registrations l) ({[ev]} ∪ pending l)
               (break_requested l) (next_addr l) (base_new_fails l) (faults l)
  | None => fault (Cevent_add ev) l
  end.

Definition libevent_del (ev : ptr) (l : libevent) : libevent :=
  match registrations l !! ev with
  | Some _ =>
      Libevent (bases l) (registrations l) (pending l ∖ {[ev]})
               (break_requested l) (next_addr l) (base_new_fails l) (faults l)
  | None => fault (Cevent_del ev) l
  end.

Definition libevent_free (ev : ptr) (l : libevent) : libevent :=
  match registrations l !! ev with
  | Some _ =>
      Libevent (bases l) (delete ev (registrations l)) (pending l ∖ {[ev]})
               (break_requested l) (next_addr l) (base_new_fails l) (faults l)
  | None => fault (Cevent_free ev) l
  end.

Definition libevent_base_free (base : ptr) (l : libevent) : libevent :=
  if decide (base ∈ bases l) then
    Libevent (bases l ∖ {[base]}) (registrations l) (pending l)
             (break_requested l ∖ {[base]}) (next_addr l) (base_new_fails l)
             (faults l)
  else fault (Cevent_base_free base) l.

Definition libevent_base_loopbreak (base : ptr) (l : libevent) : libevent :=
  if decide (base ∈ bases l) then
    Libevent (bases l) (registrations l) (pending l)
             ({[base]} ∪ break_requested l) (next_addr l) (base_new_fails l)
             (faults l)
  else fault (Cevent_base_loopbreak base) l.

(** *** The calls, as the adapter makes them *)

Definition event_base_new : M ptr := fun w =>
  let r := libevent_base_new (reactor w) in
  Run (Returns (fst r)) (set_reactor w (snd r)) [Cevent_base_new (fst r)].

Definition event_new (base : ptr) (fd what : Z) (cb : option callback)
  (arg : cbarg) : M ptr := fun w =>
  let r := libevent_new (Event base fd what cb arg) (reactor w) in
  Run (Returns (fst r)) (set_reactor w (snd r))
      [Cevent_new base fd what cb arg (fst r)].

Definition event_add (ev : ptr) : M unit := fun w =>
  Run (Returns tt) (set_reactor w (libevent_add ev (reactor w)))
      [Cevent_add ev].

Definition event_del (ev : ptr) : M unit := fun w =>
  Run (Returns tt) (set_reactor w (libevent_del ev (reactor w)))
      [Cevent_del ev].

Definition event_free (ev : ptr) : M unit := fun w =>
  Run (Returns tt) (set_reactor w (libevent_free ev (reactor w)))
      [Cevent_free ev].

Definition event_base_free (base : ptr) : M unit := fun w =>
  Run (Returns tt) (set_reactor w (libevent_base_free base (reactor w)))
      [Cevent_base_free base].

Definition event_base_loopbreak (base : ptr) : M unit := fun w =>
  Run (Returns tt) (set_reactor w (libevent_base_loopbreak base (reactor w)))
      [Cevent_base_loopbreak base].

(** The blocking dispatch itself is the library's business. *)
Definition event_base_dispatch (base : ptr) : M unit := fun w =>
  Run (Returns tt) w [Cevent_base_dispatch base].

(** ** The rest of libwebsockets

    [lws_service_fd] and [lws_create_event_pipes] live in other files; the
    adapter only calls them.  The first is recorded; the second is recorded
    and answers what the platform decides. *)

Definition lws_service_fd (context : ptr) (pollfd : lws_pollfd) : M unit :=
  fun w => Run (Returns tt) w [Clws_service_fd context pollfd].

Definition lws_create_event_pipes (context : ptr) : M Z := fun w =>
  Run (Returns (create_event_pipes_rc w)) w
      [Clws_create_event_pipes context (create_event_pipes_rc w)].

(** ** The adapter *)

Section Adapter.
Context `{hdr : Headers}.

(** [evsignal_new(b, x, cb, arg)] is libevent's macro for
    [event_new(b, x, EV_SIGNAL|EV_PERSIST, cb, arg)]. *)
Definition evsignal_new (base : ptr) (x : Z) (cb : option callback)
  (arg : cbarg) : M ptr :=
  event_new base x (Z.lor EV_SIGNAL EV_PERSIST) cb arg.

Definition or_bits (e : lws_pollfd) (bits : Z) : lws_pollfd :=
  Pollfd (pfd_fd e) (Z.lor (pfd_events e) bits) (Z.lor (pfd_revents e) bits).

Definition lws_event_cb (sock_fd revents : Z) (lws_io : lws_io_watcher)
  : M unit :=
  let context := io_context lws_io in
  if truthy (Z.land revents EV_TIMEOUT) then ret tt
  else if (LIBEVENT_VERSION_NUMBER <? 0x02000000)
          && truthy (Z.land revents EV_CLOSED) then
    event_del (event_watcher lws_io) ;;
    event_free (event_watcher lws_io)
  else
    let eventfd := Pollfd sock_fd 0 0 in
    let eventfd :=
      if truthy (Z.land revents EV_READ) then or_bits eventfd LWS_POLLIN
      else eventfd in
    let eventfd :=
      if truthy (Z.land revents EV_WRITE) then or_bits eventfd LWS_POLLOUT
      else eventfd in
    lws_service_fd context eventfd.

(** The callback's [ctx] is [&context->pt[tsi]]. *)
Definition lws_event_sigint_cb (sock_fd revents : Z) (tsi : nat) : M unit :=
  p <- load_pt tsi ;;
  if negb (truthy (event_loop_foreign p)) then
    event_base_loopbreak (event_io_loop p)
  else ret tt.

Definition lws_event_sigint_cfg (context : ptr) (use_event_sigint : Z)
  (cb : option callback) : M Z :=
  c <- get_ctx ;;
  put_ctx (Context (options c) use_event_sigint
                   (match cb with
                    | Some f => Some f
                    | None => Some Lws_event_sigint_cb
                    end)
                   (being_destroyed c) (count_threads c) (vhost_list c)
                   (pt c)) ;;
  ret 0.

Definition set_io_loop (p : lws_context_per_thread) (loop : ptr) :=
  PerThread loop (event_loop_foreign p) (w_sigint p).
Definition set_foreign (p : lws_context_per_thread) (f : Z) :=
  PerThread (event_io_loop p) f (w_sigint p).
Definition set_w_sigint (p : lws_context_per_thread) (w : lws_io_watcher) :=
  PerThread (event_io_loop p) (event_loop_foreign p) w.
Definition set_w_read (c : lws) (w : lws_io_watcher) :=
  Wsi (wsi_context c) (wsi_tsi c) (role_ops c) (desc c) w (w_write c).
Definition set_w_write (c : lws) (w : lws_io_watcher) :=
  Wsi (wsi_context c) (wsi_tsi c) (role_ops c) (desc c) (w_read c) w.
Definition set_watcher (w : lws_io_watcher) (ev : ptr) :=
  IoWatcher ev (io_context w).
Definition set_io_context (w : lws_io_watcher) (context : ptr) :=
  IoWatcher (event_watcher w) context.

(** The [while (vh)] loop of [lws_event_initloop]. *)
Fixpoint initloop_vhosts (context loop : ptr) (vh : list lws_vhost)
  : M unit :=
  match vh with
  | [] => ret tt
  | v :: vhost_next =>
      (if truthy (lserv_wsi v) then
         wsi <- load_wsi (lserv_wsi v) ;;
         store_wsi (lserv_wsi v)
                   (set_w_read wsi (set_io_context (w_read wsi) context)) ;;
         wsi <- load_wsi (lserv_wsi v) ;;
         ev <- event_new loop (sockfd (desc wsi)) (Z.lor EV_READ EV_PERSIST)
                         (Some Lws_event_cb) (w_read_of (lserv_wsi v)) ;;
         store_wsi (lserv_wsi v)
                   (set_w_read wsi (set_watcher (w_read wsi) ev)) ;;
         wsi <- load_wsi (lserv_wsi v) ;;
         event_add (event_watcher (w_read wsi))
       else ret tt) ;;
      initloop_vhosts context loop vhost_next
  end.

Definition lws_event_initloop (context : ptr) (loop : ptr) (tsi : nat)
  : M Z :=
  c <- get_ctx ;;
  let vh := vhost_list c in
  (if negb (truthy loop) then
     b <- event_base_new ;;
     p <- load_pt tsi ;;
     store_pt tsi (set_io_loop p b)
   else
     p <- load_pt tsi ;;
     store_pt tsi (set_foreign p 1) ;;
     p <- load_pt tsi ;;
     store_pt tsi (set_io_loop p loop)) ;;
  rc <- lws_create_event_pipes context ;;
  if truthy rc then ret 1
  else
    initloop_vhosts context loop vh ;;
    c <- get_ctx ;;
    if negb (truthy (use_event_loop_sigint c)) then ret 0
    else
      ev <- evsignal_new loop SIGINT (event_sigint_cb c) (pt_of tsi) ;;
      p <- load_pt tsi ;;
      store_pt tsi (set_w_sigint p (set_watcher (w_sigint p) ev)) ;;
      p <- load_pt tsi ;;
      event_add (event_watcher (w_sigint p)) ;;
      ret 0.

(** The [while (vh)] loop of [lws_libevent_destroyloop]. *)
Fixpoint destroyloop_vhosts (vh : list lws_vhost) : M unit :=
  match vh with
  | [] => ret tt
  | v :: vhost_next =>
      (if truthy (lserv_wsi v) then
         wsi <- load_wsi (lserv_wsi v) ;;
         event_free (event_watcher (w_read wsi)) ;;
         store_wsi (lserv_wsi v)
                   (set_w_read wsi (set_watcher (w_read wsi) NULL))
       else ret tt) ;;
      destroyloop_vhosts vhost_next
  end.

Definition lws_libevent_destroyloop (context : ptr) (tsi : nat) : M unit :=
  c <- get_ctx ;;
  let vh := vhost_list c in
  if negb (lws_check_opt (options c) LWS_SERVER_OPTION_LIBEVENT) then ret tt
  else
    p <- load_pt tsi ;;
    if negb (truthy (event_io_loop p)) then ret tt
    else
      destroyloop_vhosts vh ;;
      (if truthy (use_event_loop_sigint c) then
         event_free (event_watcher (w_sigint p))
       else ret tt) ;;
      if negb (truthy (event_loop_foreign p)) then
        event_base_free (event_io_loop p)
      else ret tt.

Definition lws_libevent_accept (new_wsi : ptr) (d : lws_sock_file_fd_type)
  : M unit :=
  wsi <- load_wsi new_wsi ;;
  let context := wsi_context wsi in
  c <- get_ctx ;;
  if negb (LWS_LIBEVENT_ENABLED c) then ret tt
  else
    store_wsi new_wsi
              (set_w_read wsi (set_io_context (w_read wsi) context)) ;;
    wsi <- load_wsi new_wsi ;;
    store_wsi new_wsi
              (set_w_write wsi (set_io_context (w_write wsi) context)) ;;
    wsi <- load_wsi new_wsi ;;
    p <- load_pt (wsi_tsi wsi) ;;
    let fd := match role_ops wsi with
              | role_ops_raw_file => filefd d
              | role_ops_other _ => sockfd d
              end in
    ev <- event_new (event_io_loop p) fd (Z.lor EV_READ EV_PERSIST)
                    (Some Lws_event_cb) (w_read_of new_wsi) ;;
    store_wsi new_wsi (set_w_read wsi (set_watcher (w_read wsi) ev)) ;;
    wsi <- load_wsi new_wsi ;;
    ev <- event_new (event_io_loop p) fd (Z.lor EV_WRITE EV_PERSIST)
                    (Some Lws_event_cb) (w_write_of new_wsi) ;;
    store_wsi new_wsi (set_w_write wsi (set_watcher (w_write wsi) ev)).

Definition lws_libevent_destroy (wsi : ptr) : M unit :=
  if negb (truthy wsi) then ret tt
  else
    c <- load_wsi wsi ;;
    (if truthy (event_watcher (w_read c)) then
       event_free (event_watcher (w_read c))
     else ret tt) ;;
    c <- load_wsi wsi ;;
    if truthy (event_watcher (w_write c)) then
      event_free (event_watcher (w_write c))
    else ret tt.

Definition lws_libevent_io (wsi : ptr) (flags : Z) : M unit :=
  w <- load_wsi wsi ;;
  c <- get_ctx ;;
  if negb (LWS_LIBEVENT_ENABLED c) then ret tt
  else
    p <- load_pt (wsi_tsi w) ;;
    if negb (truthy (event_io_loop p)) || truthy (being_destroyed c)
    then ret tt
    else
      assert (truthy (Z.land flags (Z.lor LWS_EV_START LWS_EV_STOP))
              && truthy (Z.land flags (Z.lor LWS_EV_READ LWS_EV_WRITE))) ;;
      if truthy (Z.land flags LWS_EV_START) then
        (if truthy (Z.land flags LWS_EV_WRITE) then
           event_add (event_watcher (w_write w))
         else ret tt) ;;
        if truthy (Z.land flags LWS_EV_READ) then
          event_add (event_watcher (w_read w))
        else ret tt
      else
        (if truthy (Z.land flags LWS_EV_WRITE) then
           event_del (event_watcher (w_write w))
         else ret tt) ;;
        if truthy (Z.land flags LWS_EV_READ) then
          event_del (event_watcher (w_read w))
        else ret tt.

(** The [for] loop of [lws_libevent_init_fd_table], from thread [n] on, with
    [todo] threads left. *)
Fixpoint init_fd_table_threads (context : ptr) (n todo : nat) : M unit :=
  match todo with
  | O => ret tt
  | S todo' =>
      p <- load_pt n ;;
      store_pt n (set_w_sigint p (set_io_context (w_sigint p) context)) ;;
      init_fd_table_threads context (S n) todo'
  end.

Definition lws_libevent_init_fd_table (context : ptr) : M Z :=
  c <- get_ctx ;;
  if negb (LWS_LIBEVENT_ENABLED c) then ret 0
  else
    init_fd_table_threads context 0 (Z.to_nat (count_threads c)) ;;
    ret 1.

Definition lws_libevent_run (context : ptr) (tsi : nat) : M unit :=
  c <- get_ctx ;;
  p <- load_pt tsi ;;
  if truthy (event_io_loop p) && LWS_LIBEVENT_ENABLED c then
    event_base_dispatch (event_io_loop p)
  else ret tt.

End Adapter.

(** ** A concrete build and concrete states

    The header values of a Linux build against libevent 2.1, and of a build
    where the version test of [lws_event_cb] holds and its [EV_CLOSED] branch
    is compiled in, for running the adapter on examples. *)

Definition linux_libevent2 : Headers := {|
  EV_TIMEOUT := 0x01;
  EV_READ := 0x02;
  EV_WRITE := 0x04;
  EV_SIGNAL := 0x08;
  EV_PERSIST := 0x10;
  EV_CLOSED := 0x80;
  LIBEVENT_VERSION_NUMBER := 0x02010800;
  SIGINT := 2;
  LWS_POLLIN := 0x001;
  LWS_POLLOUT := 0x004;
  LWS_EV_READ := 1;
  LWS_EV_WRITE := 2;
  LWS_EV_START := 4;
  LWS_EV_STOP := 8;
  LWS_SERVER_OPTION_LIBEVENT := 2097152;
  lws_check_opt := fun c f => Z.land c f =? f;
  LWS_LIBEVENT_ENABLED := fun c => Z.land (options c) 2097152 =? 2097152 |}.

Definition old_libevent : Headers := {|
  EV_TIMEOUT := 0x01;
  EV_READ := 0x02;
  EV_WRITE := 0x04;
  EV_SIGNAL := 0x08;
  EV_PERSIST := 0x10;
  EV_CLOSED := 0x80;
  LIBEVENT_VERSION_NUMBER := 0x01040f00;
  SIGINT := 2;
  LWS_POLLIN := 0x001;
  LWS_POLLOUT := 0x004;
  LWS_EV_READ := 1;
  LWS_EV_WRITE := 2;
  LWS_EV_START := 4;
  LWS_EV_STOP := 8;
  LWS_SERVER_OPTION_LIBEVENT := 2097152;
  lws_check_opt := fun c f => Z.land c f =? f;
  LWS_LIBEVENT_ENABLED := fun c => Z.land (options c) 2097152 =? 2097152 |}.

Definition no_watcher : lws_io_watcher := IoWatcher NULL NULL.

(** A library where only an instance made by the embedding application, at
    [0x80], is alive; [fails] says whether [event_base_new] will fail. *)
Definition foreign_base : ptr := 0x80.

Definition libevent0 (fails : bool) : libevent :=
  Libevent {[foreign_base]} ∅ ∅ ∅ 0x100 fails [].

(** The context sits at address [0x1000]; one service thread. *)
Definition context_addr : ptr := 0x1000.

Definition context0 (opts use_sigint : Z) (vh : list lws_vhost)
  : lws_context :=
  Context opts use_sigint (Some Lws_event_sigint_cb) 0 1 vh
          [PerThread NULL 0 no_watcher].

(** A connection on thread 0 with no watches yet, for descriptor [fd]. *)
Definition wsi0 (fd : Z) : lws :=
  Wsi context_addr 0 (role_ops_other 0) (Desc fd fd) no_watcher no_watcher.

(** A server with the adapter enabled, interrupt handling on, one vhost
    listening on descriptor 3 (its connection at [0x2000]) and one client
    connection on descriptor 7 at [0x3000]; [pipes] is what
    [lws_create_event_pipes] will answer. *)
Definition server (fails : bool) (pipes : Z) : world :=
  World (context0 2097152 1 [Vhost 0x2000])
        (<[0x2000 := wsi0 3]> (<[0x3000 := wsi0 7]> ∅))
        (libevent0 fails) pipes.

(** The same server with the adapter switched off in the options. *)
Definition server_disabled : world :=
  World (context0 0 1 [Vhost 0x2000])
        (<[0x2000 := wsi0 3]> (<[0x3000 := wsi0 7]> ∅))
        (libevent0 false) 0.

(** The server after [lws_event_initloop] made its own loop for thread 0, and
    after it was handed the application's instance instead. *)
Definition initialised : world :=
  post (@lws_event_initloop linux_libevent2 context_addr NULL 0
          (server false 0)).

Definition adopted : world :=
  post (@lws_event_initloop linux_libevent2 context_addr foreign_base 0
          (server false 0)).

(** The server once [lws_event_sigint_cfg] switched interrupt handling
    off. *)
Definition quiet_server : world :=
  post (lws_event_sigint_cfg context_addr 0 None (server false 0)).

(** The initialised server once the client connection was accepted. *)
Definition serving : world :=
  post (@lws_libevent_accept linux_libevent2 0x3000 (Desc 7 7) initialised).

(** A run with the calls [cs] made before it. *)
Definition emit {A} (cs : list call) (r : run A) : run A :=
  Run (out r) (post r) (cs ++ calls r).

(** ** Vocabulary of the properties *)

Section Vocabulary.
Context `{hdr : Headers}.

(** The flags [lws_event_cb] derives from a native mask. *)
Definition translated (revents : Z) : Z :=
  Z.lor (if truthy (Z.land revents EV_READ) then LWS_POLLIN else 0)
        (if truthy (Z.land revents EV_WRITE) then LWS_POLLOUT else 0).

Definition readable (e : lws_pollfd) : Prop :=
  Z.land (pfd_revents e) LWS_POLLIN <> 0.
Definition writable (e : lws_pollfd) : Prop :=
  Z.land (pfd_revents e) LWS_POLLOUT <> 0.

(** Whether the [EV_CLOSED] branch is compiled in and taken. *)
Definition closed_branch (revents : Z) : bool :=
  (LIBEVENT_VERSION_NUMBER <? 0x02000000)
  && truthy (Z.land revents EV_CLOSED).

(** Every listening connection a vhost points to is there. *)
Definition valid_listeners (m : gmap Z lws) (vh : list lws_vhost) : Prop :=
  Forall (fun v => lserv_wsi v <> NULL -> is_Some (m !! lserv_wsi v)) vh.

(** The invariant of a watcher's registration token: null, or a
    registration that is alive in the library. *)
Definition token_ok (l : libevent) (io : lws_io_watcher) : Prop :=
  event_watcher io = NULL \/ is_Some (registrations l !! event_watcher io).

Definition tokens_ok (w : world) : Prop :=
  (forall q c, wsis w !! q = Some c ->
     token_ok (reactor w) (w_read c) /\ token_ok (reactor w) (w_write c)) /\
  (forall i p, pt (ctx w) !! i = Some p -> token_ok (reactor w) (w_sigint p)).

(** The same, as a check that runs. *)
Definition token_okb (l : libevent) (io : lws_io_watcher) : bool :=
  (event_watcher io =? NULL)
  || match registrations l !! event_watcher io with
     | Some _ => true
     | None => false
     end.

Definition tokens_okb (w : world) : bool :=
  forallb (fun qc => token_okb (reactor w) (w_read (snd qc))
                     && token_okb (reactor w) (w_write (snd qc)))
          (map_to_list (wsis w))
  && forallb (fun p => token_okb (reactor w) (w_sigint p)) (pt (ctx w)).

(** The vhosts that have a listening connection. *)
Definition listening_vhosts (vh : list lws_vhost) : list lws_vhost :=
  List.filter (fun v => truthy (lserv_wsi v)) vh.

(** A call that releases a watch. *)
Definition is_release (c : call) : Prop := exists ev, c = Cevent_free ev.

(** A call that destroys a reactor instance. *)
Definition is_destroy (c : call) : Prop := exists b, c = Cevent_base_free b.

(** In the calls [l], [a] is immediately followed by [b]. *)
Definition adjacent (a b : call) (l : list call) : Prop :=
  exists pre suf, l = pre ++ a :: b :: suf.

(** Every connection of [m] is still there in [m'], for the same
    descriptor. *)
Definition same_descs (m m' : gmap Z lws) : Prop :=
  forall q c, m !! q = Some c ->
  exists c', m' !! q = Some c' /\ desc c' = desc c.

(** A call that creates a watch whose callback argument is a per-thread
    structure: the interrupt-signal watch is the only one of that kind. *)
Definition is_signal_watch (c : call) : Prop :=
  exists base x what cb tsi ev, c = Cevent_new base x what cb (pt_of tsi) ev.

(** The callback [lws_event_sigint_cfg] installs for [cb]. *)
Definition configured_cb (cb : option callback) : callback :=
  match cb with
  | Some f => f
  | None => Lws_event_sigint_cb
  end.

(** ** Vocabulary of the further properties *)

(** The library's state is well formed: the addresses handed out so far are
    positive and below [next_addr], and what is added is registered. *)
Definition libevent_wf (l : libevent) : Prop :=
  0 < next_addr l /\
  (forall k e, registrations l !! k = Some e -> 0 < k < next_addr l) /\
  (forall k, k ∈ pending l -> is_Some (registrations l !! k)).

(** The same, as a check that runs. *)
Definition libevent_wfb (l : libevent) : bool :=
  (0 <? next_addr l)
  && forallb (fun ke => (0 <? fst ke) && (fst ke <? next_addr l))
             (map_to_list (registrations l))
  && forallb (fun k => match registrations l !! k with
                       | Some _ => true
                       | None => false
                       end)
             (elements (pending l)).

(** The descriptor [lws_libevent_accept] watches for the connection [c]. *)
Definition accept_fd (c : lws) (d : lws_sock_file_fd_type) : Z :=
  match role_ops c with
  | role_ops_raw_file => filefd d
  | role_ops_other _ => sockfd d
  end.

(** The connection [c] once it holds the two watches made at [n] and
    [n + 1]. *)
Definition accepted (c : lws) (n : ptr) : lws :=
  Wsi (wsi_context c) (wsi_tsi c) (role_ops c) (desc c)
      (IoWatcher n (wsi_context c)) (IoWatcher (n + 1) (wsi_context c)).

(** The two registrations behind them. *)
Definition read_event (base : ptr) (fd : Z) (wsi : ptr) : event :=
  Event base fd (Z.lor EV_READ EV_PERSIST) (Some Lws_event_cb)
        (w_read_of wsi).
Definition write_event (base : ptr) (fd : Z) (wsi : ptr) : event :=
  Event base fd (Z.lor EV_WRITE EV_PERSIST) (Some Lws_event_cb)
        (w_write_of wsi).

(** The thread structure [p] once [lws_event_initloop] gave it its instance:
    the supplied [loop], marked foreign, or what [event_base_new] returns
    in the library state [l]. *)
Definition bound_thread (loop : ptr) (l : libevent)
  (p : lws_context_per_thread) : lws_context_per_thread :=
  if truthy loop then PerThread loop 1 (w_sigint p)
  else PerThread (fst (libevent_base_new l)) (event_loop_foreign p)
                 (w_sigint p).

(** The calls [lws_event_initloop] makes before it looks at the vhosts. *)
Definition initloop_prefix (context loop : ptr) (w : world) : list call :=
  (if truthy loop then []
   else [Cevent_base_new (fst (libevent_base_new (reactor w)))])
  ++ [Clws_create_event_pipes context (create_event_pipes_rc w)].

(** A call that creates or adds a watch. *)
Definition is_new_or_add (c : call) : Prop :=
  (exists base fd what cb arg ev, c = Cevent_new base fd what cb arg ev) \/
  (exists ev, c = Cevent_add ev).

(** A watcher that is registered with the library and added. *)
Definition watching (l : libevent) (io : lws_io_watcher) : Prop :=
  is_Some (registrations l !! event_watcher io) /\
  event_watcher io ∈ pending l.

(** The connection [c'] is [c], possibly with its read token nulled. *)
Definition read_nulled (c c' : lws) : Prop :=
  c' = c \/ c' = set_w_read c (set_watcher (w_read c) NULL).

(** The context [c'] is [c] but for the thread table. *)
Definition only_threads_differ (c c' : lws_context) : Prop :=
  c' = set_pt c (pt c').

(** A call that adds or deletes a watch. *)
Definition is_add_or_del (c : call) : Prop :=
  (exists ev, c = Cevent_add ev) \/ (exists ev, c = Cevent_del ev).

(** What [lws_libevent_io] asks of the library for [flags] on the connection
    [c], once its guards and its assertion are passed: the write watch first,
    then the read watch, started when the start bit is set and stopped
    otherwise. *)
Definition io_reactor (flags : Z) (c : lws) (l : libevent) : libevent :=
  let op := if truthy (Z.land flags LWS_EV_START) then libevent_add
            else libevent_del in
  let l1 := if truthy (Z.land flags LWS_EV_WRITE)
            then op (event_watcher (w_write c)) l else l in
  if truthy (Z.land flags LWS_EV_READ)
  then op (event_watcher (w_read c)) l1 else l1.

Definition io_calls (flags : Z) (c : lws) : list call :=
  let op := if truthy (Z.land flags LWS_EV_START) then Cevent_add
            else Cevent_del in
  (if truthy (Z.land flags LWS_EV_WRITE)
   then [op (event_watcher (w_write c))] else [])
  ++ (if truthy (Z.land flags LWS_EV_READ)
      then [op (event_watcher (w_read c))] else []).

(** The thread structure [p] with the context written into its signal
    watcher, as [lws_libevent_init_fd_table] leaves the first [count]
    threads. *)
Definition with_sigint_context (context : ptr) (count i : nat)
  (p : lws_context_per_thread) : lws_context_per_thread :=
  if bool_decide (i < count)%nat
  then set_w_sigint p (set_io_context (w_sigint p) context)
  else p.

(** A listening connection as [lws_event_initloop] leaves it: its read
    watcher points back to the context and is registered and added. *)
Definition listening (context : ptr) (l : libevent) (c : lws) : Prop :=
  io_context (w_read c) = context /\ watching l (w_read c).

(** The library [l'] has every registration and every pending watch of
    [l]. *)
Definition grows (l l' : libevent) : Prop :=
  (forall k, is_Some (registrations l !! k) ->
             is_Some (registrations l' !! k)) /\
  (forall k, k ∈ pending l -> k ∈ pending l').

(** The server with two threads announced and one in the table. *)
Definition overcounted : world :=
  World (Context 2097152 1 (Some Lws_event_sigint_cb) 0 2 [Vhost 0x2000]
                 [PerThread NULL 0 no_watcher])
        (<[0x2000 := wsi0 3]> (<[0x3000 := wsi0 7]> ∅))
        (libevent0 false) 0.

(** The client connection of [serving]. *)
Definition client : lws :=
  Wsi context_addr 0 (role_ops_other 0) (Desc 7 7)
      (IoWatcher 0x103 context_addr) (IoWatcher 0x104 context_addr).

(** Thread 0 of [initialised], of [adopted] and of a server that was not set
    up. *)
Definition own_thread : lws_context_per_thread :=
  PerThread 0x100 0 (IoWatcher 0x102 NULL).
Definition adopted_thread : lws_context_per_thread :=
  PerThread foreign_base 1 (IoWatcher 0x101 NULL).
Definition idle_thread : lws_context_per_thread :=
  PerThread NULL 0 no_watcher.


(** The token [k] stands for the registration [e], which is made on an
    instance that is alive and is added. *)
Definition live_watch (l : libevent) (k : ptr) (e : event) : Prop :=
  registrations l !! k = Some e /\ k ∈ pending l /\ ev_base e ∈ bases l.

(** The same for a token the library has handed out, which no later
    registration can take. *)
Definition settled (l : libevent) (k : ptr) (e : event) : Prop :=
  k < next_addr l /\ live_watch l k e.

(** The library [l'] has all of [l]: the tokens handed out in [l] stand for
    what they stood for, and what was pending or alive still is. *)
Definition extends (l l' : libevent) : Prop :=
  next_addr l <= next_addr l' /\
  (forall k, k < next_addr l -> registrations l' !! k = registrations l !! k)
  /\ (forall k, k ∈ pending l -> k ∈ pending l')
  /\ (forall b, b ∈ bases l -> b ∈ bases l').

(** The registration behind the interrupt-signal watch of thread [tsi]. *)
Definition signal_event (base : ptr) (cb : option callback) (tsi : nat)
  : event :=
  Event base SIGINT (Z.lor EV_SIGNAL EV_PERSIST) cb (pt_of tsi).

End Vocabulary.

(** * Properties *)

Section Properties.
Context `{hdr : Headers}.

(** ** Running the monad *)

Lemma run_eta {A} (r : run A) : Run (out r) (post r) (calls r) = r.
Proof. destruct r; reflexivity. Qed.

Lemma bind_step {A B} (m : M A) (k : A -> M B) w a w' cs :
  m w = Run (Returns a) w' cs -> bind m k w = emit cs (k a w').
Proof. intros E. unfold bind. rewrite E. reflexivity. Qed.

Lemma bind_step_nil {A B} (m : M A) (k : A -> M B) w a w' :
  m w = Run (Returns a) w' [] -> bind m k w = k a w'.
Proof.
  intros E. rewrite (bind_step _ _ _ _ _ _ E). unfold emit. simpl.
  apply run_eta.
Qed.

Lemma bind_undefined {A B} (m : M A) (k : A -> M B) w w' cs :
  m w = Run Undefined w' cs -> bind m k w = Run Undefined w' cs.
Proof. intros E. unfold bind. rewrite E. reflexivity. Qed.

Lemma bind_abort {A B} (m : M A) (k : A -> M B) w w' cs :
  m w = Run AssertFailed w' cs -> bind m k w = Run AssertFailed w' cs.
Proof. intros E. unfold bind. rewrite E. reflexivity. Qed.

Lemma bind_assoc {A B C} (m : M A) (k : A -> M B) (h : B -> M C) w :
  bind (bind m k) h w = bind m (fun a => bind (k a) h) w.
Proof.
  unfold bind. destruct (m w) as [[a | |] w1 c1]; simpl; try reflexivity.
  destruct (k a w1) as [[b | |] w2 c2]; simpl; try reflexivity.
  rewrite app_assoc. reflexivity.
Qed.

Lemma ret_eq {A} (a : A) w : ret a w = Run (Returns a) w [].
Proof. reflexivity. Qed.

Lemma get_ctx_eq w : get_ctx w = Run (Returns (ctx w)) w [].
Proof. reflexivity. Qed.

Lemma put_ctx_eq c w : put_ctx c w = Run (Returns tt) (set_ctx w c) [].
Proof. reflexivity. Qed.

Lemma load_pt_eq tsi p w :
  pt (ctx w) !! tsi = Some p -> load_pt tsi w = Run (Returns p) w [].
Proof. intros E. unfold load_pt. rewrite E. reflexivity. Qed.

Lemma store_pt_eq tsi p p' w :
  pt (ctx w) !! tsi = Some p ->
  store_pt tsi p' w =
  Run (Returns tt) (set_ctx w (set_pt (ctx w) (<[tsi := p']> (pt (ctx w)))))
      [].
Proof. intros E. unfold store_pt. rewrite E. reflexivity. Qed.

Lemma load_wsi_eq p c w :
  wsis w !! p = Some c -> load_wsi p w = Run (Returns c) w [].
Proof. intros E. unfold load_wsi. rewrite E. reflexivity. Qed.

Lemma store_wsi_eq p c c' w :
  wsis w !! p = Some c ->
  store_wsi p c' w = Run (Returns tt) (set_wsis w (<[p := c']> (wsis w))) [].
Proof. intros E. unfold store_wsi. rewrite E. reflexivity. Qed.

Lemma event_free_eq ev w :
  event_free ev w =
  Run (Returns tt) (set_reactor w (libevent_free ev (reactor w)))
      [Cevent_free ev].
Proof. reflexivity. Qed.

Lemma event_add_eq ev w :
  event_add ev w =
  Run (Returns tt) (set_reactor w (libevent_add ev (reactor w)))
      [Cevent_add ev].
Proof. reflexivity. Qed.

Lemma event_del_eq ev w :
  event_del ev w =
  Run (Returns tt) (set_reactor w (libevent_del ev (reactor w)))
      [Cevent_del ev].
Proof. reflexivity. Qed.

Lemma event_base_free_eq b w :
  event_base_free b w =
  Run (Returns tt) (set_reactor w (libevent_base_free b (reactor w)))
      [Cevent_base_free b].
Proof. reflexivity. Qed.

Lemma event_base_loopbreak_eq b w :
  event_base_loopbreak b w =
  Run (Returns tt) (set_reactor w (libevent_base_loopbreak b (reactor w)))
      [Cevent_base_loopbreak b].
Proof. reflexivity. Qed.

Lemma event_new_eq base fd what cb arg w :
  event_new base fd what cb arg w =
  Run (Returns (next_addr (reactor w)))
      (set_reactor w (snd (libevent_new (Event base fd what cb arg)
                                        (reactor w))))
      [Cevent_new base fd what cb arg (next_addr (reactor w))].
Proof. reflexivity. Qed.

Lemma event_base_new_eq w :
  event_base_new w =
  Run (Returns (fst (libevent_base_new (reactor w))))
      (set_reactor w (snd (libevent_base_new (reactor w))))
      [Cevent_base_new (fst (libevent_base_new (reactor w)))].
Proof. reflexivity. Qed.

Lemma lws_create_event_pipes_eq context w :
  lws_create_event_pipes context w =
  Run (Returns (create_event_pipes_rc w)) w
      [Clws_create_event_pipes context (create_event_pipes_rc w)].
Proof. reflexivity. Qed.

(** One step of a run: the first operation of a sequence is carried out. *)
Lemma list_lookup_insert_Some {A} (l : list A) i x y :
  l !! i = Some x -> <[i := y]> l !! i = Some y.
Proof. intros E. apply list_lookup_insert_eq. eapply lookup_lt_Some, E. Qed.

Ltac lookup_now :=
  simpl;
  first [ eassumption
        | apply lookup_insert_eq
        | eapply list_lookup_insert_Some; lookup_now ].
Ltac pure_op :=
  first [ apply ret_eq | apply get_ctx_eq | apply put_ctx_eq
        | eapply load_wsi_eq; lookup_now
        | eapply store_wsi_eq; lookup_now
        | eapply load_pt_eq; lookup_now
        | eapply store_pt_eq; lookup_now ].
Ltac lib_op :=
  first [ apply event_free_eq | apply event_add_eq | apply event_del_eq
        | apply event_base_free_eq | apply event_base_loopbreak_eq
        | apply event_new_eq | apply event_base_new_eq
        | apply lws_create_event_pipes_eq ].
Ltac mstep :=
  rewrite ?bind_assoc;
  first [ erewrite bind_step_nil by pure_op
        | erewrite bind_step by lib_op ].

Lemma truthy_true (z : Z) : truthy z = true <-> z <> 0.
Proof. unfold truthy. rewrite negb_true_iff, Z.eqb_neq. tauto. Qed.

Lemma truthy_false (z : Z) : truthy z = false <-> z = 0.
Proof. unfold truthy. rewrite negb_false_iff, Z.eqb_eq. tauto. Qed.

(** ** The readiness callback *)

Lemma lws_event_cb_timeout sock_fd revents lws_io w :
  truthy (Z.land revents EV_TIMEOUT) = true ->
  lws_event_cb sock_fd revents lws_io w = Run (Returns tt) w [].
Proof. intros E. unfold lws_event_cb. rewrite E. reflexivity. Qed.

Lemma lws_event_cb_service sock_fd revents lws_io w :
  truthy (Z.land revents EV_TIMEOUT) = false ->
  closed_branch revents = false ->
  lws_event_cb sock_fd revents lws_io w =
  Run (Returns tt) w
      [Clws_service_fd (io_context lws_io)
         (Pollfd sock_fd (translated revents) (translated revents))].
Proof.
  intros E1 E2. unfold lws_event_cb, closed_branch in *. rewrite E1, E2.
  unfold translated, lws_service_fd, or_bits.
  destruct (truthy (Z.land revents EV_READ)),
           (truthy (Z.land revents EV_WRITE)); simpl;
    rewrite ?Z.lor_0_r; reflexivity.
Qed.

Lemma lws_event_cb_closed sock_fd revents lws_io w :
  truthy (Z.land revents EV_TIMEOUT) = false ->
  closed_branch revents = true ->
  calls (lws_event_cb sock_fd revents lws_io w) =
  [Cevent_del (event_watcher lws_io); Cevent_free (event_watcher lws_io)].
Proof.
  intros E1 E2. unfold lws_event_cb, closed_branch in *. rewrite E1, E2.
  reflexivity.
Qed.

(** Reading the translated flags back, when the two poll flags are distinct
    bits. *)
Lemma translated_pollin revents :
  LWS_POLLIN <> 0 -> Z.land LWS_POLLIN LWS_POLLOUT = 0 ->
  Z.land (translated revents) LWS_POLLIN <> 0 <->
  Z.land revents EV_READ <> 0.
Proof.
  intros Hin Hd. unfold translated. rewrite Z.land_lor_distr_l.
  rewrite Z.land_comm in Hd.
  destruct (truthy (Z.land revents EV_READ)) eqn:Er,
           (truthy (Z.land revents EV_WRITE)) eqn:Ew;
    rewrite ?truthy_true, ?truthy_false in Er;
    rewrite ?Z.land_diag, ?Hd, ?Z.land_0_l, ?Z.lor_0_r; simpl; tauto.
Qed.

Lemma translated_pollout revents :
  LWS_POLLOUT <> 0 -> Z.land LWS_POLLIN LWS_POLLOUT = 0 ->
  Z.land (translated revents) LWS_POLLOUT <> 0 <->
  Z.land revents EV_WRITE <> 0.
Proof.
  intros Hout Hd. unfold translated. rewrite Z.land_lor_distr_l.
  destruct (truthy (Z.land revents EV_READ)) eqn:Er,
           (truthy (Z.land revents EV_WRITE)) eqn:Ew;
    rewrite ?truthy_true, ?truthy_false in Ew;
    rewrite ?Z.land_diag, ?Hd, ?Z.land_0_l, ?Z.lor_0_l; simpl; tauto.
Qed.

(** C2, as amended.  A mask with the timeout bit is dropped: nothing is
    forwarded and the state is as before.  Every other mask (outside the
    abrupt-close branch of old libevent builds) forwards exactly one record to
    [lws_service_fd], for the callback's descriptor and context, readable iff
    the read bit is set and writable iff the write bit is set, and leaves the
    state as before; a mask with neither bit is forwarded too, with no flag
    set. *)
Theorem lws_event_cb_translation sock_fd revents lws_io w :
  LWS_POLLIN <> 0 -> LWS_POLLOUT <> 0 -> Z.land LWS_POLLIN LWS_POLLOUT = 0 ->
  (Z.land revents EV_TIMEOUT <> 0 ->
   lws_event_cb sock_fd revents lws_io w = Run (Returns tt) w []) /\
  (Z.land revents EV_TIMEOUT = 0 -> closed_branch revents = false ->
   exists e,
     lws_event_cb sock_fd revents lws_io w =
       Run (Returns tt) w [Clws_service_fd (io_context lws_io) e] /\
     pfd_fd e = sock_fd /\
     (readable e <-> Z.land revents EV_READ <> 0) /\
     (writable e <-> Z.land revents EV_WRITE <> 0) /\
     (Z.land revents EV_READ = 0 -> Z.land revents EV_WRITE = 0 ->
      pfd_revents e = 0)).
Proof.
  intros Hin Hout Hd. split.
  - intros Ht. apply lws_event_cb_timeout. now apply truthy_true.
  - intros Ht Hc. exists (Pollfd sock_fd (translated revents)
                                 (translated revents)).
    split; [apply lws_event_cb_service; [now apply truthy_false | exact Hc] |].
    split; [reflexivity |].
    split; [now apply translated_pollin |].
    split; [now apply translated_pollout |].
    intros Hr Hw. simpl. unfold translated.
    apply truthy_false in Hr, Hw. rewrite Hr, Hw. reflexivity.
Qed.

(** C10.  Whatever record [lws_event_cb] hands to [lws_service_fd], its
    [events] and [revents] fields are equal, both being the flags translated
    from the native mask. *)
Theorem lws_event_cb_events_eq_revents sock_fd revents lws_io w context e :
  In (Clws_service_fd context e)
     (calls (lws_event_cb sock_fd revents lws_io w)) ->
  pfd_events e = pfd_revents e /\ pfd_revents e = translated revents.
Proof.
  intros Hin.
  destruct (truthy (Z.land revents EV_TIMEOUT)) eqn:Et.
  - rewrite lws_event_cb_timeout in Hin by exact Et. destruct Hin.
  - destruct (closed_branch revents) eqn:Ec.
    + rewrite lws_event_cb_closed in Hin by assumption.
      simpl in Hin. destruct Hin as [H | [H | []]]; discriminate H.
    + rewrite lws_event_cb_service in Hin by assumption.
      simpl in Hin. destruct Hin as [H | []]. inversion H; subst.
      split; reflexivity.
Qed.

(** ** Tearing a loop down *)

Lemma valid_listeners_dom (m m' : gmap Z lws) vh :
  dom m' = dom m -> valid_listeners m vh -> valid_listeners m' vh.
Proof.
  intros Hd Hv. unfold valid_listeners in *.
  eapply Forall_impl; [exact Hv |]. simpl. intros v Hp Hn.
  apply elem_of_dom. rewrite Hd. apply elem_of_dom. auto.
Qed.

Lemma dom_insert_present (m : gmap Z lws) p c c' :
  m !! p = Some c -> dom (<[p := c']> m) = dom m.
Proof.
  intros E. apply dom_insert_lookup_L. eauto.
Qed.

(** The loop over the vhosts only releases watches; it leaves the context
    alone and, when every listening connection is there, runs to its end. *)
Lemma destroyloop_vhosts_spec vh : forall w,
  let r := destroyloop_vhosts vh w in
  Forall is_release (calls r) /\
  ctx (post r) = ctx w /\
  (valid_listeners (wsis w) vh -> out r = Returns tt).
Proof.
  induction vh as [| v vh IH]; intros w; simpl.
  - repeat split; constructor.
  - destruct (truthy (lserv_wsi v)) eqn:Ev.
    + destruct (wsis w !! lserv_wsi v) as [c |] eqn:Ec.
      * do 3 mstep.
        match goal with |- context [destroyloop_vhosts vh ?w'] =>
          destruct (IH w') as (IHc & IHx & IHo) end.
        simpl in *. split; [| split].
        -- constructor; [eexists; reflexivity | exact IHc].
        -- exact IHx.
        -- intros Hv. inversion Hv as [| ? ? _ Hvs]; subst. apply IHo.
           eapply valid_listeners_dom; [| exact Hvs].
           apply (dom_insert_present _ _ c); exact Ec.
      * rewrite bind_assoc.
        erewrite bind_undefined
          by (unfold load_wsi; rewrite Ec; reflexivity).
        simpl. repeat split; [constructor |].
        intros Hv. inversion Hv as [| ? ? Hp _]; subst.
        apply truthy_true in Ev. destruct (Hp Ev) as [c Hc]. congruence.
    + mstep. destruct (IH w) as (IHc & IHx & IHo).
      repeat split; auto.
      intros Hv. inversion Hv; subst. auto.
Qed.

Lemma last_split {A} (P : A -> Prop) (rel : list A) d pre c suf :
  Forall P rel -> ~ P c -> rel ++ [d] = pre ++ c :: suf ->
  pre = rel /\ c = d /\ suf = [].
Proof.
  intros Hrel Hc. revert pre. induction Hrel as [| a rel Ha Hrel IH];
    intros pre E.
  - destruct pre as [| b pre]; simpl in E.
    + inversion E; subst. auto.
    + inversion E as [[Eb E']]. destruct pre; discriminate E'.
  - destruct pre as [| b pre]; simpl in E.
    + inversion E; subst. contradiction.
    + inversion E as [[Eb E']]. subst b.
      destruct (IH pre E') as (-> & -> & ->). auto.
Qed.

Lemma release_not_destroy c : is_release c -> ~ is_destroy c.
Proof. intros [ev ->] [b Hb]. discriminate Hb. Qed.

(** The calls of [lws_libevent_destroyloop]: watch releases, then at most one
    instance destroy, which is of the thread's own instance and is there only
    for an enabled adapter and an initialised loop that is not foreign. *)
Lemma destroyloop_trace context tsi w :
  let r := lws_libevent_destroyloop context tsi w in
  exists rel tail,
    calls r = rel ++ tail /\ Forall is_release rel /\
    (tail = [] \/
     exists p, pt (ctx w) !! tsi = Some p /\
       tail = [Cevent_base_free (event_io_loop p)] /\
       lws_check_opt (options (ctx w)) LWS_SERVER_OPTION_LIBEVENT = true /\
       event_io_loop p <> NULL /\ event_loop_foreign p = 0).
Proof.
  unfold lws_libevent_destroyloop. mstep.
  destruct (lws_check_opt _ _) eqn:Eo; simpl;
    [| exists [], []; repeat split; auto; constructor].
  destruct (pt (ctx w) !! tsi) as [p |] eqn:Ep;
    [| erewrite bind_undefined
         by (unfold load_pt; rewrite Ep; reflexivity);
       exists [], []; repeat split; auto; constructor].
  mstep.
  destruct (truthy (event_io_loop p)) eqn:El; simpl;
    [| exists [], []; repeat split; auto; constructor].
  apply truthy_true in El.
  destruct (destroyloop_vhosts_spec (vhost_list (ctx w)) w) as (Hc & _ & _).
  unfold bind at 1.
  destruct (destroyloop_vhosts (vhost_list (ctx w)) w) as [o w1 c1].
  simpl in *.
  destruct o as [[] | |]; simpl;
    [| exists c1, []; rewrite app_nil_r; auto
     | exists c1, []; rewrite app_nil_r; auto].
  destruct (truthy (use_event_loop_sigint (ctx w))),
           (truthy (event_loop_foreign p)) eqn:Ef; mstep; simpl.
  - exists (c1 ++ [Cevent_free (event_watcher (w_sigint p))]), [].
    rewrite app_nil_r. repeat split; auto.
    apply Forall_app; split; [exact Hc |].
    constructor; [eexists; reflexivity | constructor].
  - exists (c1 ++ [Cevent_free (event_watcher (w_sigint p))]),
           [Cevent_base_free (event_io_loop p)].
    rewrite <- app_assoc.
    split; [reflexivity |]. split.
    + apply Forall_app; split; [exact Hc |].
      constructor; [eexists; reflexivity | constructor].
    + right. exists p. apply truthy_false in Ef. auto.
  - exists c1, []. auto.
  - exists c1, [Cevent_base_free (event_io_loop p)].
    repeat split; auto. right. exists p. apply truthy_false in Ef. auto.
Qed.

(** A release leaves no registration behind: the released token is not
    registered afterwards, and no token becomes registered. *)
Lemma registrations_free_None ev l k :
  registrations l !! k = None ->
  registrations (libevent_free ev l) !! k = None.
Proof.
  intros E. unfold libevent_free. destruct (registrations l !! ev); simpl.
  - destruct (decide (ev = k)) as [-> | Hn].
    + apply lookup_delete_eq.
    + rewrite lookup_delete_ne by exact Hn. exact E.
  - exact E.
Qed.

Lemma registrations_free_eq ev l :
  registrations (libevent_free ev l) !! ev = None.
Proof.
  unfold libevent_free. destruct (registrations l !! ev) eqn:E; simpl.
  - apply lookup_delete_eq.
  - exact E.
Qed.

Lemma registrations_base_free b l :
  registrations (libevent_base_free b l) = registrations l.
Proof.
  unfold libevent_base_free. destruct (decide (b ∈ bases l)); reflexivity.
Qed.

(** The loop over the vhosts at teardown makes one call for each vhost that
    has a listening connection, and the read token each of these connections
    held before is released by one of them and is not registered
    afterwards. *)
Lemma destroyloop_vhosts_releases vh : forall w,
  valid_listeners (wsis w) vh ->
  let r := destroyloop_vhosts vh w in
  length (calls r) = length (listening_vhosts vh) /\
  (forall k, registrations (reactor w) !! k = None ->
             registrations (reactor (post r)) !! k = None) /\
  (forall v c, In v vh -> lserv_wsi v <> NULL ->
     wsis w !! lserv_wsi v = Some c ->
     In (Cevent_free (event_watcher (w_read c))) (calls r) /\
     registrations (reactor (post r)) !! event_watcher (w_read c) = None).
Proof.
  induction vh as [| v vh IH]; intros w Hv; simpl.
  - split; [reflexivity |]. split; [auto | intros v c []].
  - inversion Hv as [| ? ? Hp Hvs]; subst.
    unfold listening_vhosts. simpl.
    destruct (truthy (lserv_wsi v)) eqn:Ev.
    + apply truthy_true in Ev. destruct (Hp Ev) as [c Ec].
      do 3 mstep.
      match goal with |- context [destroyloop_vhosts vh ?w'] =>
        set (w1 := w') end.
      destruct (IH w1) as (IHn & IHk & IHv).
      { eapply valid_listeners_dom; [| exact Hvs].
        apply (dom_insert_present _ _ c); exact Ec. }
      simpl. split; [f_equal; exact IHn |]. split.
      * intros k Hk. apply IHk. simpl.
        apply registrations_free_None, Hk.
      * assert (Hc : forall c', wsis w !! lserv_wsi v = Some c' ->
                  (Cevent_free (event_watcher (w_read c')) =
                   Cevent_free (event_watcher (w_read c)) \/
                   In (Cevent_free (event_watcher (w_read c')))
                      (calls (destroyloop_vhosts vh w1))) /\
                  registrations (reactor (post (destroyloop_vhosts vh w1)))
                    !! event_watcher (w_read c') = None).
        { intros c' E'. rewrite Ec in E'. inversion E'; subst c'.
          split; [left; reflexivity |].
          apply IHk. simpl. apply registrations_free_eq. }
        intros v' c' [<- | Hin] Hn E'.
        -- destruct (Hc c' E') as [[A | A] B]; split; auto.
        -- destruct (decide (lserv_wsi v' = lserv_wsi v)) as [Eq | Ne].
           ++ rewrite Eq in E'.
              destruct (Hc c' E') as [[A | A] B]; split; auto.
           ++ destruct (IHv v' c' Hin Hn) as [A B].
              { simpl. rewrite lookup_insert_ne by congruence. exact E'. }
              split; [right; exact A | exact B].
    + mstep. destruct (IH w Hvs) as (IHn & IHk & IHv).
      split; [exact IHn |]. split; [exact IHk |].
      intros v' c' [<- | Hin] Hn E'.
      * apply truthy_false in Ev. contradiction.
      * exact (IHv v' c' Hin Hn E').
Qed.

(** A full teardown of an initialised loop on an enabled adapter, whose
    listening connections are there, in terms of its loop over the vhosts. *)
Lemma destroyloop_run context tsi w p :
  pt (ctx w) !! tsi = Some p ->
  valid_listeners (wsis w) (vhost_list (ctx w)) ->
  lws_check_opt (options (ctx w)) LWS_SERVER_OPTION_LIBEVENT = true ->
  event_io_loop p <> NULL ->
  let rv := destroyloop_vhosts (vhost_list (ctx w)) w in
  let l1 := if truthy (use_event_loop_sigint (ctx w))
            then libevent_free (event_watcher (w_sigint p))
                               (reactor (post rv))
            else reactor (post rv) in
  lws_libevent_destroyloop context tsi w =
  Run (Returns tt)
      (set_reactor (post rv)
         (if truthy (event_loop_foreign p) then l1
          else libevent_base_free (event_io_loop p) l1))
      (calls rv
       ++ (if truthy (use_event_loop_sigint (ctx w))
           then [Cevent_free (event_watcher (w_sigint p))] else [])
       ++ (if truthy (event_loop_foreign p) then []
           else [Cevent_base_free (event_io_loop p)])).
Proof.
  intros Ep Hv Eo El. cbv zeta. unfold lws_libevent_destroyloop. mstep.
  rewrite Eo. change (negb true) with false. cbv iota zeta. mstep.
  apply truthy_true in El. rewrite El. change (negb true) with false.
  cbv iota.
  destruct (destroyloop_vhosts_spec (vhost_list (ctx w)) w) as (_ & _ & Ho).
  specialize (Ho Hv).
  destruct (destroyloop_vhosts (vhost_list (ctx w)) w) as [o w1 c1] eqn:Erv.
  simpl in Ho. subst o. rewrite (bind_step _ _ _ _ _ _ Erv).
  destruct (truthy (use_event_loop_sigint (ctx w))),
           (truthy (event_loop_foreign p));
    mstep; unfold emit; simpl; rewrite ?app_nil_r;
    try reflexivity; destruct w1; reflexivity.
Qed.

(** C8.  In every run of [lws_libevent_destroyloop], if an instance is
    destroyed then every call before it is a watch release and no call comes
    after it, so all watch releases come strictly before the destroy; the
    function does nothing at all when the adapter is disabled or the thread's
    loop was never initialised; and otherwise (the listening connections
    being there) it does release the watches: its calls are one release for
    each vhost with a listening connection and one for the interrupt-signal
    watch when interrupt handling is on, followed by the destroy of the
    thread's instance unless it is foreign, the read token of every listening
    connection and the signal token are among the released ones, and none of
    them is registered with the library when the function returns. *)
Theorem destroyloop_releases_before_destroy context tsi w :
  let r := lws_libevent_destroyloop context tsi w in
  (forall pre c suf,
     calls r = pre ++ c :: suf -> is_destroy c ->
     Forall is_release pre /\ suf = []) /\
  (lws_check_opt (options (ctx w)) LWS_SERVER_OPTION_LIBEVENT = false ->
   r = Run (Returns tt) w []) /\
  (forall p, pt (ctx w) !! tsi = Some p -> event_io_loop p = NULL ->
   r = Run (Returns tt) w []) /\
  (forall p, pt (ctx w) !! tsi = Some p ->
   valid_listeners (wsis w) (vhost_list (ctx w)) ->
   lws_check_opt (options (ctx w)) LWS_SERVER_OPTION_LIBEVENT = true ->
   event_io_loop p <> NULL ->
   exists rel,
     out r = Returns tt /\
     calls r = rel ++ (if truthy (event_loop_foreign p) then []
                       else [Cevent_base_free (event_io_loop p)]) /\
     Forall is_release rel /\
     length rel =
       (length (listening_vhosts (vhost_list (ctx w)))
        + if truthy (use_event_loop_sigint (ctx w)) then 1 else 0)%nat /\
     (forall v c, In v (vhost_list (ctx w)) -> lserv_wsi v <> NULL ->
        wsis w !! lserv_wsi v = Some c ->
        In (Cevent_free (event_watcher (w_read c))) rel /\
        registrations (reactor (post r)) !! event_watcher (w_read c)
        = None) /\
     (use_event_loop_sigint (ctx w) <> 0 ->
      In (Cevent_free (event_watcher (w_sigint p))) rel /\
      registrations (reactor (post r)) !! event_watcher (w_sigint p)
      = None)).
Proof.
  cbv zeta. split; [| split; [| split]].
  - intros pre c suf E Hd.
    destruct (destroyloop_trace context tsi w)
      as (rel & tail & Ec & Hrel & [-> | (p & _ & -> & _)]).
    + rewrite app_nil_r in Ec. rewrite Ec in E. subst rel.
      exfalso. apply Forall_app in Hrel as [_ Hc].
      inversion Hc as [| ? ? Hr _]; subst.
      exact (release_not_destroy _ Hr Hd).
    + rewrite Ec in E.
      assert (Hn : ~ is_release c)
        by (intros Hr; exact (release_not_destroy _ Hr Hd)).
      destruct (last_split is_release rel _ pre c suf Hrel Hn E)
        as (-> & _ & ->).
      auto.
  - intros Eo. unfold lws_libevent_destroyloop. mstep. rewrite Eo. reflexivity.
  - intros p Ep El. unfold lws_libevent_destroyloop. mstep.
    destruct (lws_check_opt _ _); simpl; [| reflexivity].
    mstep. rewrite El. reflexivity.
  - intros p Ep Hv Eo El.
    rewrite (destroyloop_run context tsi w p Ep Hv Eo El).
    destruct (destroyloop_vhosts_spec (vhost_list (ctx w)) w)
      as (Hc & _ & _).
    destruct (destroyloop_vhosts_releases (vhost_list (ctx w)) w Hv)
      as (Hn & Hk & Hl).
    set (rv := destroyloop_vhosts (vhost_list (ctx w)) w) in *.
    exists (calls rv
            ++ if truthy (use_event_loop_sigint (ctx w))
               then [Cevent_free (event_watcher (w_sigint p))] else []).
    cbn [out calls post].
    split; [reflexivity |].
    split; [rewrite app_assoc; reflexivity |].
    split.
    { apply Forall_app. split; [exact Hc |].
      destruct (truthy (use_event_loop_sigint (ctx w))); constructor;
        [eexists; reflexivity | constructor]. }
    split.
    { rewrite length_app, Hn.
      destruct (truthy (use_event_loop_sigint (ctx w))); reflexivity. }
    assert (Hreg : forall k,
      registrations
        (if truthy (use_event_loop_sigint (ctx w))
         then libevent_free (event_watcher (w_sigint p)) (reactor (post rv))
         else reactor (post rv)) !! k = None ->
      registrations
        (reactor
           (set_reactor (post rv)
              (if truthy (event_loop_foreign p)
               then if truthy (use_event_loop_sigint (ctx w))
                    then libevent_free (event_watcher (w_sigint p))
                                       (reactor (post rv))
                    else reactor (post rv)
               else libevent_base_free (event_io_loop p)
                      (if truthy (use_event_loop_sigint (ctx w))
                       then libevent_free (event_watcher (w_sigint p))
                                          (reactor (post rv))
                       else reactor (post rv))))) !! k = None).
    { intros k Hz. simpl. destruct (truthy (event_loop_foreign p));
        [exact Hz | rewrite registrations_base_free; exact Hz]. }
    split.
    + intros v c Hin Hnn Ec. destruct (Hl v c Hin Hnn Ec) as [A B].
      split; [apply in_or_app; left; exact A |].
      apply Hreg. destruct (truthy (use_event_loop_sigint (ctx w)));
        [apply registrations_free_None |]; exact B.
    + intros Hu. apply truthy_true in Hu. rewrite Hu in Hreg |- *.
      split; [apply in_or_app; right; left; reflexivity |].
      apply Hreg. apply registrations_free_eq.
Qed.

(** With the adapter enabled, the loop initialised and owned, and every
    listening connection there, the teardown runs to its end and its last call
    destroys the thread's instance. *)
Lemma destroyloop_owned context tsi w p :
  pt (ctx w) !! tsi = Some p ->
  valid_listeners (wsis w) (vhost_list (ctx w)) ->
  lws_check_opt (options (ctx w)) LWS_SERVER_OPTION_LIBEVENT = true ->
  event_io_loop p <> NULL -> event_loop_foreign p = 0 ->
  exists rel w',
    lws_libevent_destroyloop context tsi w =
    Run (Returns tt) w' (rel ++ [Cevent_base_free (event_io_loop p)]).
Proof.
  intros Ep Hv Eo El Ef. unfold lws_libevent_destroyloop. mstep.
  rewrite Eo. simpl. mstep.
  apply truthy_true in El. apply truthy_false in Ef. rewrite El. simpl.
  destruct (destroyloop_vhosts_spec (vhost_list (ctx w)) w) as (_ & _ & Ho).
  specialize (Ho Hv). unfold bind at 1.
  destruct (destroyloop_vhosts (vhost_list (ctx w)) w) as [o w1 c1].
  simpl in Ho. subst o. simpl. rewrite Ef. simpl.
  destruct (truthy (use_event_loop_sigint (ctx w))); mstep; simpl.
  - exists (c1 ++ [Cevent_free (event_watcher (w_sigint p))]).
    eexists. unfold emit. simpl. rewrite <- app_assoc. reflexivity.
  - exists c1. eexists. reflexivity.
Qed.

(** C1, as amended.  [lws_libevent_destroyloop] calls [event_base_free] never
    when the loop is marked foreign, whatever the rest of the state; when it
    calls it, it is on the thread's own instance, with the adapter enabled,
    the loop initialised and not foreign; and in every such state (whose
    listening connections are there) it does call it. *)
Theorem destroyloop_destroys_owned_only context tsi w p :
  pt (ctx w) !! tsi = Some p ->
  let r := lws_libevent_destroyloop context tsi w in
  (event_loop_foreign p <> 0 ->
   forall b, ~ In (Cevent_base_free b) (calls r)) /\
  (forall b, In (Cevent_base_free b) (calls r) ->
   b = event_io_loop p /\
   lws_check_opt (options (ctx w)) LWS_SERVER_OPTION_LIBEVENT = true /\
   event_io_loop p <> NULL /\ event_loop_foreign p = 0) /\
  (valid_listeners (wsis w) (vhost_list (ctx w)) ->
   lws_check_opt (options (ctx w)) LWS_SERVER_OPTION_LIBEVENT = true ->
   event_io_loop p <> NULL -> event_loop_foreign p = 0 ->
   In (Cevent_base_free (event_io_loop p)) (calls r)).
Proof.
  intros Ep. cbv zeta.
  assert (Hin : forall b,
    In (Cevent_base_free b) (calls (lws_libevent_destroyloop context tsi w)) ->
    b = event_io_loop p /\
    lws_check_opt (options (ctx w)) LWS_SERVER_OPTION_LIBEVENT = true /\
    event_io_loop p <> NULL /\ event_loop_foreign p = 0).
  { intros b Hb.
    destruct (destroyloop_trace context tsi w)
      as (rel & tail & Ec & Hrel & Ht).
    rewrite Ec in Hb. apply in_app_or in Hb as [Hb | Hb].
    - exfalso. rewrite Forall_forall in Hrel.
      apply list_elem_of_In in Hb.
      destruct (Hrel _ Hb) as [ev Hev]. discriminate Hev.
    - destruct Ht as [-> | (p' & Ep' & -> & Ho & Hl & Hf)]; [destruct Hb |].
      rewrite Ep in Ep'. inversion Ep'; subst p'.
      destruct Hb as [Hb | []]. inversion Hb; subst. auto. }
  split; [| split].
  - intros Hf b Hb. destruct (Hin b Hb) as (_ & _ & _ & Hz). contradiction.
  - exact Hin.
  - intros Hv Ho Hl Hf.
    destruct (destroyloop_owned context tsi w p Ep Hv Ho Hl Hf)
      as (rel & w' & Ec).
    rewrite Ec. simpl. apply in_or_app. right. left. reflexivity.
Qed.

(** ** Setting a loop up *)



Lemma same_descs_refl m : same_descs m m.
Proof. intros q c E. eauto. Qed.

Lemma same_descs_trans m1 m2 m3 :
  same_descs m1 m2 -> same_descs m2 m3 -> same_descs m1 m3.
Proof.
  intros H12 H23 q c E. destruct (H12 q c E) as (c2 & E2 & D2).
  destruct (H23 q c2 E2) as (c3 & E3 & D3). exists c3. split; congruence.
Qed.

Lemma same_descs_insert m p c c' :
  m !! p = Some c -> desc c' = desc c -> same_descs m (<[p := c']> m).
Proof.
  intros E D q d Eq. destruct (decide (p = q)) as [<- | Hn].
  - exists c'. rewrite lookup_insert_eq. split; congruence.
  - exists d. rewrite lookup_insert_ne by exact Hn. auto.
Qed.

Lemma valid_listeners_same_descs m m' vh :
  same_descs m m' -> valid_listeners m vh -> valid_listeners m' vh.
Proof.
  intros Hs Hv. unfold valid_listeners in *.
  eapply Forall_impl; [exact Hv |]. simpl. intros v Hp Hn.
  destruct (Hp Hn) as [c Ec]. destruct (Hs _ _ Ec) as (c' & Ec' & _). eauto.
Qed.

(** The loop over the vhosts at set-up: for every vhost with a listening
    connection, a read watch with persistent interest is created on [loop]
    for the connection's socket and added at once. *)
Lemma initloop_vhosts_spec context loop vh : forall w,
  valid_listeners (wsis w) vh ->
  let r := initloop_vhosts context loop vh w in
  out r = Returns tt /\
  ctx (post r) = ctx w /\
  create_event_pipes_rc (post r) = create_event_pipes_rc w /\
  same_descs (wsis w) (wsis (post r)) /\
  (forall v c, In v vh -> lserv_wsi v <> NULL ->
     wsis w !! lserv_wsi v = Some c ->
     exists ev,
       adjacent (Cevent_new loop (sockfd (desc c)) (Z.lor EV_READ EV_PERSIST)
                            (Some Lws_event_cb) (w_read_of (lserv_wsi v)) ev)
                (Cevent_add ev) (calls r)).
Proof.
  induction vh as [| v vh IH]; intros w Hv; simpl.
  - repeat split; auto using same_descs_refl. intros v c [].
  - inversion Hv as [| ? ? Hp Hvs]; subst.
    destruct (truthy (lserv_wsi v)) eqn:Ev.
    + apply truthy_true in Ev. destruct (Hp Ev) as [c Ec].
      do 7 mstep. simpl.
      set (c1 := set_w_read c (set_io_context (w_read c) context)).
      set (ev := next_addr (reactor w)).
      set (c2 := set_w_read c1 (set_watcher (w_read c1) ev)).
      match goal with |- context [initloop_vhosts context loop vh ?w'] =>
        set (w1 := w') end.
      assert (Hs : same_descs (wsis w) (wsis w1)).
      { simpl. eapply same_descs_trans.
        - apply (same_descs_insert _ _ c c1 Ec). reflexivity.
        - apply (same_descs_insert _ _ c1 c2); [apply lookup_insert_eq |].
          reflexivity. }
      destruct (IH w1) as (IHo & IHx & IHr & IHs & IHc).
      { eapply valid_listeners_same_descs; [exact Hs | exact Hvs]. }
      split; [exact IHo |]. split; [exact IHx |]. split; [exact IHr |].
      split; [eapply same_descs_trans; [exact Hs | exact IHs] |].
      intros v' c' [<- | Hin] Hn Ec'.
      * rewrite Ec in Ec'. inversion Ec'; subst c'.
        exists ev. exists [], (calls (initloop_vhosts context loop vh w1)).
        reflexivity.
      * destruct (Hs _ _ Ec') as (c'' & Ec'' & Ed).
        destruct (IHc v' c'' Hin Hn Ec'') as (ev' & Ha).
        exists ev'. rewrite Ed in Ha. destruct Ha as (pre & suf & Ea).
        eexists (_ :: _ :: pre), suf. simpl. rewrite Ea. reflexivity.
    + mstep. destruct (IH w Hvs) as (IHo & IHx & IHr & IHs & IHc).
      repeat split; auto.
      intros v' c' [<- | Hin] Hn Ec'.
      * apply truthy_false in Ev. contradiction.
      * eauto.
Qed.

(** The first step of [lws_event_initloop]: the thread gets its instance, a
    new one or the one supplied, which is then marked foreign. *)
Lemma initloop_bind_loop loop tsi w p :
  pt (ctx w) !! tsi = Some p ->
  exists w1 cs1 p1,
    (if negb (truthy loop) then
       b <- event_base_new ;;
       p <- load_pt tsi ;;
       store_pt tsi (set_io_loop p b)
     else
       p <- load_pt tsi ;;
       store_pt tsi (set_foreign p 1) ;;
       p <- load_pt tsi ;;
       store_pt tsi (set_io_loop p loop)) w = Run (Returns tt) w1 cs1 /\
    wsis w1 = wsis w /\
    create_event_pipes_rc w1 = create_event_pipes_rc w /\
    vhost_list (ctx w1) = vhost_list (ctx w) /\
    use_event_loop_sigint (ctx w1) = use_event_loop_sigint (ctx w) /\
    event_sigint_cb (ctx w1) = event_sigint_cb (ctx w) /\
    pt (ctx w1) !! tsi = Some p1 /\
    (forall c, In c cs1 -> exists b, c = Cevent_base_new b) /\
    (loop <> NULL -> event_io_loop p1 = loop /\ event_loop_foreign p1 = 1) /\
    (loop = NULL ->
     cs1 = [Cevent_base_new (event_io_loop p1)] /\
     event_io_loop p1 = fst (libevent_base_new (reactor w)) /\
     event_loop_foreign p1 = event_loop_foreign p).
Proof.
  intros Ep. destruct (truthy loop) eqn:El; simpl.
  - apply truthy_true in El. do 3 mstep.
    unfold store_pt. simpl.
    erewrite list_lookup_insert_Some by exact Ep.
    do 3 eexists. split; [reflexivity |]. simpl.
    repeat (split; [reflexivity |]).
    split; [eapply list_lookup_insert_Some, list_lookup_insert_Some, Ep |].
    split; [intros c [] |].
    split; [intros _; split; reflexivity | intros E; contradiction].
  - apply truthy_false in El.
    do 2 mstep. unfold store_pt. simpl. rewrite Ep.
    do 3 eexists. split; [reflexivity |]. simpl.
    repeat (split; [reflexivity |]).
    split; [eapply list_lookup_insert_Some, Ep |].
    split; [intros c [<- | []]; eexists; reflexivity |].
    split; [intros E; contradiction | intros _; repeat split; reflexivity].
Qed.

(** What a run of [lws_event_initloop] is made of, when the thread index is
    in range and every listening connection is there. *)
Lemma initloop_run context loop tsi w p :
  pt (ctx w) !! tsi = Some p ->
  valid_listeners (wsis w) (vhost_list (ctx w)) ->
  exists cs1 w1 p1,
    (forall c, In c cs1 -> exists b, c = Cevent_base_new b) /\
    wsis w1 = wsis w /\
    pt (ctx w1) !! tsi = Some p1 /\
    (loop <> NULL -> event_io_loop p1 = loop /\ event_loop_foreign p1 = 1) /\
    (create_event_pipes_rc w <> 0 ->
     lws_event_initloop context loop tsi w =
     Run (Returns 1) w1
         (cs1 ++ [Clws_create_event_pipes context (create_event_pipes_rc w)]))
    /\
    (create_event_pipes_rc w = 0 ->
     let rv := initloop_vhosts context loop (vhost_list (ctx w)) w1 in
     (use_event_loop_sigint (ctx w) = 0 ->
      lws_event_initloop context loop tsi w =
      Run (Returns 0) (post rv)
          (cs1 ++ Clws_create_event_pipes context 0 :: calls rv)) /\
     (use_event_loop_sigint (ctx w) <> 0 ->
      exists w3 p3 ev,
        lws_event_initloop context loop tsi w =
        Run (Returns 0) w3
            (cs1 ++ Clws_create_event_pipes context 0 :: calls rv ++
             [Cevent_new loop SIGINT (Z.lor EV_SIGNAL EV_PERSIST)
                         (event_sigint_cb (ctx w)) (pt_of tsi) ev;
              Cevent_add ev]) /\
        pt (ctx w3) !! tsi = Some p3 /\
        event_watcher (w_sigint p3) = ev /\
        event_io_loop p3 = event_io_loop p1 /\
        event_loop_foreign p3 = event_loop_foreign p1)).
Proof.
  intros Ep Hv.
  destruct (initloop_bind_loop loop tsi w p Ep)
    as (w1 & cs1 & p1 & Eb & Ew & Er & Evh & Eu & Ecb & Ep1 & Hcs & Hf & _).
  exists cs1, w1, p1.
  split; [exact Hcs |]. split; [exact Ew |]. split; [exact Ep1 |].
  split; [exact Hf |].
  unfold lws_event_initloop. mstep. rewrite ?bind_assoc.
  rewrite (bind_step _ _ _ _ _ _ Eb). mstep. rewrite Er.
  rewrite <- Ew in Hv.
  destruct (initloop_vhosts_spec context loop (vhost_list (ctx w)) w1 Hv)
    as (Ho & Hx & _ & _ & _).
  cbv zeta.
  destruct (initloop_vhosts context loop (vhost_list (ctx w)) w1)
    as [o w2 c2] eqn:Erv.
  simpl in Ho, Hx. subst o.
  assert (Ep2 : pt (ctx w2) !! tsi = Some p1) by (rewrite Hx; exact Ep1).
  split.
  - intros Hrc. apply truthy_true in Hrc. rewrite Hrc. reflexivity.
  - intros Hrc. rewrite Hrc. change (truthy 0) with false. cbv iota.
    rewrite (bind_step _ _ _ _ _ _ Erv). mstep. rewrite Hx, Eu, Ecb.
    split.
    + intros Hu. rewrite Hu. change (truthy 0) with false. cbv iota.
      unfold emit. simpl. rewrite app_nil_r. reflexivity.
    + intros Hu. apply truthy_true in Hu. rewrite Hu.
      change (negb true) with false. cbv iota.
      unfold evsignal_new. do 3 eexists.
      split; [do 5 mstep; unfold emit; simpl; reflexivity |]. simpl.
      split; [eapply list_lookup_insert_Some, Ep2 |].
      repeat split; reflexivity.
Qed.

(** C6, as amended.  [lws_event_initloop] returns 1 exactly when
    [lws_create_event_pipes] reports a failure and 0 otherwise; what
    [event_base_new] returned plays no part in the result. *)
Theorem initloop_result context loop tsi w p :
  pt (ctx w) !! tsi = Some p ->
  valid_listeners (wsis w) (vhost_list (ctx w)) ->
  let r := lws_event_initloop context loop tsi w in
  (create_event_pipes_rc w <> 0 -> out r = Returns 1) /\
  (create_event_pipes_rc w = 0 -> out r = Returns 0).
Proof.
  intros Ep Hv. cbv zeta.
  destruct (initloop_run context loop tsi w p Ep Hv)
    as (cs1 & w1 & p1 & _ & _ & _ & _ & Hfail & Hok).
  split.
  - intros Hrc. rewrite (Hfail Hrc). reflexivity.
  - intros Hrc. destruct (Hok Hrc) as (H0 & H1).
    destruct (Z.eq_dec (use_event_loop_sigint (ctx w)) 0) as [Hu | Hu].
    + rewrite (H0 Hu). reflexivity.
    + destruct (H1 Hu) as (w3 & p3 & ev & E & _). rewrite E. reflexivity.
Qed.


(** ** The interrupt-signal watch *)

(** The loop over the vhosts creates no watch on a per-thread structure. *)
Lemma initloop_vhosts_no_signal context loop vh : forall w,
  Forall (fun c => ~ is_signal_watch c)
         (calls (initloop_vhosts context loop vh w)).
Proof.
  induction vh as [| v vh IH]; intros w; simpl.
  - constructor.
  - destruct (truthy (lserv_wsi v)).
    + destruct (wsis w !! lserv_wsi v) as [c |] eqn:Ec.
      * do 7 mstep. simpl.
        constructor; [intros (? & ? & ? & ? & ? & ? & H); discriminate H |].
        constructor; [intros (? & ? & ? & ? & ? & ? & H); discriminate H |].
        apply IH.
      * rewrite bind_assoc.
        erewrite bind_undefined
          by (unfold load_wsi; rewrite Ec; reflexivity).
        constructor.
    + mstep. apply IH.
Qed.

Lemma lws_event_sigint_cfg_eq context use_event_sigint cb w :
  lws_event_sigint_cfg context use_event_sigint cb w =
  Run (Returns 0)
      (set_ctx w (Context (options (ctx w)) use_event_sigint
                          (Some (configured_cb cb)) (being_destroyed (ctx w))
                          (count_threads (ctx w)) (vhost_list (ctx w))
                          (pt (ctx w))))
      [].
Proof.
  unfold lws_event_sigint_cfg. do 2 mstep. destruct cb; reflexivity.
Qed.

(** C9, as amended.  [lws_event_sigint_cfg] records whether interrupt
    handling is wanted and the callback, [lws_event_sigint_cb] when none is
    given.  When [lws_create_event_pipes] succeeds, [lws_event_initloop]
    ends, if interrupt handling is on, by creating a [SIGINT] watch with the
    configured callback and the thread as its argument, keeping it in
    [w_sigint] and adding it, and creates no such watch if it is off.
    [lws_event_sigint_cb] asks the thread's instance to leave its dispatch
    loop unless the loop is foreign, where it does nothing at all. *)
Theorem sigint_watch context loop tsi w p :
  pt (ctx w) !! tsi = Some p ->
  (forall use cb,
     let r := lws_event_sigint_cfg context use cb w in
     out r = Returns 0 /\ calls r = [] /\
     use_event_loop_sigint (ctx (post r)) = use /\
     event_sigint_cb (ctx (post r)) = Some (configured_cb cb)) /\
  (valid_listeners (wsis w) (vhost_list (ctx w)) ->
   create_event_pipes_rc w = 0 ->
   let r := lws_event_initloop context loop tsi w in
   (use_event_loop_sigint (ctx w) <> 0 ->
    exists base ev pre p',
      calls r =
        pre ++ [Cevent_new base SIGINT (Z.lor EV_SIGNAL EV_PERSIST)
                           (event_sigint_cb (ctx w)) (pt_of tsi) ev;
                Cevent_add ev] /\
      pt (ctx (post r)) !! tsi = Some p' /\
      event_watcher (w_sigint p') = ev) /\
   (use_event_loop_sigint (ctx w) = 0 ->
    Forall (fun c => ~ is_signal_watch c) (calls r))) /\
  (forall sock_fd revents,
     let r := lws_event_sigint_cb sock_fd revents tsi w in
     (event_loop_foreign p = 0 ->
      out r = Returns tt /\
      calls r = [Cevent_base_loopbreak (event_io_loop p)]) /\
     (event_loop_foreign p <> 0 -> r = Run (Returns tt) w [])).
Proof.
  intros Ep. split; [| split].
  - intros use cb. cbv zeta. rewrite lws_event_sigint_cfg_eq.
    repeat split; reflexivity.
  - intros Hv Hrc. cbv zeta.
    destruct (initloop_run context loop tsi w p Ep Hv)
      as (cs1 & w1 & p1 & Hcs & _ & _ & _ & _ & Hok).
    destruct (Hok Hrc) as (H0 & H1). clear Hok. split.
    + intros Hu. destruct (H1 Hu) as (w3 & p3 & ev & E & Ep3 & Ew3 & _).
      rewrite E. simpl. exists loop, ev. eexists. exists p3.
      split; [| split; [exact Ep3 | exact Ew3]].
      rewrite app_comm_cons, app_assoc. reflexivity.
    + intros Hu. rewrite (H0 Hu). simpl.
      apply Forall_app. split.
      * apply Forall_forall. intros c Hc. apply list_elem_of_In in Hc.
        destruct (Hcs c Hc) as [b ->].
        intros (? & ? & ? & ? & ? & ? & H). discriminate H.
      * constructor; [intros (? & ? & ? & ? & ? & ? & H); discriminate H |].
        apply initloop_vhosts_no_signal.
  - intros sock_fd revents. cbv zeta. unfold lws_event_sigint_cb. mstep.
    split.
    + intros Hf. rewrite Hf. split; reflexivity.
    + intros Hf. apply truthy_true in Hf. rewrite Hf. reflexivity.
Qed.

(** ** Releasing a connection's watches *)

(** [lws_libevent_destroy] releases the watches whose tokens are not null,
    and writes nothing back: the connection keeps its tokens. *)
Lemma lws_libevent_destroy_run wsi w c :
  wsi <> NULL -> wsis w !! wsi = Some c ->
  let r := lws_libevent_destroy wsi w in
  out r = Returns tt /\
  calls r =
    (if truthy (event_watcher (w_read c))
     then [Cevent_free (event_watcher (w_read c))] else []) ++
    (if truthy (event_watcher (w_write c))
     then [Cevent_free (event_watcher (w_write c))] else []) /\
  wsis (post r) = wsis w /\ ctx (post r) = ctx w.
Proof.
  intros Hn Ec. cbv zeta. unfold lws_libevent_destroy.
  apply truthy_true in Hn. rewrite Hn. simpl. mstep.
  destruct (truthy (event_watcher (w_read c))),
           (truthy (event_watcher (w_write c))) eqn:Ew;
    do 2 mstep; rewrite Ew; repeat split; reflexivity.
Qed.

Lemma lws_libevent_destroy_null w :
  lws_libevent_destroy NULL w = Run (Returns tt) w [].
Proof. reflexivity. Qed.

(** So a second call makes the calls of the first once more. *)
Lemma lws_libevent_destroy_again wsi w c :
  wsi <> NULL -> wsis w !! wsi = Some c ->
  calls (lws_libevent_destroy wsi (post (lws_libevent_destroy wsi w))) =
  calls (lws_libevent_destroy wsi w).
Proof.
  intros Hn Ec.
  destruct (lws_libevent_destroy_run wsi w c Hn Ec) as (_ & E1 & Ew & _).
  rewrite <- Ew in Ec.
  destruct (lws_libevent_destroy_run wsi _ c Hn Ec) as (_ & E2 & _).
  rewrite E1, E2. reflexivity.
Qed.

(** ** Starting and stopping watches *)

(** C7, as amended.  [lws_libevent_io] does nothing at all when the adapter
    is disabled, when the thread has no instance or when the context is being
    destroyed, whatever the flags; in every other state, flags without a
    direction bit or without a start/stop bit fail the assertion, before any
    call into the reactor. *)
Theorem lws_libevent_io_guards wsi flags w c :
  wsis w !! wsi = Some c ->
  let r := lws_libevent_io wsi flags w in
  (LWS_LIBEVENT_ENABLED (ctx w) = false -> r = Run (Returns tt) w []) /\
  (forall p, pt (ctx w) !! wsi_tsi c = Some p ->
     (event_io_loop p = NULL \/ being_destroyed (ctx w) <> 0 ->
      r = Run (Returns tt) w []) /\
     (LWS_LIBEVENT_ENABLED (ctx w) = true ->
      event_io_loop p <> NULL -> being_destroyed (ctx w) = 0 ->
      Z.land flags (Z.lor LWS_EV_READ LWS_EV_WRITE) = 0 \/
      Z.land flags (Z.lor LWS_EV_START LWS_EV_STOP) = 0 ->
      r = Run AssertFailed w [])).
Proof.
  intros Ec. cbv zeta. unfold lws_libevent_io. do 2 mstep. split.
  - intros He. rewrite He. reflexivity.
  - intros p Ep. split.
    + intros Hg. destruct (LWS_LIBEVENT_ENABLED (ctx w)); [| reflexivity].
      simpl. mstep.
      destruct Hg as [Hl | Hd].
      * rewrite Hl. reflexivity.
      * apply truthy_true in Hd. rewrite Hd, orb_true_r. reflexivity.
    + intros He Hl Hd Hflags. rewrite He. simpl. mstep.
      apply truthy_true in Hl. rewrite Hl, Hd. simpl.
      assert (Ha : truthy (Z.land flags (Z.lor LWS_EV_START LWS_EV_STOP))
                   && truthy (Z.land flags (Z.lor LWS_EV_READ LWS_EV_WRITE))
                   = false).
      { destruct Hflags as [H | H]; rewrite H; simpl.
        - apply andb_false_r.
        - reflexivity. }
      rewrite Ha. reflexivity.
Qed.

(** * Further properties *)

(** ** Accepting a connection *)

Lemma lws_libevent_accept_run new_wsi d w c p :
  wsis w !! new_wsi = Some c ->
  LWS_LIBEVENT_ENABLED (ctx w) = true ->
  pt (ctx w) !! wsi_tsi c = Some p ->
  let n := next_addr (reactor w) in
  let base := event_io_loop p in
  let fd := accept_fd c d in
  lws_libevent_accept new_wsi d w =
  Run (Returns tt)
      (World (ctx w) (<[new_wsi := accepted c n]> (wsis w))
             (snd (libevent_new (write_event base fd new_wsi)
                     (snd (libevent_new (read_event base fd new_wsi)
                             (reactor w)))))
             (create_event_pipes_rc w))
      [Cevent_new base fd (Z.lor EV_READ EV_PERSIST) (Some Lws_event_cb)
                  (w_read_of new_wsi) n;
       Cevent_new base fd (Z.lor EV_WRITE EV_PERSIST) (Some Lws_event_cb)
                  (w_write_of new_wsi) (n + 1)].
Proof.
  intros Ec He Ep. cbv zeta. unfold lws_libevent_accept. do 2 mstep.
  rewrite He. change (negb true) with false. cbv iota zeta. do 9 mstep.
  erewrite store_wsi_eq by lookup_now.
  unfold emit, set_wsis, set_reactor, accepted, accept_fd, read_event,
    write_event. simpl.
  rewrite !insert_insert_eq. reflexivity.
Qed.

(** X1.  [lws_libevent_accept] does nothing on a disabled adapter.
    Otherwise it creates, on the thread's instance and for the descriptor
    chosen by the connection's role, one read and one write watch with
    [lws_event_cb], keeps their tokens and the context in the connection, and
    adds neither: nothing becomes pending, and no other connection and
    nothing of the context changes. *)
Theorem lws_libevent_accept_watches new_wsi d w c :
  wsis w !! new_wsi = Some c ->
  let r := lws_libevent_accept new_wsi d w in
  let n := next_addr (reactor w) in
  (LWS_LIBEVENT_ENABLED (ctx w) = false -> r = Run (Returns tt) w []) /\
  (forall p, LWS_LIBEVENT_ENABLED (ctx w) = true ->
     pt (ctx w) !! wsi_tsi c = Some p ->
     out r = Returns tt /\
     calls r =
       [Cevent_new (event_io_loop p) (accept_fd c d)
                   (Z.lor EV_READ EV_PERSIST) (Some Lws_event_cb)
                   (w_read_of new_wsi) n;
        Cevent_new (event_io_loop p) (accept_fd c d)
                   (Z.lor EV_WRITE EV_PERSIST) (Some Lws_event_cb)
                   (w_write_of new_wsi) (n + 1)] /\
     wsis (post r) !! new_wsi = Some (accepted c n) /\
     (forall q, q <> new_wsi -> wsis (post r) !! q = wsis w !! q) /\
     ctx (post r) = ctx w /\
     pending (reactor (post r)) = pending (reactor w) /\
     registrations (reactor (post r)) !! n =
       Some (read_event (event_io_loop p) (accept_fd c d) new_wsi) /\
     registrations (reactor (post r)) !! (n + 1) =
       Some (write_event (event_io_loop p) (accept_fd c d) new_wsi)).
Proof.
  intros Ec. cbv zeta. split.
  - intros He. unfold lws_libevent_accept. do 2 mstep. rewrite He.
    reflexivity.
  - intros p He Ep.
    rewrite (lws_libevent_accept_run new_wsi d w c p Ec He Ep). simpl.
    split; [reflexivity |]. split; [reflexivity |].
    split; [apply lookup_insert_eq |].
    split; [intros q Hq; apply lookup_insert_ne; congruence |].
    split; [reflexivity |]. split; [reflexivity |].
    split; [| apply lookup_insert_eq].
    rewrite lookup_insert_ne by lia. apply lookup_insert_eq.
Qed.

Lemma lws_libevent_destroy_both wsi w c :
  wsi <> NULL -> wsis w !! wsi = Some c ->
  event_watcher (w_read c) <> NULL -> event_watcher (w_write c) <> NULL ->
  lws_libevent_destroy wsi w =
  Run (Returns tt)
      (set_reactor w (libevent_free (event_watcher (w_write c))
                        (libevent_free (event_watcher (w_read c))
                           (reactor w))))
      [Cevent_free (event_watcher (w_read c));
       Cevent_free (event_watcher (w_write c))].
Proof.
  intros Hn Ec Hr Hw. unfold lws_libevent_destroy.
  apply truthy_true in Hn, Hr, Hw. rewrite Hn. simpl. mstep.
  rewrite Hr. do 2 mstep. rewrite Hw. reflexivity.
Qed.

(** X2.  On a well-formed library state, [lws_libevent_destroy] after
    [lws_libevent_accept] releases exactly the two watches the accept made:
    the registrations, the pending set and the faults of the library are what
    they were before the accept. *)
Theorem accept_destroy_round_trip new_wsi d w c p :
  wsis w !! new_wsi = Some c ->
  LWS_LIBEVENT_ENABLED (ctx w) = true ->
  pt (ctx w) !! wsi_tsi c = Some p ->
  new_wsi <> NULL ->
  libevent_wf (reactor w) ->
  let n := next_addr (reactor w) in
  let r := lws_libevent_destroy new_wsi
             (post (lws_libevent_accept new_wsi d w)) in
  out r = Returns tt /\
  calls r = [Cevent_free n; Cevent_free (n + 1)] /\
  registrations (reactor (post r)) = registrations (reactor w) /\
  pending (reactor (post r)) = pending (reactor w) /\
  faults (reactor (post r)) = faults (reactor w) /\
  bases (reactor (post r)) = bases (reactor w).
Proof.
  intros Ec He Ep Hn (Hpos & Hreg & Hpend). cbv zeta.
  rewrite (lws_libevent_accept_run new_wsi d w c p Ec He Ep). simpl.
  set (n := next_addr (reactor w)) in *.
  assert (Hfree : forall k, n <= k -> registrations (reactor w) !! k = None).
  { intros k Hk. destruct (registrations (reactor w) !! k) eqn:E; auto.
    apply Hreg in E. lia. }
  rewrite (lws_libevent_destroy_both new_wsi _ (accepted c n)); simpl;
    [| exact Hn | apply lookup_insert_eq | unfold NULL; lia
     | unfold NULL; lia].
  unfold libevent_free. simpl.
  rewrite lookup_insert_ne by lia. rewrite lookup_insert_eq. simpl.
  rewrite delete_insert_ne by lia. rewrite lookup_insert_eq. simpl.
  split; [reflexivity |]. split; [reflexivity |].
  split; [| split; [| split; reflexivity]].
  - rewrite delete_insert_eq.
    rewrite (delete_insert_id _ n) by (apply Hfree; lia).
    apply delete_id, Hfree. lia.
  - assert (Hout : forall k, n <= k -> k ∉ pending (reactor w)).
    { intros k Hk Hin. apply Hpend in Hin as [e He'].
      rewrite Hfree in He' by exact Hk. discriminate He'. }
    apply set_eq. intros x.
    rewrite !elem_of_difference, !elem_of_singleton.
    split; [intros [[H _] _]; exact H |].
    intros H. repeat split; auto; intros ->; revert H; apply Hout; lia.
Qed.

(** ** Starting and stopping, once past the guards *)

Lemma registrations_add ev l :
  registrations (libevent_add ev l) = registrations l.
Proof. unfold libevent_add. destruct (registrations l !! ev); reflexivity. Qed.

Lemma registrations_del ev l :
  registrations (libevent_del ev l) = registrations l.
Proof. unfold libevent_del. destruct (registrations l !! ev); reflexivity. Qed.

Lemma bases_add ev l : bases (libevent_add ev l) = bases l.
Proof. unfold libevent_add. destruct (registrations l !! ev); reflexivity. Qed.

Lemma bases_del ev l : bases (libevent_del ev l) = bases l.
Proof. unfold libevent_del. destruct (registrations l !! ev); reflexivity. Qed.

Lemma libevent_add_registered ev l :
  is_Some (registrations l !! ev) ->
  libevent_add ev l =
  Libevent (bases l) (registrations l) ({[ev]} ∪ pending l)
           (break_requested l) (next_addr l) (base_new_fails l) (faults l).
Proof. intros [e E]. unfold libevent_add. rewrite E. reflexivity. Qed.

Lemma libevent_del_registered ev l :
  is_Some (registrations l !! ev) ->
  libevent_del ev l =
  Libevent (bases l) (registrations l) (pending l ∖ {[ev]})
           (break_requested l) (next_addr l) (base_new_fails l) (faults l).
Proof. intros [e E]. unfold libevent_del. rewrite E. reflexivity. Qed.

Lemma lws_libevent_io_run wsi flags w c p :
  wsis w !! wsi = Some c ->
  LWS_LIBEVENT_ENABLED (ctx w) = true ->
  pt (ctx w) !! wsi_tsi c = Some p ->
  event_io_loop p <> NULL -> being_destroyed (ctx w) = 0 ->
  Z.land flags (Z.lor LWS_EV_START LWS_EV_STOP) <> 0 ->
  Z.land flags (Z.lor LWS_EV_READ LWS_EV_WRITE) <> 0 ->
  lws_libevent_io wsi flags w =
  Run (Returns tt) (set_reactor w (io_reactor flags c (reactor w)))
      (io_calls flags c).
Proof.
  intros Ec He Ep Hl Hd Hs Hr. unfold lws_libevent_io. do 2 mstep.
  rewrite He. change (negb true) with false. cbv iota. mstep.
  apply truthy_true in Hl, Hs, Hr. rewrite Hl, Hd, Hs, Hr. simpl.
  unfold io_reactor, io_calls.
  destruct (truthy (Z.land flags LWS_EV_START)),
           (truthy (Z.land flags LWS_EV_WRITE)),
           (truthy (Z.land flags LWS_EV_READ));
    repeat mstep; try reflexivity; destruct w; reflexivity.
Qed.

(** X3.  Whatever its arguments and whatever the state, [lws_libevent_io]
    only ever calls [event_add] and [event_del]: it creates and releases no
    registration and no instance, and writes neither a connection nor the
    context. *)
Theorem lws_libevent_io_keeps_registrations wsi flags w :
  let r := lws_libevent_io wsi flags w in
  Forall is_add_or_del (calls r) /\
  registrations (reactor (post r)) = registrations (reactor w) /\
  bases (reactor (post r)) = bases (reactor w) /\
  wsis (post r) = wsis w /\ ctx (post r) = ctx w.
Proof.
  cbv zeta. unfold lws_libevent_io.
  destruct (wsis w !! wsi) as [c |] eqn:Ec;
    [| erewrite bind_undefined by (unfold load_wsi; rewrite Ec; reflexivity);
       repeat split; constructor].
  do 2 mstep.
  destruct (LWS_LIBEVENT_ENABLED (ctx w)); simpl;
    [| repeat split; constructor].
  destruct (pt (ctx w) !! wsi_tsi c) as [p |] eqn:Ep;
    [| erewrite bind_undefined by (unfold load_pt; rewrite Ep; reflexivity);
       repeat split; constructor].
  mstep.
  destruct (negb (truthy (event_io_loop p))
            || truthy (being_destroyed (ctx w)));
    simpl; [repeat split; constructor |].
  destruct (truthy (Z.land flags (Z.lor LWS_EV_START LWS_EV_STOP))
            && truthy (Z.land flags (Z.lor LWS_EV_READ LWS_EV_WRITE)));
    simpl; [| repeat split; constructor].
  destruct (truthy (Z.land flags LWS_EV_START)),
           (truthy (Z.land flags LWS_EV_WRITE)),
           (truthy (Z.land flags LWS_EV_READ));
    repeat mstep; simpl;
    rewrite ?registrations_add, ?registrations_del, ?bases_add, ?bases_del;
    repeat split;
    repeat (constructor;
            [first [left; eexists; reflexivity
                   | right; eexists; reflexivity] |]);
    constructor.
Qed.

Lemma land_lor_l f a b : Z.land f a <> 0 -> Z.land f (Z.lor a b) <> 0.
Proof.
  intros H E. rewrite Z.land_lor_distr_r in E.
  apply Z.lor_eq_0_iff in E. tauto.
Qed.

Lemma land_lor_r f a b : Z.land f b <> 0 -> Z.land f (Z.lor a b) <> 0.
Proof. rewrite Z.lor_comm. apply land_lor_l. Qed.

(** X4.  Past its guards, with the start bit set (the stop bit may be set
    too: start wins) and the requested watches registered,
    [lws_libevent_io] adds the write watch and then the read watch, as
    requested: exactly these become pending besides what was, and the
    library sees no fault. *)
Theorem lws_libevent_io_start wsi flags w c p :
  wsis w !! wsi = Some c ->
  LWS_LIBEVENT_ENABLED (ctx w) = true ->
  pt (ctx w) !! wsi_tsi c = Some p ->
  event_io_loop p <> NULL -> being_destroyed (ctx w) = 0 ->
  Z.land flags LWS_EV_START <> 0 ->
  Z.land flags (Z.lor LWS_EV_READ LWS_EV_WRITE) <> 0 ->
  (Z.land flags LWS_EV_READ <> 0 ->
   is_Some (registrations (reactor w) !! event_watcher (w_read c))) ->
  (Z.land flags LWS_EV_WRITE <> 0 ->
   is_Some (registrations (reactor w) !! event_watcher (w_write c))) ->
  let r := lws_libevent_io wsi flags w in
  out r = Returns tt /\
  calls r =
    (if truthy (Z.land flags LWS_EV_WRITE)
     then [Cevent_add (event_watcher (w_write c))] else []) ++
    (if truthy (Z.land flags LWS_EV_READ)
     then [Cevent_add (event_watcher (w_read c))] else []) /\
  (forall k, k ∈ pending (reactor (post r)) <->
     k ∈ pending (reactor w) \/
     (Z.land flags LWS_EV_READ <> 0 /\ k = event_watcher (w_read c)) \/
     (Z.land flags LWS_EV_WRITE <> 0 /\ k = event_watcher (w_write c))) /\
  faults (reactor (post r)) = faults (reactor w).
Proof.
  intros Ec He Ep Hl Hd Hs Hdir Hr Hw. cbv zeta.
  rewrite (lws_libevent_io_run wsi flags w c p Ec He Ep Hl Hd
             (land_lor_l _ _ _ Hs) Hdir).
  unfold io_reactor, io_calls. apply truthy_true in Hs. rewrite Hs. simpl.
  split; [reflexivity |]. split; [reflexivity |].
  destruct (truthy (Z.land flags LWS_EV_WRITE)) eqn:Ew,
           (truthy (Z.land flags LWS_EV_READ)) eqn:Er;
    first [apply truthy_true in Ew | apply truthy_false in Ew];
    first [apply truthy_true in Er | apply truthy_false in Er];
    rewrite ?libevent_add_registered
      by (rewrite ?registrations_add; auto);
    simpl; (split; [| reflexivity]); intros k;
    rewrite ?elem_of_union, ?elem_of_singleton; intuition congruence.
Qed.

(** X5.  Past its guards, with the start bit clear and the stop bit set, and
    the requested watches registered, [lws_libevent_io] deletes the write
    watch and then the read watch, as requested: exactly these stop being
    pending, and the library sees no fault. *)
Theorem lws_libevent_io_stop wsi flags w c p :
  wsis w !! wsi = Some c ->
  LWS_LIBEVENT_ENABLED (ctx w) = true ->
  pt (ctx w) !! wsi_tsi c = Some p ->
  event_io_loop p <> NULL -> being_destroyed (ctx w) = 0 ->
  Z.land flags LWS_EV_START = 0 ->
  Z.land flags LWS_EV_STOP <> 0 ->
  Z.land flags (Z.lor LWS_EV_READ LWS_EV_WRITE) <> 0 ->
  (Z.land flags LWS_EV_READ <> 0 ->
   is_Some (registrations (reactor w) !! event_watcher (w_read c))) ->
  (Z.land flags LWS_EV_WRITE <> 0 ->
   is_Some (registrations (reactor w) !! event_watcher (w_write c))) ->
  let r := lws_libevent_io wsi flags w in
  out r = Returns tt /\
  calls r =
    (if truthy (Z.land flags LWS_EV_WRITE)
     then [Cevent_del (event_watcher (w_write c))] else []) ++
    (if truthy (Z.land flags LWS_EV_READ)
     then [Cevent_del (event_watcher (w_read c))] else []) /\
  (forall k, k ∈ pending (reactor (post r)) <->
     k ∈ pending (reactor w) /\
     ~ (Z.land flags LWS_EV_READ <> 0 /\ k = event_watcher (w_read c)) /\
     ~ (Z.land flags LWS_EV_WRITE <> 0 /\ k = event_watcher (w_write c))) /\
  faults (reactor (post r)) = faults (reactor w).
Proof.
  intros Ec He Ep Hl Hd Hs Hstop Hdir Hr Hw. cbv zeta.
  rewrite (lws_libevent_io_run wsi flags w c p Ec He Ep Hl Hd
             (land_lor_r _ _ _ Hstop) Hdir).
  unfold io_reactor, io_calls. rewrite Hs. simpl.
  split; [reflexivity |]. split; [reflexivity |].
  destruct (truthy (Z.land flags LWS_EV_WRITE)) eqn:Ew,
           (truthy (Z.land flags LWS_EV_READ)) eqn:Er;
    first [apply truthy_true in Ew | apply truthy_false in Ew];
    first [apply truthy_true in Er | apply truthy_false in Er];
    rewrite ?libevent_del_registered
      by (rewrite ?registrations_del; auto);
    simpl; (split; [| reflexivity]); intros k;
    rewrite ?elem_of_difference, ?elem_of_singleton; intuition congruence.
Qed.

(** X6.  Starting what is started changes nothing: after a start request
    for registered watches, the same request again leaves the whole state as
    the first left it. *)
Theorem lws_libevent_io_start_twice wsi flags w c p :
  wsis w !! wsi = Some c ->
  LWS_LIBEVENT_ENABLED (ctx w) = true ->
  pt (ctx w) !! wsi_tsi c = Some p ->
  event_io_loop p <> NULL -> being_destroyed (ctx w) = 0 ->
  Z.land flags LWS_EV_START <> 0 ->
  Z.land flags (Z.lor LWS_EV_READ LWS_EV_WRITE) <> 0 ->
  (Z.land flags LWS_EV_READ <> 0 ->
   is_Some (registrations (reactor w) !! event_watcher (w_read c))) ->
  (Z.land flags LWS_EV_WRITE <> 0 ->
   is_Some (registrations (reactor w) !! event_watcher (w_write c))) ->
  let r1 := lws_libevent_io wsi flags w in
  let r2 := lws_libevent_io wsi flags (post r1) in
  out r2 = Returns tt /\ post r2 = post r1.
Proof.
  intros Ec He Ep Hl Hd Hs Hdir Hr Hw. cbv zeta.
  rewrite (lws_libevent_io_run wsi flags w c p Ec He Ep Hl Hd
             (land_lor_l _ _ _ Hs) Hdir).
  cbn [post out].
  rewrite (lws_libevent_io_run wsi flags
             (set_reactor w (io_reactor flags c (reactor w))) c p Ec He Ep
             Hl Hd (land_lor_l _ _ _ Hs) Hdir).
  cbn [post out]. split; [reflexivity |].
  unfold set_reactor. simpl. f_equal.
  unfold io_reactor. apply truthy_true in Hs. rewrite Hs.
  destruct (truthy (Z.land flags LWS_EV_WRITE)) eqn:Ew,
           (truthy (Z.land flags LWS_EV_READ)) eqn:Er;
    first [apply truthy_true in Ew | apply truthy_false in Ew];
    first [apply truthy_true in Er | apply truthy_false in Er];
    rewrite ?libevent_add_registered
      by (rewrite ?registrations_add; auto);
    simpl; try reflexivity;
    f_equal; apply set_eq; intros k;
    rewrite ?elem_of_union, ?elem_of_singleton; tauto.
Qed.

(** ** The table of signal watchers *)

Lemma init_fd_table_threads_spec context todo : forall n w,
  (n + todo <= length (pt (ctx w)))%nat ->
  exists l,
    init_fd_table_threads context n todo w =
      Run (Returns tt) (set_ctx w (set_pt (ctx w) l)) [] /\
    forall i,
      l !! i =
      (fun p => if bool_decide (n <= i < n + todo)%nat
                then set_w_sigint p (set_io_context (w_sigint p) context)
                else p) <$> pt (ctx w) !! i.
Proof.
  induction todo as [| todo IH]; intros n w Hlen; simpl.
  - exists (pt (ctx w)). split.
    + unfold ret, set_ctx, set_pt. destruct w as [[] ? ? ?]. reflexivity.
    + intros i. rewrite bool_decide_eq_false_2 by lia.
      destruct (pt (ctx w) !! i); reflexivity.
  - destruct (lookup_lt_is_Some_2 (pt (ctx w)) n) as [p Ep]; [lia |].
    do 2 mstep.
    set (p' := set_w_sigint p (set_io_context (w_sigint p) context)).
    match goal with |- context [init_fd_table_threads _ _ _ ?w'] =>
      destruct (IH (S n) w') as (l & El & Hl) end.
    { simpl. rewrite length_insert. lia. }
    exists l. split.
    + rewrite El. unfold set_ctx, set_pt. reflexivity.
    + intros i. rewrite Hl. simpl.
      destruct (decide (i = n)) as [-> | Hn].
      * rewrite list_lookup_insert_eq by lia. rewrite Ep. simpl.
        rewrite bool_decide_eq_false_2 by lia.
        rewrite bool_decide_eq_true_2 by lia. reflexivity.
      * rewrite list_lookup_insert_ne by congruence.
        destruct (pt (ctx w) !! i); simpl; [| reflexivity].
        rewrite (bool_decide_ext (S n <= i < S (n + todo))%nat
                   (n <= i < n + S todo)%nat) by lia.
        reflexivity.
Qed.

Lemma init_fd_table_threads_overrun context todo : forall n w,
  (n <= length (pt (ctx w)) < n + todo)%nat ->
  out (init_fd_table_threads context n todo w) = Undefined /\
  calls (init_fd_table_threads context n todo w) = [].
Proof.
  induction todo as [| todo IH]; intros n w Hlen; simpl; [lia |].
  destruct (pt (ctx w) !! n) as [p |] eqn:Ep.
  - do 2 mstep. apply IH. simpl. rewrite length_insert.
    apply lookup_lt_Some in Ep. lia.
  - erewrite bind_undefined by (unfold load_pt; rewrite Ep; reflexivity).
    split; reflexivity.
Qed.

(** X7.  [lws_libevent_init_fd_table] returns 0 and does nothing on a
    disabled adapter.  Otherwise, when [count_threads] is within the thread
    table, it returns 1 after writing the context into the signal watcher of
    each of the first [count_threads] threads and nothing else: the other
    threads, the tokens, the connections and the library are untouched and no
    call is made.  When [count_threads] exceeds the table, the loop runs off
    its end. *)
Theorem lws_libevent_init_fd_table_spec context w :
  let r := lws_libevent_init_fd_table context w in
  let count := Z.to_nat (count_threads (ctx w)) in
  (LWS_LIBEVENT_ENABLED (ctx w) = false -> r = Run (Returns 0) w []) /\
  (LWS_LIBEVENT_ENABLED (ctx w) = true ->
   (count <= length (pt (ctx w)))%nat ->
   out r = Returns 1 /\ calls r = [] /\
   wsis (post r) = wsis w /\ reactor (post r) = reactor w /\
   only_threads_differ (ctx w) (ctx (post r)) /\
   forall i,
     pt (ctx (post r)) !! i =
     with_sigint_context context count i <$> pt (ctx w) !! i) /\
  (LWS_LIBEVENT_ENABLED (ctx w) = true ->
   (length (pt (ctx w)) < count)%nat ->
   out r = Undefined /\ calls r = []).
Proof.
  cbv zeta. unfold lws_libevent_init_fd_table. mstep.
  split; [| split].
  - intros He. rewrite He. reflexivity.
  - intros He Hlen. rewrite He. change (negb true) with false. cbv iota.
    destruct (init_fd_table_threads_spec context
                (Z.to_nat (count_threads (ctx w))) 0 w)
      as (l & El & Hl); [simpl; lia |].
    rewrite (bind_step_nil _ _ _ _ _ El). simpl.
    repeat split.
    intros i. rewrite Hl. unfold with_sigint_context.
    destruct (pt (ctx w) !! i); simpl; [| reflexivity].
    rewrite (bool_decide_ext (0 <= i < Z.to_nat (count_threads (ctx w)))%nat
               (i < Z.to_nat (count_threads (ctx w)))%nat) by lia.
    reflexivity.
  - intros He Hlen. rewrite He. change (negb true) with false. cbv iota.
    destruct (init_fd_table_threads_overrun context
                (Z.to_nat (count_threads (ctx w))) 0 w)
      as (Eo & Ec); [lia |].
    unfold bind.
    destruct (init_fd_table_threads context 0
                (Z.to_nat (count_threads (ctx w))) w) as [o w' cs].
    simpl in Eo, Ec. subst. split; reflexivity.
Qed.

(** ** After the teardown *)

Lemma read_nulled_refl c : read_nulled c c.
Proof. left. reflexivity. Qed.

Lemma read_nulled_step c c' :
  read_nulled (set_w_read c (set_watcher (w_read c) NULL)) c' ->
  read_nulled c c' /\ event_watcher (w_read c') = NULL.
Proof. intros [-> | ->]; split; try (right; reflexivity); reflexivity. Qed.

Lemma bases_free ev l : bases (libevent_free ev l) = bases l.
Proof. unfold libevent_free. destruct (registrations l !! ev); reflexivity. Qed.

(** The loop over the vhosts at teardown nulls the read token of every
    listening connection and changes nothing else in the connections; the
    library keeps its instances. *)
Lemma destroyloop_vhosts_nulls vh : forall w,
  let r := destroyloop_vhosts vh w in
  bases (reactor (post r)) = bases (reactor w) /\
  (forall q c, wsis w !! q = Some c ->
     exists c', wsis (post r) !! q = Some c' /\ read_nulled c c') /\
  (valid_listeners (wsis w) vh ->
   forall v, In v vh -> lserv_wsi v <> NULL ->
     exists c', wsis (post r) !! lserv_wsi v = Some c' /\
                event_watcher (w_read c') = NULL).
Proof.
  induction vh as [| v vh IH]; intros w; simpl.
  - split; [reflexivity |].
    split; [intros q c E; eauto using read_nulled_refl | intros _ v []].
  - destruct (truthy (lserv_wsi v)) eqn:Ev.
    + destruct (wsis w !! lserv_wsi v) as [c |] eqn:Ec.
      * do 3 mstep.
        match goal with |- context [destroyloop_vhosts vh ?w'] =>
          destruct (IH w') as (IHb & IHq & IHv); set (w1 := w') in * end.
        simpl in *.
        assert (Hq : forall q c0, wsis w !! q = Some c0 ->
                  exists c', wsis (post (destroyloop_vhosts vh w1)) !! q
                             = Some c' /\ read_nulled c0 c' /\
                             (q = lserv_wsi v ->
                              event_watcher (w_read c') = NULL)).
        { intros q c0 E. destruct (decide (q = lserv_wsi v)) as [-> | Hn].
          - rewrite Ec in E. inversion E; subst c0.
            destruct (IHq (lserv_wsi v) _ (lookup_insert_eq _ _ _))
              as (c' & E' & Hc').
            apply read_nulled_step in Hc' as [H1 H2]. eauto.
          - destruct (IHq q c0) as (c' & E' & Hc').
            { rewrite lookup_insert_ne by congruence. exact E. }
            exists c'. repeat split; auto. intros; contradiction. }
        split; [rewrite IHb; apply bases_free |].
        split.
        -- intros q c0 E. destruct (Hq q c0 E) as (c' & ? & ? & _). eauto.
        -- intros Hv v' [<- | Hin] Hn.
           ++ destruct (Hq _ c Ec) as (c' & ? & _ & H). eauto.
           ++ apply IHv; auto. inversion Hv as [| ? ? _ Hvs]; subst.
              eapply valid_listeners_dom; [| exact Hvs].
              apply (dom_insert_present _ _ c); exact Ec.
      * rewrite bind_assoc.
        erewrite bind_undefined
          by (unfold load_wsi; rewrite Ec; reflexivity).
        simpl. split; [reflexivity |].
        split; [intros q c E; eauto using read_nulled_refl |].
        intros Hv. inversion Hv as [| ? ? Hp _]; subst.
        apply truthy_true in Ev. destruct (Hp Ev) as [c Hc]. congruence.
    + mstep. destruct (IH w) as (IHb & IHq & IHv).
      split; [exact IHb |]. split; [exact IHq |].
      intros Hv v' [<- | Hin] Hn.
      * apply truthy_false in Ev. contradiction.
      * apply IHv; auto. inversion Hv; auto.
Qed.


(** X9.  The teardown is not a no-op the second time: as the thread keeps its
    instance pointer, a second [lws_libevent_destroyloop] of an owned loop
    ends by destroying the same instance once more, which the library no
    longer has. *)
Theorem destroyloop_twice_destroys_twice context tsi w p :
  pt (ctx w) !! tsi = Some p ->
  valid_listeners (wsis w) (vhost_list (ctx w)) ->
  lws_check_opt (options (ctx w)) LWS_SERVER_OPTION_LIBEVENT = true ->
  event_io_loop p <> NULL -> event_loop_foreign p = 0 ->
  let r1 := lws_libevent_destroyloop context tsi w in
  let r2 := lws_libevent_destroyloop context tsi (post r1) in
  (exists rel, calls r1 = rel ++ [Cevent_base_free (event_io_loop p)]) /\
  (exists rel, calls r2 = rel ++ [Cevent_base_free (event_io_loop p)]) /\
  In (Cevent_base_free (event_io_loop p)) (faults (reactor (post r2))).
Proof.
  intros Ep Hv Eo El Ef. cbv zeta.
  rewrite (destroyloop_run context tsi w p Ep Hv Eo El).
  rewrite Ef. change (truthy 0) with false. cbv iota. cbn [post calls].
  destruct (destroyloop_vhosts_spec (vhost_list (ctx w)) w) as (_ & Hx & _).
  destruct (destroyloop_vhosts_nulls (vhost_list (ctx w)) w)
    as (Hb & Hq & _).
  set (rv := destroyloop_vhosts (vhost_list (ctx w)) w) in *.
  set (l1 := if truthy (use_event_loop_sigint (ctx w))
             then libevent_free (event_watcher (w_sigint p))
                                (reactor (post rv))
             else reactor (post rv)).
  set (w1 := set_reactor (post rv)
               (libevent_base_free (event_io_loop p) l1)).
  assert (Ex1 : ctx w1 = ctx w) by exact Hx.
  assert (Ep1 : pt (ctx w1) !! tsi = Some p) by (rewrite Ex1; exact Ep).
  assert (Hv1 : valid_listeners (wsis w1) (vhost_list (ctx w1))).
  { rewrite Ex1. unfold valid_listeners in *.
    eapply Forall_impl; [exact Hv |]. simpl. intros v Hp Hn.
    destruct (Hp Hn) as [c Ec]. destruct (Hq _ _ Ec) as (c' & Ec' & _).
    eauto. }
  assert (Eo1 : lws_check_opt (options (ctx w1)) LWS_SERVER_OPTION_LIBEVENT
                = true) by (rewrite Ex1; exact Eo).
  split; [eexists; rewrite app_assoc; reflexivity |].
  rewrite (destroyloop_run context tsi w1 p Ep1 Hv1 Eo1 El).
  rewrite Ef. change (truthy 0) with false. cbv iota. cbn [post calls].
  split; [eexists; rewrite app_assoc; reflexivity |].
  destruct (destroyloop_vhosts_nulls (vhost_list (ctx w1)) w1)
    as (Hb1 & _ & _).
  set (rv1 := destroyloop_vhosts (vhost_list (ctx w1)) w1) in *.
  assert (Hgone : event_io_loop p ∉ bases (reactor w1)).
  { unfold w1. simpl. unfold libevent_base_free.
    destruct (decide (event_io_loop p ∈ bases l1)) as [Hin | Hout]; simpl.
    - rewrite elem_of_difference, elem_of_singleton. tauto.
    - exact Hout. }
  simpl. unfold libevent_base_free at 1.
  rewrite decide_False.
  - simpl. apply in_or_app. right. left. reflexivity.
  - match goal with |- context [if ?b then _ else _] => destruct b end;
      rewrite ?bases_free, Hb1; exact Hgone.
Qed.

(** ** The state a set-up leaves *)

Lemma grows_refl l : grows l l.
Proof. split; auto. Qed.

Lemma grows_trans l1 l2 l3 : grows l1 l2 -> grows l2 l3 -> grows l1 l3.
Proof. intros [A B] [C D]. split; auto. Qed.

Lemma grows_base_new l : grows l (snd (libevent_base_new l)).
Proof.
  unfold libevent_base_new.
  destruct (base_new_fails l); split; simpl; auto.
Qed.

(** A watch created and added at once is registered and pending, and nothing
    else is lost. *)
Lemma new_add_watching e l io_ctx :
  let l' := libevent_add (next_addr l) (snd (libevent_new e l)) in
  grows l l' /\ watching l' (IoWatcher (next_addr l) io_ctx).
Proof.
  cbv zeta. unfold libevent_new. simpl.
  rewrite libevent_add_registered
    by (simpl; rewrite lookup_insert_eq; eauto).
  split; [split |]; simpl.
  - intros k Hk. destruct (decide (next_addr l = k)) as [<- | Hn].
    + rewrite lookup_insert_eq. eauto.
    + rewrite lookup_insert_ne by exact Hn. exact Hk.
  - intros k Hk. apply elem_of_union. right. exact Hk.
  - split; simpl.
    + rewrite lookup_insert_eq. eauto.
    + apply elem_of_union. left. apply elem_of_singleton. reflexivity.
Qed.

Lemma watching_grows l l' io : grows l l' -> watching l io -> watching l' io.
Proof. intros [A B] [C D]. split; auto. Qed.

Lemma listening_grows context l l' c :
  grows l l' -> listening context l c -> listening context l' c.
Proof. intros G [A B]. split; [exact A | eapply watching_grows; eauto]. Qed.

(** The loop over the vhosts at set-up, seen from the state: the library only
    grows, the connections stay where they are with their descriptor and
    their write watcher, and every listening connection ends up with a read
    watcher that is registered and added. *)
Lemma initloop_vhosts_tokens context loop vh : forall w,
  valid_listeners (wsis w) vh ->
  let r := initloop_vhosts context loop vh w in
  grows (reactor w) (reactor (post r)) /\
  Forall is_new_or_add (calls r) /\
  dom (wsis (post r)) = dom (wsis w) /\
  (forall q c, wsis w !! q = Some c ->
     exists c', wsis (post r) !! q = Some c' /\
       w_write c' = w_write c /\
       (w_read c' = w_read c \/ listening context (reactor (post r)) c')) /\
  (forall v, In v vh -> lserv_wsi v <> NULL ->
     exists c', wsis (post r) !! lserv_wsi v = Some c' /\
                listening context (reactor (post r)) c').
Proof.
  induction vh as [| v vh IH]; intros w Hv; simpl.
  - split; [apply grows_refl |]. split; [constructor |].
    split; [reflexivity |].
    split; [intros q c E; exists c; auto | intros v []].
  - inversion Hv as [| ? ? Hp Hvs]; subst.
    destruct (truthy (lserv_wsi v)) eqn:Ev.
    + apply truthy_true in Ev. destruct (Hp Ev) as [c Ec].
      do 7 mstep. simpl.
      set (c1 := set_w_read c (set_io_context (w_read c) context)).
      set (ev := next_addr (reactor w)).
      set (c2 := set_w_read c1 (set_watcher (w_read c1) ev)).
      set (e := Event loop (sockfd (desc c)) (Z.lor EV_READ EV_PERSIST)
                      (Some Lws_event_cb) (w_read_of (lserv_wsi v))).
      destruct (new_add_watching e (reactor w) context) as (G1 & W1).
      fold ev in W1.
      match goal with |- context [initloop_vhosts context loop vh ?w'] =>
        set (w1 := w') in * end.
      assert (Ed : dom (wsis w1) = dom (wsis w)).
      { simpl. rewrite (dom_insert_present _ _ c1 c2)
          by apply lookup_insert_eq.
        apply (dom_insert_present _ _ c c1 Ec). }
      destruct (IH w1) as (IHg & IHc & IHd & IHq & IHv).
      { eapply valid_listeners_dom; [exact Ed | exact Hvs]. }
      assert (G : grows (reactor w) (reactor (post
                    (initloop_vhosts context loop vh w1))))
        by (eapply grows_trans; [exact G1 | exact IHg]).
      assert (Hq : forall q c0, wsis w !! q = Some c0 ->
                exists c', wsis (post (initloop_vhosts context loop vh w1))
                             !! q = Some c' /\
                  w_write c' = w_write c0 /\
                  (w_read c' = w_read c0 \/
                   listening context
                     (reactor (post (initloop_vhosts context loop vh w1)))
                     c') /\
                  (q = lserv_wsi v ->
                   listening context
                     (reactor (post (initloop_vhosts context loop vh w1)))
                     c')).
      { intros q c0 E. destruct (decide (q = lserv_wsi v)) as [-> | Hn].
        - rewrite Ec in E. inversion E; subst c0.
          destruct (IHq (lserv_wsi v) c2) as (c' & E' & Hw & Hr).
          { simpl. apply lookup_insert_eq. }
          assert (L : listening context
                        (reactor (post (initloop_vhosts context loop vh w1)))
                        c').
          { destruct Hr as [Hr | Hr]; [| exact Hr].
            split; rewrite Hr; [reflexivity |].
            eapply watching_grows; [exact IHg | exact W1]. }
          exists c'. split; [exact E' |]. split; [exact Hw |].
          split; [right; exact L | intros _; exact L].
        - destruct (IHq q c0) as (c' & E' & Hw & Hr).
          { simpl. rewrite !lookup_insert_ne by congruence. exact E. }
          exists c'. split; [exact E' |]. split; [exact Hw |].
          split; [exact Hr | intros; contradiction]. }
      split; [exact G |].
      split; [constructor;
                [left; do 6 eexists; reflexivity |
                 constructor; [right; eexists; reflexivity | exact IHc]] |].
      split; [rewrite IHd; exact Ed |].
      split.
      * intros q c0 E. destruct (Hq q c0 E) as (c' & ? & ? & ? & _). eauto.
      * intros v' [<- | Hin] Hn.
        -- destruct (Hq _ c Ec) as (c' & ? & _ & _ & L). eauto.
        -- apply IHv; auto.
    + mstep. destruct (IH w Hvs) as (IHg & IHc & IHd & IHq & IHv).
      repeat split; auto; try apply IHg.
      intros v' [<- | Hin] Hn.
      * apply truthy_false in Ev. contradiction.
      * apply IHv; auto.
Qed.

Lemma initloop_bound loop tsi w p :
  pt (ctx w) !! tsi = Some p ->
  (if negb (truthy loop) then
     b <- event_base_new ;;
     p <- load_pt tsi ;;
     store_pt tsi (set_io_loop p b)
   else
     p <- load_pt tsi ;;
     store_pt tsi (set_foreign p 1) ;;
     p <- load_pt tsi ;;
     store_pt tsi (set_io_loop p loop)) w =
  Run (Returns tt)
      (World (set_pt (ctx w)
                (<[tsi := bound_thread loop (reactor w) p]> (pt (ctx w))))
             (wsis w)
             (if truthy loop then reactor w
              else snd (libevent_base_new (reactor w)))
             (create_event_pipes_rc w))
      (if truthy loop then []
       else [Cevent_base_new (fst (libevent_base_new (reactor w)))]).
Proof.
  intros Ep. unfold bound_thread. destruct (truthy loop) eqn:El; simpl.
  - do 3 mstep. erewrite store_pt_eq by lookup_now.
    unfold set_ctx, set_pt. simpl. rewrite list_insert_insert_eq.
    reflexivity.
  - do 2 mstep. unfold emit. erewrite store_pt_eq by lookup_now.
    reflexivity.
Qed.

Lemma bound_thread_sigint loop l p :
  w_sigint (bound_thread loop l p) = w_sigint p.
Proof. unfold bound_thread. destruct (truthy loop); reflexivity. Qed.

(** What [lws_event_initloop] leaves behind, when the thread index is in
    range and every listening connection is there. *)
Lemma initloop_state context loop tsi w p :
  pt (ctx w) !! tsi = Some p ->
  valid_listeners (wsis w) (vhost_list (ctx w)) ->
  let r := lws_event_initloop context loop tsi w in
  let b := bound_thread loop (reactor w) p in
  exists p' rest,
    calls r = initloop_prefix context loop w ++ rest /\
    Forall is_new_or_add rest /\
    ctx (post r) = set_pt (ctx w) (<[tsi := p']> (pt (ctx w))) /\
    event_io_loop p' = event_io_loop b /\
    event_loop_foreign p' = event_loop_foreign b /\
    (w_sigint p' = w_sigint p \/
     watching (reactor (post r)) (w_sigint p')) /\
    grows (reactor w) (reactor (post r)) /\
    dom (wsis (post r)) = dom (wsis w) /\
    (forall q c, wsis w !! q = Some c ->
       exists c', wsis (post r) !! q = Some c' /\
         w_write c' = w_write c /\
         (w_read c' = w_read c \/
          listening context (reactor (post r)) c')) /\
    (create_event_pipes_rc w <> 0 ->
     rest = [] /\ wsis (post r) = wsis w /\ p' = b) /\
    (create_event_pipes_rc w = 0 ->
     (forall v, In v (vhost_list (ctx w)) -> lserv_wsi v <> NULL ->
        exists c', wsis (post r) !! lserv_wsi v = Some c' /\
                   listening context (reactor (post r)) c') /\
     (use_event_loop_sigint (ctx w) <> 0 ->
      watching (reactor (post r)) (w_sigint p'))).
Proof.
  intros Ep Hv. cbv zeta.
  set (b := bound_thread loop (reactor w) p).
  assert (Gb : grows (reactor w)
                 (if truthy loop then reactor w
                  else snd (libevent_base_new (reactor w))))
    by (destruct (truthy loop); [apply grows_refl | apply grows_base_new]).
  pattern (lws_event_initloop context loop tsi w).
  match goal with |- ?P _ => set (Q := P) end.
  unfold lws_event_initloop. mstep. cbv zeta.
  rewrite (bind_step _ _ _ _ _ _ (initloop_bound loop tsi w p Ep)).
  fold b.
  set (w1 := World (set_pt (ctx w) (<[tsi := b]> (pt (ctx w)))) (wsis w)
                   (if truthy loop then reactor w
                    else snd (libevent_base_new (reactor w)))
                   (create_event_pipes_rc w)) in *.
  mstep. change (create_event_pipes_rc w1) with (create_event_pipes_rc w).
  destruct (truthy (create_event_pipes_rc w)) eqn:Erc.
  - (* the pipes failed *)
    subst Q. cbv beta. unfold initloop_prefix.
    exists b, []. unfold emit. simpl. rewrite app_nil_r.
    split; [reflexivity |]. split; [constructor |].
    split; [reflexivity |]. split; [reflexivity |]. split; [reflexivity |].
    split; [left; apply bound_thread_sigint |].
    split; [exact Gb |]. split; [reflexivity |].
    split; [intros q c E; exists c; auto |].
    split; [auto |].
    intros H0. rewrite H0 in Erc. discriminate Erc.
  - (* the pipes are there *)
    assert (Hv1 : valid_listeners (wsis w1) (vhost_list (ctx w)))
      by exact Hv.
    destruct (initloop_vhosts_spec context loop (vhost_list (ctx w)) w1 Hv1)
      as (Ho & Hx & _ & _ & _).
    destruct (initloop_vhosts_tokens context loop (vhost_list (ctx w)) w1
                Hv1) as (Hg & Hc & Hd & Hq & Hl).
    destruct (initloop_vhosts context loop (vhost_list (ctx w)) w1)
      as [o w2 c2] eqn:Erv.
    simpl in Ho, Hx, Hg, Hc, Hd, Hq, Hl. subst o.
    rewrite (bind_step _ _ _ _ _ _ Erv). mstep. rewrite Hx.
    change (use_event_loop_sigint
              (set_pt (ctx w) (<[tsi := b]> (pt (ctx w)))))
      with (use_event_loop_sigint (ctx w)).
    assert (Ep2 : pt (ctx w2) !! tsi = Some b).
    { rewrite Hx. simpl. eapply list_lookup_insert_Some, Ep. }
    assert (G2 : grows (reactor w) (reactor w2))
      by (eapply grows_trans; [exact Gb | exact Hg]).
    destruct (truthy (use_event_loop_sigint (ctx w))) eqn:Eu.
    + (* with the signal watch *)
      change (negb true) with false. cbv iota.
      unfold evsignal_new. do 5 mstep.
      set (ev := next_addr (reactor w2)).
      set (cb := event_sigint_cb
                   (set_pt (ctx w) (<[tsi := b]> (pt (ctx w))))).
      set (e := Event loop SIGINT (Z.lor EV_SIGNAL EV_PERSIST) cb
                      (pt_of tsi)).
      destruct (new_add_watching e (reactor w2)
                  (io_context (w_sigint b))) as (G3 & W3).
      fold ev in W3.
      subst Q. cbv beta. unfold initloop_prefix.
      exists (set_w_sigint b (set_watcher (w_sigint b) ev)).
      exists (c2 ++ [Cevent_new loop SIGINT (Z.lor EV_SIGNAL EV_PERSIST)
                                cb (pt_of tsi) ev;
                     Cevent_add ev]).
      unfold emit. simpl. rewrite Hx. simpl.
      rewrite list_insert_insert_eq.
      split; [rewrite <- !app_assoc; reflexivity |].
      split.
      { apply Forall_app. split; [exact Hc |].
        constructor; [left; do 6 eexists; reflexivity |].
        constructor; [right; eexists; reflexivity | constructor]. }
      split; [reflexivity |]. split; [reflexivity |].
      split; [reflexivity |].
      split; [right; exact W3 |].
      split; [eapply grows_trans; [exact G2 | exact G3] |].
      split; [exact Hd |].
      split.
      { intros q c E. destruct (Hq q c E) as (c' & E' & Hw & Hr).
        exists c'. split; [exact E' |]. split; [exact Hw |].
        destruct Hr as [Hr | Hr]; [left; exact Hr | right].
        eapply listening_grows; [exact G3 | exact Hr]. }
      split.
      { intros H0. apply truthy_false in Erc. contradiction. }
      intros _. split; [| intros _; exact W3].
      intros v Hin Hn. destruct (Hl v Hin Hn) as (c' & E' & L).
      exists c'. split; [exact E' |].
      eapply listening_grows; [exact G3 | exact L].
    + (* without *)
      change (negb false) with true. cbv iota.
      subst Q. cbv beta. unfold initloop_prefix.
      exists b, c2. unfold emit. simpl. rewrite app_nil_r.
      split; [rewrite <- !app_assoc; reflexivity |].
      split; [exact Hc |].
      split; [rewrite Hx; reflexivity |].
      split; [reflexivity |]. split; [reflexivity |].
      split; [left; apply bound_thread_sigint |].
      split; [exact G2 |]. split; [exact Hd |]. split; [exact Hq |].
      split.
      { intros H0. apply truthy_false in Erc. contradiction. }
      intros _. split; [exact Hl |].
      intros H0. apply truthy_false in Eu. contradiction.
Qed.

Lemma initloop_state_valid context loop tsi w p :
  pt (ctx w) !! tsi = Some p ->
  valid_listeners (wsis w) (vhost_list (ctx w)) ->
  let w' := post (lws_event_initloop context loop tsi w) in
  valid_listeners (wsis w') (vhost_list (ctx w')) /\
  options (ctx w') = options (ctx w) /\
  use_event_loop_sigint (ctx w') = use_event_loop_sigint (ctx w) /\
  being_destroyed (ctx w') = being_destroyed (ctx w) /\
  exists p', pt (ctx w') !! tsi = Some p' /\
    event_io_loop p' = event_io_loop (bound_thread loop (reactor w) p) /\
    event_loop_foreign p' =
      event_loop_foreign (bound_thread loop (reactor w) p).
Proof.
  intros Ep Hv. cbv zeta.
  destruct (initloop_state context loop tsi w p Ep Hv)
    as (p' & rest & _ & _ & Ex & El & Ef & _ & _ & Hd & _).
  rewrite Ex. simpl.
  split; [eapply valid_listeners_dom; [exact Hd | exact Hv] |].
  repeat (split; [reflexivity |]).
  exists p'. split; [eapply list_lookup_insert_Some, Ep | auto].
Qed.

Lemma destroyloop_ctx context tsi w :
  ctx (post (lws_libevent_destroyloop context tsi w)) = ctx w.
Proof.
  unfold lws_libevent_destroyloop. mstep.
  destruct (lws_check_opt _ _); simpl; [| reflexivity].
  destruct (pt (ctx w) !! tsi) as [p |] eqn:Ep;
    [| erewrite bind_undefined
         by (unfold load_pt; rewrite Ep; reflexivity); reflexivity].
  mstep. destruct (truthy (event_io_loop p)); simpl; [| reflexivity].
  destruct (destroyloop_vhosts_spec (vhost_list (ctx w)) w) as (_ & Hx & _).
  unfold bind at 1.
  destruct (destroyloop_vhosts (vhost_list (ctx w)) w) as [o w1 c1].
  simpl in Hx. destruct o as [[] | |]; simpl; try exact Hx.
  destruct (truthy (use_event_loop_sigint (ctx w))),
           (truthy (event_loop_foreign p)); mstep; exact Hx.
Qed.

(** X10.  The instance [lws_event_initloop] makes when none is supplied is
    the one [lws_libevent_destroyloop] destroys afterwards, as its last call
    and after releases only, whether or not the wake pipes could be made. *)
Theorem initloop_destroyloop_owned context tsi w p :
  pt (ctx w) !! tsi = Some p ->
  valid_listeners (wsis w) (vhost_list (ctx w)) ->
  lws_check_opt (options (ctx w)) LWS_SERVER_OPTION_LIBEVENT = true ->
  event_loop_foreign p = 0 ->
  fst (libevent_base_new (reactor w)) <> NULL ->
  let b := fst (libevent_base_new (reactor w)) in
  let r1 := lws_event_initloop context NULL tsi w in
  let r2 := lws_libevent_destroyloop context tsi (post r1) in
  (exists rest, calls r1 = Cevent_base_new b :: rest) /\
  out r2 = Returns tt /\
  exists rel, calls r2 = rel ++ [Cevent_base_free b] /\ Forall is_release rel.
Proof.
  intros Ep Hv Eo Ef Hb. cbv zeta.
  destruct (initloop_state context NULL tsi w p Ep Hv)
    as (p0 & rest & Ec & _).
  destruct (initloop_state_valid context NULL tsi w p Ep Hv)
    as (Hv' & Eo' & _ & _ & p' & Ep' & El' & Ef').
  simpl in El', Ef'. rewrite Ef in Ef'.
  split; [eexists; rewrite Ec; reflexivity |].
  rewrite <- Eo' in Eo. rewrite <- El' in Hb.
  rewrite (destroyloop_run context tsi _ p' Ep' Hv' Eo Hb).
  rewrite Ef', El'. change (truthy 0) with false. cbv iota.
  split; [reflexivity |]. cbn [calls].
  eexists. split; [rewrite app_assoc; reflexivity |].
  apply Forall_app. split.
  - apply destroyloop_vhosts_spec.
  - match goal with |- context [if ?c then _ else _] => destruct c end;
      repeat constructor. eexists. reflexivity.
Qed.

(** X11.  An instance supplied to [lws_event_initloop] is neither created nor
    destroyed by the adapter: the set-up makes no [event_base_new] call, the
    teardown after it no [event_base_free] call, and the thread still points
    to the supplied instance, marked foreign, after both. *)
Theorem initloop_destroyloop_foreign context loop tsi w p :
  pt (ctx w) !! tsi = Some p ->
  valid_listeners (wsis w) (vhost_list (ctx w)) ->
  loop <> NULL ->
  let r1 := lws_event_initloop context loop tsi w in
  let r2 := lws_libevent_destroyloop context tsi (post r1) in
  (forall b, ~ In (Cevent_base_new b) (calls r1)) /\
  (forall b, ~ In (Cevent_base_free b) (calls r2)) /\
  exists p', pt (ctx (post r2)) !! tsi = Some p' /\
             event_io_loop p' = loop /\ event_loop_foreign p' = 1.
Proof.
  intros Ep Hv Hl. cbv zeta.
  destruct (initloop_state context loop tsi w p Ep Hv)
    as (p0 & rest & Ec & Hrest & _).
  destruct (initloop_state_valid context loop tsi w p Ep Hv)
    as (_ & _ & _ & _ & p' & Ep' & El' & Ef').
  unfold bound_thread in El', Ef'. unfold initloop_prefix in Ec.
  apply truthy_true in Hl. rewrite Hl in El', Ef', Ec.
  simpl in El', Ef'. cbn [app] in Ec.
  split; [| split].
  - intros b Hb. rewrite Ec in Hb. destruct Hb as [Hb | Hb];
      [discriminate Hb |].
    rewrite Forall_forall in Hrest. apply list_elem_of_In in Hb.
    destruct (Hrest _ Hb) as [(? & ? & ? & ? & ? & ? & H) | (? & H)];
      discriminate H.
  - intros b Hb.
    destruct (destroyloop_trace context tsi
                (post (lws_event_initloop context loop tsi w)))
      as (rel & tail & Et & Hrel & Ht).
    rewrite Et in Hb. apply in_app_or in Hb as [Hb | Hb].
    + rewrite Forall_forall in Hrel. apply list_elem_of_In in Hb.
      destruct (Hrel _ Hb) as [ev H]. discriminate H.
    + destruct Ht as [-> | (p1 & Ep1 & -> & _ & _ & Hf)]; [destruct Hb |].
      rewrite Ep' in Ep1. inversion Ep1; subst p1.
      rewrite Ef' in Hf. discriminate Hf.
  - exists p'. rewrite destroyloop_ctx. auto.
Qed.

(** X12.  When the wake pipes cannot be made, [lws_event_initloop] returns 1
    having created no watch and touched no connection, but it has already
    given the thread its instance: the supplied one, marked foreign, or the
    new one, which it does not destroy. *)
Theorem initloop_failure_keeps_instance context loop tsi w p :
  pt (ctx w) !! tsi = Some p ->
  valid_listeners (wsis w) (vhost_list (ctx w)) ->
  create_event_pipes_rc w <> 0 ->
  let r := lws_event_initloop context loop tsi w in
  out r = Returns 1 /\
  calls r = initloop_prefix context loop w /\
  wsis (post r) = wsis w /\
  ctx (post r) =
    set_pt (ctx w)
           (<[tsi := bound_thread loop (reactor w) p]> (pt (ctx w))).
Proof.
  intros Ep Hv Hrc. cbv zeta.
  destruct (initloop_run context loop tsi w p Ep Hv)
    as (cs1 & w1 & p1 & _ & _ & _ & _ & Hfail & _).
  destruct (initloop_state context loop tsi w p Ep Hv)
    as (p' & rest & Ec & _ & Ex & _ & _ & _ & _ & _ & _ & Hf & _).
  destruct (Hf Hrc) as (-> & Ew & ->).
  rewrite app_nil_r in Ec.
  split; [rewrite (Hfail Hrc); reflexivity | auto].
Qed.

Lemma extends_refl l : extends l l.
Proof. unfold extends. repeat split; auto. lia. Qed.

Lemma extends_trans l1 l2 l3 :
  extends l1 l2 -> extends l2 l3 -> extends l1 l3.
Proof.
  intros (A & B & C & D) (A' & B' & C' & D'). unfold extends.
  split; [lia |]. split; [| split; auto].
  intros k Hk. rewrite B' by lia. apply B, Hk.
Qed.

Lemma settled_extends l l' k e :
  extends l l' -> settled l k e -> settled l' k e.
Proof.
  intros (A & B & C & D) (Hk & Hr & Hp & Hb). unfold settled, live_watch.
  split; [lia |]. split; [rewrite B by exact Hk; exact Hr | auto].
Qed.

(** A watch created on an instance that is alive, and added at once, is
    settled, and nothing the library had is lost. *)
Lemma new_add_settled e l :
  ev_base e ∈ bases l ->
  let l' := libevent_add (next_addr l) (snd (libevent_new e l)) in
  extends l l' /\ settled l' (next_addr l) e.
Proof.
  intros Hb. cbv zeta. unfold libevent_new. simpl.
  rewrite libevent_add_registered
    by (simpl; rewrite lookup_insert_eq; eauto).
  unfold extends, settled, live_watch. simpl.
  split; [split; [lia |]; split; [| split; auto] |].
  - intros k Hk. apply lookup_insert_ne. lia.
  - intros k Hk. apply elem_of_union. right. exact Hk.
  - split; [lia |]. split; [apply lookup_insert_eq |].
    split; [| exact Hb].
    apply elem_of_union. left. apply elem_of_singleton. reflexivity.
Qed.

(** The loop over the vhosts at set-up, for a loop that is alive: every
    listening connection ends up with a read watcher that points back to the
    context and whose token stands for a read watch of its descriptor, made
    on that loop and added. *)
Lemma initloop_vhosts_settled context loop vh : forall w,
  valid_listeners (wsis w) vh ->
  loop ∈ bases (reactor w) ->
  let r := initloop_vhosts context loop vh w in
  extends (reactor w) (reactor (post r)) /\
  (forall q c, wsis w !! q = Some c ->
     exists c', wsis (post r) !! q = Some c' /\ desc c' = desc c /\
       (w_read c' = w_read c \/
        (io_context (w_read c') = context /\
         settled (reactor (post r)) (event_watcher (w_read c'))
                 (read_event loop (sockfd (desc c)) q)))) /\
  (forall v, In v vh -> lserv_wsi v <> NULL ->
     exists c', wsis (post r) !! lserv_wsi v = Some c' /\
       io_context (w_read c') = context /\
       settled (reactor (post r)) (event_watcher (w_read c'))
               (read_event loop (sockfd (desc c')) (lserv_wsi v))).
Proof.
  induction vh as [| v vh IH]; intros w Hv Hb; simpl.
  - split; [apply extends_refl |].
    split; [intros q c E; exists c; auto | intros v []].
  - inversion Hv as [| ? ? Hp Hvs]; subst.
    destruct (truthy (lserv_wsi v)) eqn:Ev.
    + apply truthy_true in Ev. destruct (Hp Ev) as [c Ec].
      do 7 mstep. simpl.
      set (c1 := set_w_read c (set_io_context (w_read c) context)).
      set (ev := next_addr (reactor w)).
      set (c2 := set_w_read c1 (set_watcher (w_read c1) ev)).
      set (e := Event loop (sockfd (desc c)) (Z.lor EV_READ EV_PERSIST)
                      (Some Lws_event_cb) (w_read_of (lserv_wsi v))).
      destruct (new_add_settled e (reactor w) Hb) as (G1 & W1).
      fold ev in W1.
      match goal with |- context [initloop_vhosts context loop vh ?w'] =>
        set (w1 := w') in * end.
      assert (Ed : dom (wsis w1) = dom (wsis w)).
      { simpl. rewrite (dom_insert_present _ _ c1 c2)
          by apply lookup_insert_eq.
        apply (dom_insert_present _ _ c c1 Ec). }
      destruct (IH w1) as (IHg & IHq & IHv).
      { eapply valid_listeners_dom; [exact Ed | exact Hvs]. }
      { destruct G1 as (_ & _ & _ & D). apply D, Hb. }
      set (l' := reactor (post (initloop_vhosts context loop vh w1))) in *.
      assert (Hq : forall q c0, wsis w !! q = Some c0 ->
                exists c', wsis (post (initloop_vhosts context loop vh w1))
                             !! q = Some c' /\ desc c' = desc c0 /\
                  (w_read c' = w_read c0 \/
                   (io_context (w_read c') = context /\
                    settled l' (event_watcher (w_read c'))
                            (read_event loop (sockfd (desc c0)) q))) /\
                  (q = lserv_wsi v ->
                   io_context (w_read c') = context /\
                   settled l' (event_watcher (w_read c'))
                           (read_event loop (sockfd (desc c0)) q))).
      { intros q c0 E. destruct (decide (q = lserv_wsi v)) as [-> | Hn].
        - rewrite Ec in E. inversion E; subst c0.
          destruct (IHq (lserv_wsi v) c2) as (c' & E' & Hd & Hr).
          { simpl. apply lookup_insert_eq. }
          assert (L : io_context (w_read c') = context /\
                      settled l' (event_watcher (w_read c'))
                        (read_event loop (sockfd (desc c)) (lserv_wsi v))).
          { destruct Hr as [Hr | Hr]; [| exact Hr].
            rewrite Hr. split; [reflexivity |].
            eapply settled_extends; [exact IHg | exact W1]. }
          exists c'. split; [exact E' |]. split; [exact Hd |].
          split; [right; exact L | intros _; exact L].
        - destruct (IHq q c0) as (c' & E' & Hd & Hr).
          { simpl. rewrite !lookup_insert_ne by congruence. exact E. }
          exists c'. split; [exact E' |]. split; [exact Hd |].
          split; [exact Hr | intros; contradiction]. }
      split; [eapply extends_trans; [exact G1 | exact IHg] |].
      split.
      * intros q c0 E. destruct (Hq q c0 E) as (c' & ? & ? & ? & _). eauto.
      * intros v' [<- | Hin] Hn.
        -- destruct (Hq _ c Ec) as (c' & E' & Hd & _ & L).
           exists c'. rewrite Hd. split; [exact E' | exact (L eq_refl)].
        -- apply IHv; auto.
    + mstep. destruct (IH w Hvs Hb) as (IHg & IHq & IHv).
      split; [exact IHg |]. split; [exact IHq |].
      intros v' [<- | Hin] Hn.
      * apply truthy_false in Ev. contradiction.
      * apply IHv; auto.
Qed.

(** X13.  When a loop is supplied that is alive and the wake pipes are made,
    [lws_event_initloop] leaves the watches it made live on that loop, which
    is also the one the thread is bound to: every listening connection has a
    read watcher that points back to the context and whose token stands for
    a read watch of the connection's descriptor with [lws_event_cb], made on
    the loop and added; and, when interrupt handling is on, the thread's
    signal token stands for a [SIGINT] watch with the configured callback,
    made on the loop and added. *)
Theorem initloop_watches_are_live context loop tsi w p :
  pt (ctx w) !! tsi = Some p ->
  valid_listeners (wsis w) (vhost_list (ctx w)) ->
  create_event_pipes_rc w = 0 ->
  loop <> NULL -> loop ∈ bases (reactor w) ->
  let w' := post (lws_event_initloop context loop tsi w) in
  loop ∈ bases (reactor w') /\
  (forall v, In v (vhost_list (ctx w)) -> lserv_wsi v <> NULL ->
     exists c', wsis w' !! lserv_wsi v = Some c' /\
       io_context (w_read c') = context /\
       live_watch (reactor w') (event_watcher (w_read c'))
                  (read_event loop (sockfd (desc c')) (lserv_wsi v))) /\
  exists p', pt (ctx w') !! tsi = Some p' /\
    event_io_loop p' = loop /\
    (use_event_loop_sigint (ctx w) <> 0 ->
     live_watch (reactor w') (event_watcher (w_sigint p'))
                (signal_event loop (event_sigint_cb (ctx w)) tsi)).
Proof.
  intros Ep Hv Hrc Hl Hb. cbv zeta.
  apply truthy_true in Hl. apply truthy_false in Hrc.
  pattern (lws_event_initloop context loop tsi w).
  match goal with |- ?P _ => set (Q := P) end.
  unfold lws_event_initloop. mstep. cbv zeta.
  rewrite (bind_step _ _ _ _ _ _ (initloop_bound loop tsi w p Ep)).
  unfold bound_thread. rewrite Hl.
  set (b := PerThread loop 1 (w_sigint p)).
  set (w1 := World (set_pt (ctx w) (<[tsi := b]> (pt (ctx w)))) (wsis w)
                   (reactor w) (create_event_pipes_rc w)) in *.
  mstep. change (create_event_pipes_rc w1) with (create_event_pipes_rc w).
  rewrite Hrc.
  assert (Hv1 : valid_listeners (wsis w1) (vhost_list (ctx w)))
    by exact Hv.
  assert (Hb1 : loop ∈ bases (reactor w1)) by exact Hb.
  destruct (initloop_vhosts_spec context loop (vhost_list (ctx w)) w1 Hv1)
    as (Ho & Hx & _ & _ & _).
  destruct (initloop_vhosts_settled context loop (vhost_list (ctx w)) w1
              Hv1 Hb1) as (Hg & _ & Hls).
  destruct (initloop_vhosts context loop (vhost_list (ctx w)) w1)
    as [o w2 c2] eqn:Erv.
  simpl in Ho, Hx, Hg, Hls. subst o.
  rewrite (bind_step _ _ _ _ _ _ Erv). mstep. rewrite Hx.
  change (use_event_loop_sigint
            (set_pt (ctx w) (<[tsi := b]> (pt (ctx w)))))
    with (use_event_loop_sigint (ctx w)).
  assert (Ep2 : pt (ctx w2) !! tsi = Some b).
  { rewrite Hx. simpl. eapply list_lookup_insert_Some, Ep. }
  assert (Hb2 : loop ∈ bases (reactor w2)).
  { destruct Hg as (_ & _ & _ & D). apply D, Hb. }
  destruct (truthy (use_event_loop_sigint (ctx w))) eqn:Eu.
  - (* with the signal watch *)
    change (negb true) with false. cbv iota.
    unfold evsignal_new. do 5 mstep.
    set (ev := next_addr (reactor w2)).
    set (e := signal_event loop (event_sigint_cb (ctx w)) tsi).
    destruct (new_add_settled e (reactor w2) Hb2) as (G3 & W3).
    fold ev in W3.
    subst Q. cbv beta. unfold emit. simpl. rewrite Hx. simpl.
    rewrite list_insert_insert_eq.
    split; [destruct G3 as (_ & _ & _ & D); apply D, Hb2 |].
    split.
    + intros v Hin Hn. destruct (Hls v Hin Hn) as (c' & E' & Hc & L).
      exists c'. split; [exact E' |]. split; [exact Hc |].
      exact (proj2 (settled_extends _ _ _ _ G3 L)).
    + exists (set_w_sigint b (set_watcher (w_sigint b) ev)).
      split; [eapply list_lookup_insert_Some, Ep |].
      split; [reflexivity |]. intros _. exact (proj2 W3).
  - (* without *)
    change (negb false) with true. cbv iota.
    subst Q. cbv beta. unfold emit. simpl.
    split; [exact Hb2 |]. split.
    + intros v Hin Hn. destruct (Hls v Hin Hn) as (c' & E' & Hc & L).
      exists c'. split; [exact E' |]. split; [exact Hc | exact (proj2 L)].
    + exists b. split; [exact Ep2 |]. split; [reflexivity |].
      intros H0. apply truthy_false in Eu. contradiction.
Qed.

Lemma token_ok_grows l l' io : grows l l' -> token_ok l io -> token_ok l' io.
Proof. intros [G _] [H | H]; [left; exact H | right; auto]. Qed.

(** X14.  [lws_event_initloop] keeps the token invariant: if every watcher
    token of the state is null or registered before it, so is every one after
    it, whatever the loop argument and whether or not the pipes could be
    made. *)
Theorem initloop_keeps_tokens_ok context loop tsi w p :
  pt (ctx w) !! tsi = Some p ->
  valid_listeners (wsis w) (vhost_list (ctx w)) ->
  tokens_ok w ->
  tokens_ok (post (lws_event_initloop context loop tsi w)).
Proof.
  intros Ep Hv (Hw & Ht).
  destruct (initloop_state context loop tsi w p Ep Hv)
    as (p' & rest & _ & _ & Ex & _ & _ & Hsig & G & Hd & Hq & _).
  split.
  - intros q c' E'.
    assert (Hin : q ∈ dom (wsis w))
      by (rewrite <- Hd; apply elem_of_dom; eauto).
    apply elem_of_dom in Hin as [c Ec].
    destruct (Hq q c Ec) as (c'' & E'' & Hwr & Hrd).
    rewrite E' in E''. inversion E''; subst c''.
    destruct (Hw q c Ec) as (Tr & Tw). split.
    + destruct Hrd as [Hrd | (_ & Hrd & _)].
      * rewrite Hrd. eapply token_ok_grows; eauto.
      * right. exact Hrd.
    + rewrite Hwr. eapply token_ok_grows; eauto.
  - intros i pi Ei. rewrite Ex in Ei. simpl in Ei.
    destruct (decide (i = tsi)) as [-> | Hn].
    + rewrite (list_lookup_insert_Some _ _ _ _ Ep) in Ei.
      inversion Ei; subst pi.
      destruct Hsig as [Hsig | (Hsig & _)].
      * rewrite Hsig. eapply token_ok_grows; eauto.
      * right. exact Hsig.
    + rewrite list_lookup_insert_ne in Ei by congruence.
      eapply token_ok_grows; eauto.
Qed.

(** X15.  [lws_libevent_accept] keeps the token invariant as well. *)
Theorem accept_keeps_tokens_ok new_wsi d w c p :
  wsis w !! new_wsi = Some c ->
  pt (ctx w) !! wsi_tsi c = Some p ->
  tokens_ok w ->
  tokens_ok (post (lws_libevent_accept new_wsi d w)).
Proof.
  intros Ec Ep (Hw & Ht).
  destruct (LWS_LIBEVENT_ENABLED (ctx w)) eqn:He.
  - rewrite (lws_libevent_accept_run new_wsi d w c p Ec He Ep). simpl.
    set (n := next_addr (reactor w)).
    assert (G : forall io, token_ok (reactor w) io ->
      event_watcher io = NULL \/
      is_Some (<[n + 1 := write_event (event_io_loop p) (accept_fd c d)
                                      new_wsi]>
                 (<[n := read_event (event_io_loop p) (accept_fd c d)
                                    new_wsi]>
                    (registrations (reactor w))) !! event_watcher io)).
    { intros io [H | H]; [left; exact H | right].
      rewrite !lookup_insert_is_Some'. tauto. }
    split.
    + intros q c' E'. unfold token_ok. simpl. simpl in E'.
      destruct (decide (q = new_wsi)) as [-> | Hn].
      * rewrite lookup_insert_eq in E'. inversion E'; subst c'. simpl.
        split; right; rewrite !lookup_insert_is_Some'; tauto.
      * rewrite lookup_insert_ne in E' by congruence.
        destruct (Hw q c' E'). split; apply G; assumption.
    + intros i pi Ei. apply G. exact (Ht i pi Ei).
  - unfold lws_libevent_accept. do 2 mstep. rewrite He. simpl.
    split; assumption.
Qed.

(** X16.  After [lws_event_initloop], [lws_libevent_run] on an enabled
    adapter dispatches, once, the instance the thread was given (the supplied
    one, or else the new one) and nothing when there is none because
    [event_base_new] failed; it changes no state. *)
Theorem run_after_initloop context loop tsi w p :
  pt (ctx w) !! tsi = Some p ->
  valid_listeners (wsis w) (vhost_list (ctx w)) ->
  let w' := post (lws_event_initloop context loop tsi w) in
  let inst := event_io_loop (bound_thread loop (reactor w) p) in
  LWS_LIBEVENT_ENABLED (ctx w') = true ->
  lws_libevent_run context tsi w' =
  Run (Returns tt) w'
      (if truthy inst then [Cevent_base_dispatch inst] else []).
Proof.
  intros Ep Hv. cbv zeta. intros He.
  destruct (initloop_state_valid context loop tsi w p Ep Hv)
    as (_ & _ & _ & _ & p' & Ep' & El' & _).
  unfold lws_libevent_run. do 2 mstep. rewrite He, El', andb_true_r.
  destruct (truthy _); reflexivity.
Qed.

(** X17.  When no loop is supplied and [event_base_new] fails, the thread is
    left without an instance, and what follows is silently inert: the
    teardown releases nothing (so whatever the set-up registered stays), the
    dispatch is not run and start/stop requests on the thread's connections
    do nothing. *)
Theorem failed_instance_is_inert context tsi w p :
  pt (ctx w) !! tsi = Some p ->
  valid_listeners (wsis w) (vhost_list (ctx w)) ->
  fst (libevent_base_new (reactor w)) = NULL ->
  let w' := post (lws_event_initloop context NULL tsi w) in
  lws_libevent_destroyloop context tsi w' = Run (Returns tt) w' [] /\
  lws_libevent_run context tsi w' = Run (Returns tt) w' [] /\
  forall wsi flags c,
    wsis w' !! wsi = Some c -> wsi_tsi c = tsi ->
    lws_libevent_io wsi flags w' = Run (Returns tt) w' [].
Proof.
  intros Ep Hv Hb. cbv zeta.
  destruct (initloop_state_valid context NULL tsi w p Ep Hv)
    as (_ & _ & _ & _ & p' & Ep' & El' & _).
  simpl in El'. rewrite Hb in El'.
  remember (post (lws_event_initloop context NULL tsi w)) as w' eqn:Ew'.
  clear Ew'.
  split; [| split].
  - unfold lws_libevent_destroyloop. mstep.
    destruct (lws_check_opt _ _); simpl; [| reflexivity].
    mstep. rewrite El'. reflexivity.
  - unfold lws_libevent_run. do 2 mstep. rewrite El'. reflexivity.
  - intros wsi flags c Ec Et. subst tsi.
    unfold lws_libevent_io. do 2 mstep.
    destruct (LWS_LIBEVENT_ENABLED _); simpl; [| reflexivity].
    mstep. rewrite El'. reflexivity.
Qed.

(** X18.  What [lws_event_sigint_cfg] records is what the next
    [lws_event_initloop] uses: with interrupt handling switched on, the
    set-up ends by creating and adding a [SIGINT] watch whose callback is the
    configured one, [lws_event_sigint_cb] when none was given; switched off,
    it creates no signal watch, whatever the callback. *)
Theorem sigint_cfg_then_initloop context loop tsi w p use cb :
  pt (ctx w) !! tsi = Some p ->
  valid_listeners (wsis w) (vhost_list (ctx w)) ->
  create_event_pipes_rc w = 0 ->
  let w1 := post (lws_event_sigint_cfg context use cb w) in
  let r := lws_event_initloop context loop tsi w1 in
  (use <> 0 ->
   exists pre ev,
     calls r =
     pre ++ [Cevent_new loop SIGINT (Z.lor EV_SIGNAL EV_PERSIST)
                        (Some (configured_cb cb)) (pt_of tsi) ev;
             Cevent_add ev]) /\
  (use = 0 -> Forall (fun c => ~ is_signal_watch c) (calls r)).
Proof.
  intros Ep Hv Hrc. cbv zeta. rewrite lws_event_sigint_cfg_eq. cbn [post].
  set (w1 := set_ctx w _).
  destruct (initloop_run context loop tsi w1 p Ep Hv)
    as (cs1 & w2 & p2 & Hcs & _ & _ & _ & _ & Hok).
  destruct (Hok Hrc) as (H0 & H1). clear Hok. simpl in H0, H1. split.
  - intros Hu. destruct (H1 Hu) as (w3 & p3 & ev & E & _).
    rewrite E. simpl. eexists. exists ev.
    rewrite app_comm_cons, app_assoc. reflexivity.
  - intros Hu. rewrite (H0 Hu). simpl. apply Forall_app. split.
    + apply Forall_forall. intros c Hc. apply list_elem_of_In in Hc.
      destruct (Hcs c Hc) as [b ->].
      intros (? & ? & ? & ? & ? & ? & H). discriminate H.
    + constructor; [intros (? & ? & ? & ? & ? & ? & H); discriminate H |].
      apply initloop_vhosts_no_signal.
Qed.

(** X19.  The tokens [lws_libevent_accept] keeps are the ones
    [lws_libevent_io] acts on: a start request for both directions right
    after the accept adds the write watch and then the read watch just
    created, so that exactly these two become pending, and the library sees
    no fault. *)
Theorem accept_then_start new_wsi d w c p flags :
  wsis w !! new_wsi = Some c ->
  LWS_LIBEVENT_ENABLED (ctx w) = true ->
  pt (ctx w) !! wsi_tsi c = Some p ->
  event_io_loop p <> NULL -> being_destroyed (ctx w) = 0 ->
  Z.land flags LWS_EV_START <> 0 ->
  Z.land flags LWS_EV_READ <> 0 ->
  Z.land flags LWS_EV_WRITE <> 0 ->
  let n := next_addr (reactor w) in
  let r := lws_libevent_io new_wsi flags
             (post (lws_libevent_accept new_wsi d w)) in
  out r = Returns tt /\
  calls r = [Cevent_add (n + 1); Cevent_add n] /\
  (forall k, k ∈ pending (reactor (post r)) <->
             k = n \/ k = n + 1 \/ k ∈ pending (reactor w)) /\
  faults (reactor (post r)) = faults (reactor w).
Proof.
  intros Ec He Ep Hl Hd Hs Hr Hw. cbv zeta.
  rewrite (lws_libevent_accept_run new_wsi d w c p Ec He Ep). cbn [post].
  set (n := next_addr (reactor w)).
  match goal with |- context [lws_libevent_io new_wsi flags ?w'] =>
    rewrite (lws_libevent_io_run new_wsi flags w' (accepted c n) p
               (lookup_insert_eq _ _ _) He Ep Hl Hd (land_lor_l _ _ _ Hs)
               (land_lor_l _ _ _ Hr))
  end.
  unfold io_reactor, io_calls.
  apply truthy_true in Hs, Hr, Hw. rewrite Hs, Hr, Hw. simpl.
  rewrite (libevent_add_registered (n + 1))
    by (simpl; rewrite lookup_insert_eq; eauto).
  rewrite (libevent_add_registered n)
    by (simpl; rewrite lookup_insert_ne by lia;
        rewrite lookup_insert_eq; eauto).
  simpl. repeat split; intros H;
    rewrite ?elem_of_union, ?elem_of_singleton in *; tauto.
Qed.

(** X20.  What an interrupt does after the set-up: on a supplied loop
    [lws_event_sigint_cb] does nothing; on a loop the set-up made itself it
    asks that instance to leave its dispatch loop, unless the thread was
    already marked foreign before, a mark the set-up never clears. *)
Theorem sigint_after_initloop context loop tsi w p sock_fd revents :
  pt (ctx w) !! tsi = Some p ->
  valid_listeners (wsis w) (vhost_list (ctx w)) ->
  let w' := post (lws_event_initloop context loop tsi w) in
  let r := lws_event_sigint_cb sock_fd revents tsi w' in
  (loop <> NULL -> r = Run (Returns tt) w' []) /\
  (loop = NULL -> event_loop_foreign p = 0 ->
   out r = Returns tt /\
   calls r = [Cevent_base_loopbreak (fst (libevent_base_new (reactor w)))])
  /\
  (loop = NULL -> event_loop_foreign p <> 0 -> r = Run (Returns tt) w' []).
Proof.
  intros Ep Hv. cbv zeta.
  destruct (initloop_state_valid context loop tsi w p Ep Hv)
    as (_ & _ & _ & _ & p' & Ep' & El' & Ef').
  remember (post (lws_event_initloop context loop tsi w)) as w' eqn:Ew'.
  clear Ew'. unfold bound_thread in El', Ef'.
  unfold lws_event_sigint_cb. mstep. split; [| split].
  - intros Hl. apply truthy_true in Hl. rewrite Hl in Ef'. simpl in Ef'.
    rewrite Ef'. reflexivity.
  - intros -> Hf. simpl in El', Ef'. rewrite Ef', Hf, El'.
    split; reflexivity.
  - intros -> Hf. simpl in Ef'. rewrite Ef'. apply truthy_true in Hf.
    rewrite Hf. reflexivity.
Qed.

End Properties.

(** * The properties on the concrete server *)

Lemma tokens_okb_spec (w : world) : tokens_okb w = true <-> tokens_ok w.
Proof.
  assert (Ht : forall l io, token_okb l io = true <-> token_ok l io).
  { intros l io. unfold token_okb, token_ok.
    rewrite orb_true_iff, Z.eqb_eq.
    destruct (registrations l !! event_watcher io) as [e |].
    - split; intros [H | H]; [left; exact H | right; eauto
                             | left; exact H | right; reflexivity].
    - split; intros [H | H]; [left; exact H | discriminate H
                             | left; exact H |].
      destruct H as [e H]. discriminate H. }
  unfold tokens_okb, tokens_ok.
  rewrite andb_true_iff, !forallb_forall. split.
  - intros [Hm Hp]. split.
    + intros q c E. apply elem_of_map_to_list, list_elem_of_In in E.
      specialize (Hm _ E). simpl in Hm. apply andb_true_iff in Hm.
      rewrite <- !Ht. exact Hm.
    + intros i p E. apply Ht, Hp, list_elem_of_In.
      apply list_elem_of_lookup. eauto.
  - intros [Hm Hp]. split.
    + intros [q c] E. apply list_elem_of_In, elem_of_map_to_list in E.
      simpl. apply andb_true_iff. rewrite !Ht. exact (Hm q c E).
    + intros p E. apply list_elem_of_In, list_elem_of_lookup in E.
      destruct E as [i E]. apply Ht. exact (Hp i p E).
Qed.

Lemma server_listeners (w : world) :
  vhost_list (ctx w) = [Vhost 0x2000] -> is_Some (wsis w !! 0x2000) ->
  valid_listeners (wsis w) (vhost_list (ctx w)).
Proof.
  intros -> H. constructor; [intros _; exact H | constructor].
Defined.

(** Against C1 as first stated: with the adapter disabled, a loop the adapter
    made itself is not destroyed, although it is not foreign. *)
Lemma destroyloop_disabled_keeps_owned_instance :
  let w := post (@lws_event_initloop linux_libevent2 context_addr NULL 0
                   server_disabled) in
  pt (ctx w) !! 0%nat = Some (PerThread 0x100 0 (IoWatcher 0x102 NULL)) /\
  0x100 ∈ bases (reactor w) /\
  @lws_libevent_destroyloop linux_libevent2 context_addr 0 w =
  Run (Returns tt) w [].
Proof.
  cbv zeta. split; [vm_compute; reflexivity |].
  split; [apply (bool_decide_unpack _); vm_compute; exact I |].
  vm_compute. reflexivity.
Qed.

Lemma destroyloop_destroys_owned_only_witness :
  In (Cevent_base_free 0x100)
     (calls (@lws_libevent_destroyloop linux_libevent2 context_addr 0
               initialised)) /\
  forall b,
    ~ In (Cevent_base_free b)
         (calls (@lws_libevent_destroyloop linux_libevent2 context_addr 0
                   adopted)).
Proof.
  split.
  - apply (proj2 (proj2 (@destroyloop_destroys_owned_only linux_libevent2
             context_addr 0%nat initialised
             (PerThread 0x100 0 (IoWatcher 0x102 NULL)) eq_refl))).
    + apply server_listeners; [reflexivity |].
      eexists. vm_compute. reflexivity.
    + vm_compute. reflexivity.
    + vm_compute. discriminate.
    + reflexivity.
  - apply (proj1 (@destroyloop_destroys_owned_only linux_libevent2
             context_addr 0%nat adopted
             (PerThread foreign_base 1 (IoWatcher 0x101 NULL)) eq_refl)).
    vm_compute. discriminate.
Defined.

(** Against C2 as first stated: a mask with neither the read nor the write
    bit (and no timeout bit) is forwarded all the same, as a record without
    flags. *)
Lemma lws_event_cb_forwards_empty_mask :
  @lws_event_cb linux_libevent2 7 0 (IoWatcher 0x103 context_addr) serving =
  Run (Returns tt) serving [Clws_service_fd context_addr (Pollfd 7 0 0)] /\
  @lws_event_cb linux_libevent2 7 0x08 (IoWatcher 0x103 context_addr) serving =
  Run (Returns tt) serving [Clws_service_fd context_addr (Pollfd 7 0 0)].
Proof. split; reflexivity. Qed.

Lemma lws_event_cb_translation_witness :
  @lws_event_cb linux_libevent2 7 0x01 (IoWatcher 0x103 context_addr)
                serving = Run (Returns tt) serving [] /\
  exists e,
    @lws_event_cb linux_libevent2 7 0x02 (IoWatcher 0x103 context_addr)
                  serving =
    Run (Returns tt) serving [Clws_service_fd context_addr e] /\
    pfd_fd e = 7 /\
    (@readable linux_libevent2 e <-> Z.land 0x02 0x02 <> 0) /\
    (@writable linux_libevent2 e <-> Z.land 0x02 0x04 <> 0) /\
    (Z.land 0x02 0x02 = 0 -> Z.land 0x02 0x04 = 0 -> pfd_revents e = 0).
Proof.
  split.
  - apply (proj1 (@lws_event_cb_translation linux_libevent2 7 0x01
                    (IoWatcher 0x103 context_addr) serving
                    ltac:(vm_compute; discriminate)
                    ltac:(vm_compute; discriminate)
                    ltac:(vm_compute; reflexivity))).
    vm_compute. discriminate.
  - apply (proj2 (@lws_event_cb_translation linux_libevent2 7 0x02
                    (IoWatcher 0x103 context_addr) serving
                    ltac:(vm_compute; discriminate)
                    ltac:(vm_compute; discriminate)
                    ltac:(vm_compute; reflexivity))).
    + vm_compute. reflexivity.
    + vm_compute. reflexivity.
Defined.

(** C3: on a connection whose two watches are alive, a second
    [lws_libevent_destroy] releases the same two registrations again, which
    the library no longer has. *)
Theorem destroy_twice_releases_twice :
  let r1 := lws_libevent_destroy 0x3000 serving in
  let r2 := lws_libevent_destroy 0x3000 (post r1) in
  calls r1 = [Cevent_free 0x103; Cevent_free 0x104] /\
  faults (reactor (post r1)) = [] /\
  wsis (post r1) = wsis serving /\
  calls r2 = [Cevent_free 0x103; Cevent_free 0x104] /\
  faults (reactor (post r2)) = [Cevent_free 0x103; Cevent_free 0x104].
Proof. cbv zeta. repeat split; vm_compute; reflexivity. Qed.

(** C4: the tokens of the serving state are all null or alive; after
    [lws_libevent_destroy] on the client connection its two tokens are
    neither. *)
Theorem destroy_leaves_dangling_tokens :
  let w := post (lws_libevent_destroy 0x3000 serving) in
  tokens_ok serving /\
  ~ tokens_ok w /\
  (exists c, wsis w !! 0x3000 = Some c /\
     event_watcher (w_read c) = 0x103 /\
     registrations (reactor w) !! 0x103 = None /\
     event_watcher (w_write c) = 0x104 /\
     registrations (reactor w) !! 0x104 = None).
Proof.
  cbv zeta. split; [| split].
  - apply tokens_okb_spec. vm_compute. reflexivity.
  - intros H. apply tokens_okb_spec in H. vm_compute in H. discriminate H.
  - eexists. split; [vm_compute; reflexivity |].
    repeat split; vm_compute; reflexivity.
Qed.

(** The same happens to a listening connection's watch when the connection
    is released before the loop is torn down: the teardown releases it a
    second time. *)
Lemma listening_watch_released_twice :
  let r1 := lws_libevent_destroy 0x2000 initialised in
  let r2 := @lws_libevent_destroyloop linux_libevent2 context_addr 0
              (post r1) in
  calls r1 = [Cevent_free 0x101] /\
  calls r2 = [Cevent_free 0x101; Cevent_free 0x102; Cevent_base_free 0x100] /\
  faults (reactor (post r2)) = [Cevent_free 0x101].
Proof. cbv zeta. repeat split; vm_compute; reflexivity. Qed.

(** And, on a libevent older than 2.0, to the watch whose callback sees
    [EV_CLOSED]: it is deleted and freed, and the connection keeps the
    token. *)
Lemma closed_watch_keeps_token :
  let r := @lws_event_cb old_libevent 7 0x80 (IoWatcher 0x103 context_addr)
             serving in
  calls r = [Cevent_del 0x103; Cevent_free 0x103] /\
  registrations (reactor (post r)) !! 0x103 = None /\
  wsis (post r) = wsis serving.
Proof. cbv zeta. repeat split; vm_compute; reflexivity. Qed.



(** Against C6 as first stated: when [event_base_new] fails and the pipes
    are made, [lws_event_initloop] still returns success, with no instance
    for the thread. *)
Lemma initloop_succeeds_without_instance :
  let r := @lws_event_initloop linux_libevent2 context_addr NULL 0
             (server true 0) in
  out r = Returns 0 /\
  In (Cevent_base_new NULL) (calls r) /\
  event_io_loop <$> pt (ctx (post r)) !! 0%nat = Some NULL.
Proof.
  cbv zeta. split; [vm_compute; reflexivity |].
  split; [left; vm_compute; reflexivity | vm_compute; reflexivity].
Qed.

Lemma initloop_result_witness :
  out (@lws_event_initloop linux_libevent2 context_addr NULL 0
         (server false 1)) = Returns 1 /\
  out (@lws_event_initloop linux_libevent2 context_addr NULL 0
         (server true 0)) = Returns 0.
Proof.
  split.
  - apply (proj1 (@initloop_result linux_libevent2 context_addr NULL 0%nat
                    (server false 1) (PerThread NULL 0 no_watcher) eq_refl
                    (server_listeners (server false 1) eq_refl
                       (ex_intro _ (wsi0 3) eq_refl)))).
    vm_compute. discriminate.
  - apply (proj2 (@initloop_result linux_libevent2 context_addr NULL 0%nat
                    (server true 0) (PerThread NULL 0 no_watcher) eq_refl
                    (server_listeners (server true 0) eq_refl
                       (ex_intro _ (wsi0 3) eq_refl)))).
    vm_compute. reflexivity.
Defined.

(** Against C7 as first stated: with the adapter disabled, flags without any
    bit do not fail the assertion: the call returns and does nothing. *)
Lemma lws_libevent_io_disabled_no_assert :
  Z.land 0 (Z.lor (@LWS_EV_READ linux_libevent2)
                  (@LWS_EV_WRITE linux_libevent2)) = 0 /\
  @lws_libevent_io linux_libevent2 0x3000 0 server_disabled =
  Run (Returns tt) server_disabled [].
Proof. split; vm_compute; reflexivity. Qed.

Lemma lws_libevent_io_guards_witness :
  @lws_libevent_io linux_libevent2 0x3000 4 serving =
  Run AssertFailed serving [] /\
  @lws_libevent_io linux_libevent2 0x3000 5 server_disabled =
  Run (Returns tt) server_disabled [] /\
  @lws_libevent_io linux_libevent2 0x3000 5 (server false 0) =
  Run (Returns tt) (server false 0) [].
Proof.
  split; [| split].
  - apply (proj2 (proj2 (@lws_libevent_io_guards linux_libevent2 0x3000 4
                           serving
                           (Wsi context_addr 0 (role_ops_other 0) (Desc 7 7)
                                (IoWatcher 0x103 context_addr)
                                (IoWatcher 0x104 context_addr))
                           ltac:(vm_compute; reflexivity))
                    (PerThread 0x100 0 (IoWatcher 0x102 NULL))
                    ltac:(vm_compute; reflexivity))).
    + vm_compute. reflexivity.
    + vm_compute. discriminate.
    + vm_compute. reflexivity.
    + left. vm_compute. reflexivity.
  - apply (proj1 (@lws_libevent_io_guards linux_libevent2 0x3000 5
                    server_disabled (wsi0 7)
                    ltac:(vm_compute; reflexivity))).
    vm_compute. reflexivity.
  - apply (proj1 (proj2 (@lws_libevent_io_guards linux_libevent2 0x3000 5
                           (server false 0) (wsi0 7)
                           ltac:(vm_compute; reflexivity))
                    (PerThread NULL 0 no_watcher)
                    ltac:(vm_compute; reflexivity))).
    left. reflexivity.
Defined.

Lemma destroyloop_releases_before_destroy_witness :
  (Forall is_release [Cevent_free 0x101; Cevent_free 0x102] /\
   @nil call = []) /\
  @lws_libevent_destroyloop linux_libevent2 context_addr 0 server_disabled =
  Run (Returns tt) server_disabled [] /\
  @lws_libevent_destroyloop linux_libevent2 context_addr 0 (server false 0) =
  Run (Returns tt) (server false 0) [] /\
  exists rel,
    calls (@lws_libevent_destroyloop linux_libevent2 context_addr 0
             initialised) = rel ++ [Cevent_base_free 0x100] /\
    length rel = 2%nat /\
    In (Cevent_free 0x101) rel /\ In (Cevent_free 0x102) rel /\
    registrations
      (reactor (post (@lws_libevent_destroyloop linux_libevent2 context_addr
                        0 initialised))) !! 0x101 = None /\
    registrations
      (reactor (post (@lws_libevent_destroyloop linux_libevent2 context_addr
                        0 initialised))) !! 0x102 = None.
Proof.
  split; [| split; [| split]].
  - apply (proj1 (@destroyloop_releases_before_destroy linux_libevent2
                    context_addr 0%nat initialised)
             [Cevent_free 0x101; Cevent_free 0x102] (Cevent_base_free 0x100)
             []).
    + vm_compute. reflexivity.
    + exists 0x100. reflexivity.
  - apply (proj1 (proj2 (@destroyloop_releases_before_destroy
                           linux_libevent2 context_addr 0%nat
                           server_disabled))).
    vm_compute. reflexivity.
  - apply (proj1 (proj2 (proj2 (@destroyloop_releases_before_destroy
                                  linux_libevent2 context_addr 0%nat
                                  (server false 0))))
             (PerThread NULL 0 no_watcher)).
    + vm_compute. reflexivity.
    + reflexivity.
  - destruct (proj2 (proj2 (proj2 (@destroyloop_releases_before_destroy
                                     linux_libevent2 context_addr 0%nat
                                     initialised)))
                (PerThread 0x100 0 (IoWatcher 0x102 NULL))
                ltac:(vm_compute; reflexivity)
                (server_listeners initialised eq_refl
                   ltac:(eexists; vm_compute; reflexivity))
                ltac:(vm_compute; reflexivity)
                ltac:(vm_compute; discriminate))
      as (rel & _ & Ec & _ & Hn & Hl & Hs).
    exists rel. split; [exact Ec |]. split; [exact Hn |].
    destruct (Hl (Vhost 0x2000)
                 (Wsi context_addr 0 (role_ops_other 0) (Desc 3 3)
                      (IoWatcher 0x101 context_addr) no_watcher)
                 ltac:(left; reflexivity)
                 ltac:(vm_compute; discriminate)
                 ltac:(vm_compute; reflexivity)) as [A B].
    destruct (Hs ltac:(vm_compute; discriminate)) as [C D].
    auto.
Defined.

(** Against C9 as first stated: with interrupt handling on, a run of
    [lws_event_initloop] in which the wake pipes cannot be made registers no
    signal watch. *)
Lemma initloop_pipes_fail_no_sigint_watch :
  let r := @lws_event_initloop linux_libevent2 context_addr foreign_base 0
             (server false 1) in
  use_event_loop_sigint (ctx (server false 1)) = 1 /\
  calls r = [Clws_create_event_pipes context_addr 1] /\
  registrations (reactor (post r)) = ∅.
Proof. cbv zeta. repeat split; vm_compute; reflexivity. Qed.

Lemma sigint_watch_witness :
  (exists base ev pre p',
     calls (@lws_event_initloop linux_libevent2 context_addr foreign_base 0
              (server false 0)) =
     pre ++ [Cevent_new base 2 0x18 (Some Lws_event_sigint_cb) (pt_of 0) ev;
             Cevent_add ev] /\
     pt (ctx (post (@lws_event_initloop linux_libevent2 context_addr
                      foreign_base 0 (server false 0)))) !! 0%nat = Some p' /\
     event_watcher (w_sigint p') = ev) /\
  Forall (fun c => ~ is_signal_watch c)
         (calls (@lws_event_initloop linux_libevent2 context_addr
                   foreign_base 0 quiet_server)) /\
  (out (lws_event_sigint_cb 2 0x08 0 initialised) = Returns tt /\
   calls (lws_event_sigint_cb 2 0x08 0 initialised) =
   [Cevent_base_loopbreak 0x100]) /\
  lws_event_sigint_cb 2 0x08 0 adopted = Run (Returns tt) adopted [].
Proof.
  split; [| split; [| split]].
  - apply (proj1 (proj1 (proj2 (@sigint_watch linux_libevent2 context_addr
                                  foreign_base 0%nat (server false 0)
                                  (PerThread NULL 0 no_watcher) eq_refl))
                    (server_listeners (server false 0) eq_refl
                       (ex_intro _ (wsi0 3) eq_refl))
                    eq_refl)).
    vm_compute. discriminate.
  - apply (proj2 (proj1 (proj2 (@sigint_watch linux_libevent2 context_addr
                                  foreign_base 0%nat quiet_server
                                  (PerThread NULL 0 no_watcher) eq_refl))
                    (server_listeners quiet_server eq_refl
                       (ex_intro _ (wsi0 3) eq_refl))
                    eq_refl)).
    reflexivity.
  - apply (proj1 (proj2 (proj2 (@sigint_watch linux_libevent2 context_addr
                                  NULL 0%nat initialised
                                  (PerThread 0x100 0 (IoWatcher 0x102 NULL))
                                  eq_refl))
                    2 0x08)).
    reflexivity.
  - apply (proj2 (proj2 (proj2 (@sigint_watch linux_libevent2 context_addr
                                  NULL 0%nat adopted
                                  (PerThread foreign_base 1
                                             (IoWatcher 0x101 NULL))
                                  eq_refl))
                    2 0x08)).
    vm_compute. discriminate.
Defined.

Lemma lws_event_cb_events_eq_revents_witness :
  pfd_events (Pollfd 7 5 5) = pfd_revents (Pollfd 7 5 5) /\
  pfd_revents (Pollfd 7 5 5) = @translated linux_libevent2 0x06.
Proof.
  apply (@lws_event_cb_events_eq_revents linux_libevent2 7 0x06
           (IoWatcher 0x103 context_addr) serving context_addr
           (Pollfd 7 5 5)).
  left. vm_compute. reflexivity.
Defined.

(** * The further properties on the concrete server *)

Lemma libevent_wfb_spec (l : libevent) :
  libevent_wfb l = true -> libevent_wf l.
Proof.
  unfold libevent_wfb, libevent_wf.
  rewrite !andb_true_iff, !forallb_forall, Z.ltb_lt.
  intros [[Hpos Hreg] Hpend]. split; [exact Hpos |]. split.
  - intros k e E. apply elem_of_map_to_list, list_elem_of_In in E.
    specialize (Hreg _ E). simpl in Hreg.
    apply andb_true_iff in Hreg as [H1 H2].
    apply Z.ltb_lt in H1, H2. lia.
  - intros k Hk. apply elem_of_elements, list_elem_of_In in Hk.
    specialize (Hpend _ Hk). simpl in Hpend.
    destruct (registrations l !! k); [eauto | discriminate Hpend].
Qed.

Lemma lws_libevent_accept_watches_witness :
  @lws_libevent_accept linux_libevent2 0x3000 (Desc 7 7) server_disabled =
  Run (Returns tt) server_disabled [] /\
  calls (@lws_libevent_accept linux_libevent2 0x3000 (Desc 7 7) initialised)
  = [Cevent_new 0x100 7 0x12 (Some Lws_event_cb) (w_read_of 0x3000) 0x103;
     Cevent_new 0x100 7 0x14 (Some Lws_event_cb) (w_write_of 0x3000) 0x104].
Proof.
  split.
  - apply (proj1 (@lws_libevent_accept_watches linux_libevent2 0x3000
                    (Desc 7 7) server_disabled (wsi0 7)
                    ltac:(vm_compute; reflexivity))).
    vm_compute. reflexivity.
  - apply (proj1 (proj2 (proj2 (@lws_libevent_accept_watches linux_libevent2
                    0x3000 (Desc 7 7) initialised (wsi0 7)
                    ltac:(vm_compute; reflexivity))
                  own_thread
                  ltac:(vm_compute; reflexivity)
                  ltac:(vm_compute; reflexivity)))).
Defined.

Lemma accept_destroy_round_trip_witness :
  calls (lws_libevent_destroy 0x3000 serving) =
  [Cevent_free 0x103; Cevent_free 0x104] /\
  registrations (reactor (post (lws_libevent_destroy 0x3000 serving))) =
  registrations (reactor initialised).
Proof.
  pose proof (@accept_destroy_round_trip linux_libevent2 0x3000 (Desc 7 7)
                initialised (wsi0 7) own_thread
                ltac:(vm_compute; reflexivity)
                ltac:(vm_compute; reflexivity)
                ltac:(vm_compute; reflexivity)
                ltac:(vm_compute; discriminate)
                (libevent_wfb_spec (reactor initialised)
                   ltac:(vm_compute; reflexivity)))
    as (_ & Hc & Hr & _).
  split; [exact Hc | exact Hr].
Defined.

Lemma lws_libevent_io_start_witness :
  calls (@lws_libevent_io linux_libevent2 0x3000 7 serving) =
  [Cevent_add 0x104; Cevent_add 0x103] /\
  faults (reactor (post (@lws_libevent_io linux_libevent2 0x3000 7 serving)))
  = faults (reactor serving).
Proof.
  pose proof (@lws_libevent_io_start linux_libevent2 0x3000 7 serving client
                own_thread
                ltac:(vm_compute; reflexivity)
                ltac:(vm_compute; reflexivity)
                ltac:(vm_compute; reflexivity)
                ltac:(vm_compute; discriminate)
                ltac:(vm_compute; reflexivity)
                ltac:(vm_compute; discriminate)
                ltac:(vm_compute; discriminate)
                ltac:(intros _; eexists; vm_compute; reflexivity)
                ltac:(intros _; eexists; vm_compute; reflexivity))
    as (_ & Hc & _ & Hf).
  split; [exact Hc | exact Hf].
Defined.

Lemma lws_libevent_io_stop_witness :
  calls (@lws_libevent_io linux_libevent2 0x3000 11 serving) =
  [Cevent_del 0x104; Cevent_del 0x103] /\
  faults (reactor (post (@lws_libevent_io linux_libevent2 0x3000 11
                           serving)))
  = faults (reactor serving).
Proof.
  pose proof (@lws_libevent_io_stop linux_libevent2 0x3000 11 serving client
                own_thread
                ltac:(vm_compute; reflexivity)
                ltac:(vm_compute; reflexivity)
                ltac:(vm_compute; reflexivity)
                ltac:(vm_compute; discriminate)
                ltac:(vm_compute; reflexivity)
                ltac:(vm_compute; reflexivity)
                ltac:(vm_compute; discriminate)
                ltac:(vm_compute; discriminate)
                ltac:(intros _; eexists; vm_compute; reflexivity)
                ltac:(intros _; eexists; vm_compute; reflexivity))
    as (_ & Hc & _ & Hf).
  split; [exact Hc | exact Hf].
Defined.

Lemma lws_libevent_io_start_twice_witness :
  post (@lws_libevent_io linux_libevent2 0x3000 7
          (post (@lws_libevent_io linux_libevent2 0x3000 7 serving))) =
  post (@lws_libevent_io linux_libevent2 0x3000 7 serving).
Proof.
  apply (proj2 (@lws_libevent_io_start_twice linux_libevent2 0x3000 7
                  serving client own_thread
                  ltac:(vm_compute; reflexivity)
                  ltac:(vm_compute; reflexivity)
                  ltac:(vm_compute; reflexivity)
                  ltac:(vm_compute; discriminate)
                  ltac:(vm_compute; reflexivity)
                  ltac:(vm_compute; discriminate)
                  ltac:(vm_compute; discriminate)
                  ltac:(intros _; eexists; vm_compute; reflexivity)
                  ltac:(intros _; eexists; vm_compute; reflexivity))).
Defined.

Lemma lws_libevent_init_fd_table_spec_witness :
  @lws_libevent_init_fd_table linux_libevent2 context_addr server_disabled =
  Run (Returns 0) server_disabled [] /\
  (out (@lws_libevent_init_fd_table linux_libevent2 context_addr
          (server false 0)) = Returns 1 /\
   pt (ctx (post (@lws_libevent_init_fd_table linux_libevent2 context_addr
                    (server false 0)))) !! 0%nat =
   Some (PerThread NULL 0 (IoWatcher NULL context_addr))) /\
  out (@lws_libevent_init_fd_table linux_libevent2 context_addr overcounted)
  = Undefined.
Proof.
  split; [| split].
  - apply (proj1 (@lws_libevent_init_fd_table_spec linux_libevent2
                    context_addr server_disabled)).
    vm_compute. reflexivity.
  - pose proof (proj1 (proj2 (@lws_libevent_init_fd_table_spec
                                linux_libevent2 context_addr
                                (server false 0)))
                  ltac:(vm_compute; reflexivity)
                  ltac:(vm_compute; lia))
      as (Ho & _ & _ & _ & _ & Hp).
    split; [exact Ho | exact (Hp 0%nat)].
  - apply (proj2 (proj2 (@lws_libevent_init_fd_table_spec linux_libevent2
                           context_addr overcounted))).
    + vm_compute. reflexivity.
    + vm_compute. lia.
Defined.


Lemma destroyloop_twice_destroys_twice_witness :
  In (Cevent_base_free 0x100)
     (faults (reactor (post
        (@lws_libevent_destroyloop linux_libevent2 context_addr 0
           (post (@lws_libevent_destroyloop linux_libevent2 context_addr 0
                    initialised)))))).
Proof.
  apply (proj2 (proj2 (@destroyloop_twice_destroys_twice linux_libevent2
                         context_addr 0%nat initialised own_thread
                         ltac:(vm_compute; reflexivity)
                         (server_listeners initialised eq_refl
                            ltac:(eexists; vm_compute; reflexivity))
                         ltac:(vm_compute; reflexivity)
                         ltac:(vm_compute; discriminate)
                         ltac:(vm_compute; reflexivity)))).
Defined.

Lemma initloop_destroyloop_owned_witness :
  exists rel,
    calls (@lws_libevent_destroyloop linux_libevent2 context_addr 0
             initialised) = rel ++ [Cevent_base_free 0x100] /\
    Forall is_release rel.
Proof.
  apply (proj2 (proj2 (@initloop_destroyloop_owned linux_libevent2
                         context_addr 0%nat (server false 0) idle_thread
                         ltac:(vm_compute; reflexivity)
                         (server_listeners (server false 0) eq_refl
                            ltac:(eexists; vm_compute; reflexivity))
                         ltac:(vm_compute; reflexivity)
                         ltac:(vm_compute; reflexivity)
                         ltac:(vm_compute; discriminate)))).
Defined.

Lemma initloop_destroyloop_foreign_witness :
  (forall b,
     ~ In (Cevent_base_free b)
          (calls (@lws_libevent_destroyloop linux_libevent2 context_addr 0
                    adopted))) /\
  exists p',
    pt (ctx (post (@lws_libevent_destroyloop linux_libevent2 context_addr 0
                     adopted))) !! 0%nat = Some p' /\
    event_io_loop p' = foreign_base /\ event_loop_foreign p' = 1.
Proof.
  apply (proj2 (@initloop_destroyloop_foreign linux_libevent2 context_addr
                  foreign_base 0%nat (server false 0) idle_thread
                  ltac:(vm_compute; reflexivity)
                  (server_listeners (server false 0) eq_refl
                     ltac:(eexists; vm_compute; reflexivity))
                  ltac:(vm_compute; discriminate))).
Defined.

Lemma initloop_failure_keeps_instance_witness :
  out (@lws_event_initloop linux_libevent2 context_addr NULL 0
         (server false 1)) = Returns 1 /\
  calls (@lws_event_initloop linux_libevent2 context_addr NULL 0
           (server false 1)) =
  [Cevent_base_new 0x100; Clws_create_event_pipes context_addr 1] /\
  pt (ctx (post (@lws_event_initloop linux_libevent2 context_addr NULL 0
                   (server false 1)))) = [PerThread 0x100 0 no_watcher].
Proof.
  pose proof (@initloop_failure_keeps_instance linux_libevent2 context_addr
                NULL 0%nat (server false 1) idle_thread
                ltac:(vm_compute; reflexivity)
                (server_listeners (server false 1) eq_refl
                   ltac:(eexists; vm_compute; reflexivity))
                ltac:(vm_compute; discriminate))
    as (Ho & Hc & _ & Hx).
  split; [exact Ho |]. split; [exact Hc |]. rewrite Hx. reflexivity.
Defined.

Lemma initloop_watches_are_live_witness :
  (exists c',
     wsis adopted !! 0x2000 = Some c' /\
     io_context (w_read c') = context_addr /\
     @live_watch (reactor adopted) (event_watcher (w_read c'))
       (@read_event linux_libevent2 foreign_base (sockfd (desc c'))
                    0x2000)) /\
  exists p',
    pt (ctx adopted) !! 0%nat = Some p' /\
    event_io_loop p' = foreign_base /\
    live_watch (reactor adopted) (event_watcher (w_sigint p'))
      (@signal_event linux_libevent2 foreign_base
                     (Some Lws_event_sigint_cb) 0).
Proof.
  pose proof (@initloop_watches_are_live linux_libevent2 context_addr
                foreign_base 0%nat (server false 0) idle_thread
                ltac:(vm_compute; reflexivity)
                (server_listeners (server false 0) eq_refl
                   ltac:(eexists; vm_compute; reflexivity))
                ltac:(vm_compute; reflexivity)
                ltac:(vm_compute; discriminate)
                ltac:(apply (bool_decide_unpack _); vm_compute; exact I))
    as (_ & Hl & p' & Ep' & El & Hs).
  split.
  - apply (Hl (Vhost 0x2000)); [left; reflexivity | vm_compute; discriminate].
  - exists p'. split; [exact Ep' |]. split; [exact El |].
    apply Hs. vm_compute. discriminate.
Defined.

Lemma initloop_keeps_tokens_ok_witness : tokens_ok initialised.
Proof.
  apply (@initloop_keeps_tokens_ok linux_libevent2 context_addr NULL 0%nat
           (server false 0) idle_thread
           ltac:(vm_compute; reflexivity)
           (server_listeners (server false 0) eq_refl
              ltac:(eexists; vm_compute; reflexivity))).
  apply tokens_okb_spec. vm_compute. reflexivity.
Defined.

Lemma accept_keeps_tokens_ok_witness : tokens_ok serving.
Proof.
  apply (@accept_keeps_tokens_ok linux_libevent2 0x3000 (Desc 7 7)
           initialised (wsi0 7) own_thread
           ltac:(vm_compute; reflexivity)
           ltac:(vm_compute; reflexivity)).
  apply tokens_okb_spec. vm_compute. reflexivity.
Defined.

Lemma run_after_initloop_witness :
  @lws_libevent_run linux_libevent2 context_addr 0 initialised =
  Run (Returns tt) initialised [Cevent_base_dispatch 0x100] /\
  @lws_libevent_run linux_libevent2 context_addr 0 adopted =
  Run (Returns tt) adopted [Cevent_base_dispatch foreign_base].
Proof.
  split.
  - apply (@run_after_initloop linux_libevent2 context_addr NULL 0%nat
             (server false 0) idle_thread
             ltac:(vm_compute; reflexivity)
             (server_listeners (server false 0) eq_refl
                ltac:(eexists; vm_compute; reflexivity))
             ltac:(vm_compute; reflexivity)).
  - apply (@run_after_initloop linux_libevent2 context_addr foreign_base
             0%nat (server false 0) idle_thread
             ltac:(vm_compute; reflexivity)
             (server_listeners (server false 0) eq_refl
                ltac:(eexists; vm_compute; reflexivity))
             ltac:(vm_compute; reflexivity)).
Defined.

Lemma failed_instance_is_inert_witness :
  let w' := post (@lws_event_initloop linux_libevent2 context_addr NULL 0
                    (server true 0)) in
  @lws_libevent_destroyloop linux_libevent2 context_addr 0 w' =
  Run (Returns tt) w' [] /\
  @lws_libevent_io linux_libevent2 0x3000 7 w' = Run (Returns tt) w' [].
Proof.
  pose proof (@failed_instance_is_inert linux_libevent2 context_addr 0%nat
                (server true 0) idle_thread
                ltac:(vm_compute; reflexivity)
                (server_listeners (server true 0) eq_refl
                   ltac:(eexists; vm_compute; reflexivity))
                ltac:(vm_compute; reflexivity))
    as (Hd & _ & Hio).
  split; [exact Hd |].
  apply (Hio 0x3000 7 (wsi0 7)); vm_compute; reflexivity.
Defined.

Lemma sigint_cfg_then_initloop_witness :
  (exists pre ev,
     calls (@lws_event_initloop linux_libevent2 context_addr NULL 0
              (post (lws_event_sigint_cfg context_addr 1 (Some (User_cb 5))
                       (server false 0)))) =
     pre ++ [Cevent_new NULL 2 0x18 (Some (User_cb 5)) (pt_of 0) ev;
             Cevent_add ev]) /\
  Forall (fun c => ~ is_signal_watch c)
         (calls (@lws_event_initloop linux_libevent2 context_addr NULL 0
                   quiet_server)).
Proof.
  split.
  - apply (proj1 (@sigint_cfg_then_initloop linux_libevent2 context_addr
                    NULL 0%nat (server false 0) idle_thread 1
                    (Some (User_cb 5))
                    ltac:(vm_compute; reflexivity)
                    (server_listeners (server false 0) eq_refl
                       ltac:(eexists; vm_compute; reflexivity))
                    ltac:(vm_compute; reflexivity))).
    discriminate.
  - apply (proj2 (@sigint_cfg_then_initloop linux_libevent2 context_addr
                    NULL 0%nat (server false 0) idle_thread 0 None
                    ltac:(vm_compute; reflexivity)
                    (server_listeners (server false 0) eq_refl
                       ltac:(eexists; vm_compute; reflexivity))
                    ltac:(vm_compute; reflexivity))).
    reflexivity.
Defined.

Lemma accept_then_start_witness :
  calls (@lws_libevent_io linux_libevent2 0x3000 7 serving) =
  [Cevent_add 0x104; Cevent_add 0x103] /\
  (0x103 ∈ pending (reactor (post (@lws_libevent_io linux_libevent2 0x3000 7
                                     serving)))).
Proof.
  pose proof (@accept_then_start linux_libevent2 0x3000 (Desc 7 7)
                initialised (wsi0 7) own_thread 7
                ltac:(vm_compute; reflexivity)
                ltac:(vm_compute; reflexivity)
                ltac:(vm_compute; reflexivity)
                ltac:(vm_compute; discriminate)
                ltac:(vm_compute; reflexivity)
                ltac:(vm_compute; discriminate)
                ltac:(vm_compute; discriminate)
                ltac:(vm_compute; discriminate))
    as (_ & Hc & Hp & _).
  split; [exact Hc |]. apply Hp. left. reflexivity.
Defined.

Lemma sigint_after_initloop_witness :
  lws_event_sigint_cb 2 0x08 0 adopted = Run (Returns tt) adopted [] /\
  calls (lws_event_sigint_cb 2 0x08 0 initialised) =
  [Cevent_base_loopbreak 0x100] /\
  calls (lws_event_sigint_cb 2 0x08 0
           (post (@lws_event_initloop linux_libevent2 context_addr NULL 0
                    adopted))) = [].
Proof.
  split; [| split].
  - apply (proj1 (@sigint_after_initloop linux_libevent2 context_addr
                    foreign_base 0%nat (server false 0) idle_thread 2 0x08
                    ltac:(vm_compute; reflexivity)
                    (server_listeners (server false 0) eq_refl
                       ltac:(eexists; vm_compute; reflexivity)))).
    vm_compute. discriminate.
  - apply (proj1 (proj2 (@sigint_after_initloop linux_libevent2 context_addr
                           NULL 0%nat (server false 0) idle_thread 2 0x08
                           ltac:(vm_compute; reflexivity)
                           (server_listeners (server false 0) eq_refl
                              ltac:(eexists; vm_compute; reflexivity))))).
    + reflexivity.
    + reflexivity.
  - rewrite (proj2 (proj2 (@sigint_after_initloop linux_libevent2
                             context_addr NULL 0%nat adopted adopted_thread
                             2 0x08
                             ltac:(vm_compute; reflexivity)
                             (server_listeners adopted eq_refl
                                ltac:(eexists; vm_compute; reflexivity))))
               eq_refl ltac:(vm_compute; discriminate)).
    reflexivity.
Defined.
